(** * BattlegroundMgr: a shallow embedding of
      src/server/game/Battlegrounds/BattlegroundMgr.cpp

    The manager owns the catalog of battleground templates, the pool of
    live instances with their client-visible ids, the deduplicating list
    of scheduled queue updates, and the tick entry point [Update].

    Conventions of the embedding:
    - fixed-width unsigned integers are [Z] with the wrap-around written
      out ([wrap8], [wrap32], [wrap64]);
    - [std::map] and [std::set] are key-ordered lists, because the code
      relies on [begin()] being the smallest key and on in-order iteration;
    - C arrays are lists of the declared length, indexed with stdpp's
      list lookup; an index outside the array is undefined behaviour;
    - a computation that can hit undefined behaviour, or run a loop whose
      termination is not structural, returns a [result];
    - calls on the queue objects [m_BattlegroundQueues[i]], which live
      outside this file, are recorded as [QueueCall] events carrying the
      index [i] the code uses. *)

From Stdlib Require Import ZArith Lia.
From stdpp Require Import base decidable option numbers list sorting gmap.

Local Open Scope Z_scope.

(** ** Machine integers *)

Definition wrap8 (x : Z) : Z := x mod 2 ^ 8.
Definition wrap32 (x : Z) : Z := x mod 2 ^ 32.
Definition wrap64 (x : Z) : Z := x mod 2 ^ 64.

(** ** Outcome of a computation *)

Inductive result (A : Type) : Type :=
| Done (a : A)
| Undefined      (* behaviour the C++ standard leaves undefined *)
| OutOfFuel.     (* the loop did not finish within the given fuel *)

Arguments Done {A} a.
Arguments Undefined {A}.
Arguments OutOfFuel {A}.

#[global] Instance result_ret : MRet result := fun A a => Done a.
#[global] Instance result_bind : MBind result := fun A B f r =>
  match r with
  | Done a => f a
  | Undefined => Undefined
  | OutOfFuel => OutOfFuel
  end.

(** ** Ordered containers *)

(** [std::map<uint32, V>]: entries in increasing key order. *)
Module StdMap.
Definition t (V : Type) : Type := list (Z * V).

Fixpoint find {V} (k : Z) (m : t V) : option V :=
  match m with
  | [] => None
  | (k', v) :: rest => if decide (k = k') then Some v else find k rest
  end.

(** [m[k] = v] *)
Fixpoint assign {V} (k : Z) (v : V) (m : t V) : t V :=
  match m with
  | [] => [(k, v)]
  | (k', v') :: rest =>
      if decide (k < k') then (k, v) :: (k', v') :: rest
      else if decide (k = k') then (k, v) :: rest
      else (k', v') :: assign k v rest
  end.

Fixpoint erase {V} (k : Z) (m : t V) : t V :=
  match m with
  | [] => []
  | (k', v) :: rest => if decide (k = k') then rest else (k', v) :: erase k rest
  end.

(** [m.begin()], when [m] is not empty. *)
Definition begin {V} (m : t V) : option (Z * V) := head m.

Definition sorted {V} (m : t V) : Prop := StronglySorted Z.lt (m.*1).
End StdMap.

(** [std::set<uint32>]: elements in increasing order, no repetition. *)
Module StdSet.
Definition t : Type := list Z.

Fixpoint insert (x : Z) (s : t) : t :=
  match s with
  | [] => [x]
  | y :: rest =>
      if decide (x < y) then x :: y :: rest
      else if decide (x = y) then y :: rest
      else y :: insert x rest
  end.

Fixpoint erase (x : Z) (s : t) : t :=
  match s with
  | [] => []
  | y :: rest => if decide (x = y) then rest else y :: erase x rest
  end.

Definition empty (s : t) : bool := match s with [] => true | _ => false end.

Definition sorted (s : t) : Prop := StronglySorted Z.lt s.
End StdSet.

(** A C array of declared length [length a]: reading or writing outside it
    is undefined behaviour. *)
Definition array_get {A} (a : list A) (i : Z) : result A :=
  if decide (0 <= i) then
    match a !! Z.to_nat i with
    | Some x => Done x
    | None => Undefined
    end
  else Undefined.

Definition array_set {A} (a : list A) (i : Z) (x : A) : list A :=
  <[Z.to_nat i := x]> a.

(** [for (int x = lo; x < hi; ++x)]: the values [x] takes, in order. *)
Definition int_range (lo hi : Z) : list Z := seqZ lo (hi - lo).

(** ** Enumerators declared in headers

    The enumerator values of [BattlegroundTypeId], [BattlegroundQueueTypeId],
    [HolidayIds] and the bracket and interval constants come from
    SharedDefines.h, DBCEnums.h and Battleground.h; the code below is
    parametric in them. *)
Class SharedDefines : Type := {
  (* enum BattlegroundTypeId *)
  BATTLEGROUND_TYPE_NONE : Z;
  BATTLEGROUND_AV : Z;
  BATTLEGROUND_WS : Z;
  BATTLEGROUND_AB : Z;
  BATTLEGROUND_NA : Z;
  BATTLEGROUND_BE : Z;
  BATTLEGROUND_AA : Z;
  BATTLEGROUND_EY : Z;
  BATTLEGROUND_RL : Z;
  BATTLEGROUND_SA : Z;
  BATTLEGROUND_DS : Z;
  BATTLEGROUND_RV : Z;
  BATTLEGROUND_IC : Z;
  BATTLEGROUND_RB : Z;
  BATTLEGROUND_TP : Z;
  BATTLEGROUND_BFG : Z;
  (* enum BattlegroundQueueTypeId *)
  BATTLEGROUND_QUEUE_NONE : Z;
  BATTLEGROUND_QUEUE_AV : Z;
  BATTLEGROUND_QUEUE_WS : Z;
  BATTLEGROUND_QUEUE_AB : Z;
  BATTLEGROUND_QUEUE_EY : Z;
  BATTLEGROUND_QUEUE_SA : Z;
  BATTLEGROUND_QUEUE_IC : Z;
  BATTLEGROUND_QUEUE_TP : Z;
  BATTLEGROUND_QUEUE_BFG : Z;
  BATTLEGROUND_QUEUE_RB : Z;
  BATTLEGROUND_QUEUE_2v2 : Z;
  BATTLEGROUND_QUEUE_3v3 : Z;
  BATTLEGROUND_QUEUE_5v5 : Z;
  MAX_BATTLEGROUND_QUEUE_TYPES : Z;
  (* enum HolidayIds *)
  HOLIDAY_NONE : Z;
  HOLIDAY_CALL_TO_ARMS_AV : Z;
  HOLIDAY_CALL_TO_ARMS_EY : Z;
  HOLIDAY_CALL_TO_ARMS_WS : Z;
  HOLIDAY_CALL_TO_ARMS_SA : Z;
  HOLIDAY_CALL_TO_ARMS_AB : Z;
  HOLIDAY_CALL_TO_ARMS_IC : Z;
  HOLIDAY_CALL_TO_ARMS_TP : Z;
  HOLIDAY_CALL_TO_ARMS_BFG : Z;
  (* enum BattlegroundBracketId *)
  BG_BRACKET_ID_FIRST : Z;
  MAX_BATTLEGROUND_BRACKETS : Z;
  (* Battleground.h *)
  BATTLEGROUND_OBJECTIVE_UPDATE_INTERVAL : Z;
  (* enum MapTypes *)
  MAP_ARENA : Z
}.

(** Modelled from the spec: the enumerators ARENA_TYPE_2v2, ARENA_TYPE_3v3
    and ARENA_TYPE_5v5 of Battleground.h are the arena team sizes, which the
    specification gives as 2, 3 and 5. *)
Definition ARENA_TYPE_2v2 : Z := 2.
Definition ARENA_TYPE_3v3 : Z := 3.
Definition ARENA_TYPE_5v5 : Z := 5.

(** Modelled from the spec: the lifecycle statuses of Battleground.h that
    [CreateNewBattleground] names in its code and comments. *)
Inductive BattlegroundStatus : Set :=
| STATUS_NONE
| STATUS_WAIT_QUEUE
| STATUS_WAIT_JOIN.

(** [switch (x) { case l1: b1; ... default: d }] with one body per label. *)
Fixpoint switch {A} (x : Z) (cases : list (Z * A)) (default : A) : A :=
  match cases with
  | [] => default
  | (label, body) :: rest =>
      if decide (x = label) then body else switch x rest default
  end.

(** ** QueueClassifier: the pure mappings *)

Section Classifier.
Context {D : SharedDefines}.

(** The case labels of the [switch] statements: of [BGQueueTypeId] (and of
    [CreateNewBattleground] and [CreateBattleground]), of [BGTemplateId], of
    [BGTypeToWeekendHolidayId] and of [WeekendHolidayIdToBGType]. C++ rejects
    a [switch] with two equal case labels, so within each list the values are
    pairwise different. *)
Definition bg_type_labels : list Z :=
  [ BATTLEGROUND_AB; BATTLEGROUND_AV; BATTLEGROUND_EY; BATTLEGROUND_IC;
    BATTLEGROUND_TP; BATTLEGROUND_BFG; BATTLEGROUND_RB; BATTLEGROUND_SA;
    BATTLEGROUND_WS; BATTLEGROUND_AA; BATTLEGROUND_BE; BATTLEGROUND_DS;
    BATTLEGROUND_NA; BATTLEGROUND_RL; BATTLEGROUND_RV ].

Definition bg_queue_labels : list Z :=
  [ BATTLEGROUND_QUEUE_WS; BATTLEGROUND_QUEUE_AB; BATTLEGROUND_QUEUE_AV;
    BATTLEGROUND_QUEUE_EY; BATTLEGROUND_QUEUE_SA; BATTLEGROUND_QUEUE_IC;
    BATTLEGROUND_QUEUE_TP; BATTLEGROUND_QUEUE_BFG; BATTLEGROUND_QUEUE_RB;
    BATTLEGROUND_QUEUE_2v2; BATTLEGROUND_QUEUE_3v3; BATTLEGROUND_QUEUE_5v5 ].

Definition holiday_labels : list Z :=
  [ HOLIDAY_CALL_TO_ARMS_AV; HOLIDAY_CALL_TO_ARMS_EY; HOLIDAY_CALL_TO_ARMS_WS;
    HOLIDAY_CALL_TO_ARMS_SA; HOLIDAY_CALL_TO_ARMS_AB; HOLIDAY_CALL_TO_ARMS_IC;
    HOLIDAY_CALL_TO_ARMS_TP; HOLIDAY_CALL_TO_ARMS_BFG ].

Definition holiday_kind_labels : list Z :=
  [ BATTLEGROUND_AV; BATTLEGROUND_EY; BATTLEGROUND_WS; BATTLEGROUND_SA;
    BATTLEGROUND_AB; BATTLEGROUND_IC; BATTLEGROUND_TP; BATTLEGROUND_BFG ].

Definition case_labels_distinct : bool :=
  bool_decide (NoDup bg_type_labels)
  && bool_decide (NoDup bg_queue_labels)
  && bool_decide (NoDup holiday_kind_labels)
  && bool_decide (NoDup holiday_labels).

(** bool BattlegroundMgr::IsArenaType(BattlegroundTypeId bgTypeId) *)
Definition IsArenaType (bgTypeId : Z) : bool :=
  bool_decide (bgTypeId = BATTLEGROUND_AA)
  || bool_decide (bgTypeId = BATTLEGROUND_BE)
  || bool_decide (bgTypeId = BATTLEGROUND_NA)
  || bool_decide (bgTypeId = BATTLEGROUND_DS)
  || bool_decide (bgTypeId = BATTLEGROUND_RV)
  || bool_decide (bgTypeId = BATTLEGROUND_RL).

(** BattlegroundQueueTypeId BattlegroundMgr::BGQueueTypeId(
      BattlegroundTypeId bgTypeId, uint8 arenaType) *)
Definition BGQueueTypeId (bgTypeId arenaType : Z) : Z :=
  let arena :=
    switch arenaType
      [ (ARENA_TYPE_2v2, BATTLEGROUND_QUEUE_2v2);
        (ARENA_TYPE_3v3, BATTLEGROUND_QUEUE_3v3);
        (ARENA_TYPE_5v5, BATTLEGROUND_QUEUE_5v5) ]
      BATTLEGROUND_QUEUE_NONE in
  switch bgTypeId
    [ (BATTLEGROUND_AB, BATTLEGROUND_QUEUE_AB);
      (BATTLEGROUND_AV, BATTLEGROUND_QUEUE_AV);
      (BATTLEGROUND_EY, BATTLEGROUND_QUEUE_EY);
      (BATTLEGROUND_IC, BATTLEGROUND_QUEUE_IC);
      (BATTLEGROUND_TP, BATTLEGROUND_QUEUE_TP);
      (BATTLEGROUND_BFG, BATTLEGROUND_QUEUE_BFG);
      (BATTLEGROUND_RB, BATTLEGROUND_QUEUE_RB);
      (BATTLEGROUND_SA, BATTLEGROUND_QUEUE_SA);
      (BATTLEGROUND_WS, BATTLEGROUND_QUEUE_WS);
      (BATTLEGROUND_AA, arena);
      (BATTLEGROUND_BE, arena);
      (BATTLEGROUND_DS, arena);
      (BATTLEGROUND_NA, arena);
      (BATTLEGROUND_RL, arena);
      (BATTLEGROUND_RV, arena) ]
    BATTLEGROUND_QUEUE_NONE.

(** BattlegroundTypeId BattlegroundMgr::BGTemplateId(
      BattlegroundQueueTypeId bgQueueTypeId) *)
Definition BGTemplateId (bgQueueTypeId : Z) : Z :=
  switch bgQueueTypeId
    [ (BATTLEGROUND_QUEUE_WS, BATTLEGROUND_WS);
      (BATTLEGROUND_QUEUE_AB, BATTLEGROUND_AB);
      (BATTLEGROUND_QUEUE_AV, BATTLEGROUND_AV);
      (BATTLEGROUND_QUEUE_EY, BATTLEGROUND_EY);
      (BATTLEGROUND_QUEUE_SA, BATTLEGROUND_SA);
      (BATTLEGROUND_QUEUE_IC, BATTLEGROUND_IC);
      (BATTLEGROUND_QUEUE_TP, BATTLEGROUND_TP);
      (BATTLEGROUND_QUEUE_BFG, BATTLEGROUND_BFG);
      (BATTLEGROUND_QUEUE_RB, BATTLEGROUND_RB);
      (BATTLEGROUND_QUEUE_2v2, BATTLEGROUND_AA);
      (BATTLEGROUND_QUEUE_3v3, BATTLEGROUND_AA);
      (BATTLEGROUND_QUEUE_5v5, BATTLEGROUND_AA) ]
    0.   (* BattlegroundTypeId(0): used for unknown template *)

(** uint8 BattlegroundMgr::BGArenaType(BattlegroundQueueTypeId bgQueueTypeId) *)
Definition BGArenaType (bgQueueTypeId : Z) : Z :=
  switch bgQueueTypeId
    [ (BATTLEGROUND_QUEUE_2v2, ARENA_TYPE_2v2);
      (BATTLEGROUND_QUEUE_3v3, ARENA_TYPE_3v3);
      (BATTLEGROUND_QUEUE_5v5, ARENA_TYPE_5v5) ]
    0.

(** HolidayIds BattlegroundMgr::BGTypeToWeekendHolidayId(
      BattlegroundTypeId bgTypeId) *)
Definition BGTypeToWeekendHolidayId (bgTypeId : Z) : Z :=
  switch bgTypeId
    [ (BATTLEGROUND_AV, HOLIDAY_CALL_TO_ARMS_AV);
      (BATTLEGROUND_EY, HOLIDAY_CALL_TO_ARMS_EY);
      (BATTLEGROUND_WS, HOLIDAY_CALL_TO_ARMS_WS);
      (BATTLEGROUND_SA, HOLIDAY_CALL_TO_ARMS_SA);
      (BATTLEGROUND_AB, HOLIDAY_CALL_TO_ARMS_AB);
      (BATTLEGROUND_IC, HOLIDAY_CALL_TO_ARMS_IC);
      (BATTLEGROUND_TP, HOLIDAY_CALL_TO_ARMS_TP);
      (BATTLEGROUND_BFG, HOLIDAY_CALL_TO_ARMS_BFG) ]
    HOLIDAY_NONE.

(** BattlegroundTypeId BattlegroundMgr::WeekendHolidayIdToBGType(
      HolidayIds holiday) *)
Definition WeekendHolidayIdToBGType (holiday : Z) : Z :=
  switch holiday
    [ (HOLIDAY_CALL_TO_ARMS_AV, BATTLEGROUND_AV);
      (HOLIDAY_CALL_TO_ARMS_EY, BATTLEGROUND_EY);
      (HOLIDAY_CALL_TO_ARMS_WS, BATTLEGROUND_WS);
      (HOLIDAY_CALL_TO_ARMS_SA, BATTLEGROUND_SA);
      (HOLIDAY_CALL_TO_ARMS_AB, BATTLEGROUND_AB);
      (HOLIDAY_CALL_TO_ARMS_IC, BATTLEGROUND_IC);
      (HOLIDAY_CALL_TO_ARMS_TP, BATTLEGROUND_TP);
      (HOLIDAY_CALL_TO_ARMS_BFG, BATTLEGROUND_BFG) ]
    BATTLEGROUND_TYPE_NONE.

End Classifier.

(** ** Data model *)

(** The fields of BattlemasterListEntry (DB2Structure.h) that this file
    reads. [MapID] is a fixed array whose unused slots hold -1. *)
Record BattlemasterListEntry : Type := {
  InstanceType : Z;
  MinPlayers : Z;
  MaxPlayers : Z;
  MinLevel : Z;
  MaxLevel : Z;
  MapID : list Z
}.

Record BattlegroundTemplate : Type := {
  Id : Z;
  Weight : Z;
  BattlemasterEntry : BattlemasterListEntry
}.

(** PVPDifficultyEntry, as far as [CreateNewBattleground] reads it. *)
Record PVPDifficultyEntry : Type := {
  GetBracketId : Z
}.

(** Modelled from the spec: the state of a match instance (class Battleground,
    Battleground.h): type, resolved type, resource handle, client-visible
    id, bracket, team size, rated and random flags, lifecycle status and
    completion flag. *)
Record Battleground : Type := {
  m_TypeID : Z;
  m_RandomTypeID : Z;
  m_InstanceID : Z;
  m_ClientInstanceID : Z;
  m_BracketId : Z;
  m_ArenaType : Z;
  m_IsRated : bool;
  m_IsRandom : bool;
  m_IsArena : bool;
  m_Status : BattlegroundStatus;
  m_ElapsedTime : Z;
  m_SetDeleteThis : bool
}.

Definition SetInstanceID (id : Z) (bg : Battleground) : Battleground :=
  {| m_TypeID := m_TypeID bg; m_RandomTypeID := m_RandomTypeID bg;
     m_InstanceID := id; m_ClientInstanceID := m_ClientInstanceID bg;
     m_BracketId := m_BracketId bg; m_ArenaType := m_ArenaType bg;
     m_IsRated := m_IsRated bg; m_IsRandom := m_IsRandom bg;
     m_IsArena := m_IsArena bg; m_Status := m_Status bg;
     m_ElapsedTime := m_ElapsedTime bg; m_SetDeleteThis := m_SetDeleteThis bg |}.

Definition SetClientInstanceID (id : Z) (bg : Battleground) : Battleground :=
  {| m_TypeID := m_TypeID bg; m_RandomTypeID := m_RandomTypeID bg;
     m_InstanceID := m_InstanceID bg; m_ClientInstanceID := id;
     m_BracketId := m_BracketId bg; m_ArenaType := m_ArenaType bg;
     m_IsRated := m_IsRated bg; m_IsRandom := m_IsRandom bg;
     m_IsArena := m_IsArena bg; m_Status := m_Status bg;
     m_ElapsedTime := m_ElapsedTime bg; m_SetDeleteThis := m_SetDeleteThis bg |}.

Definition SetBracket (bracketEntry : PVPDifficultyEntry) (bg : Battleground)
  : Battleground :=
  {| m_TypeID := m_TypeID bg; m_RandomTypeID := m_RandomTypeID bg;
     m_InstanceID := m_InstanceID bg;
     m_ClientInstanceID := m_ClientInstanceID bg;
     m_BracketId := GetBracketId bracketEntry; m_ArenaType := m_ArenaType bg;
     m_IsRated := m_IsRated bg; m_IsRandom := m_IsRandom bg;
     m_IsArena := m_IsArena bg; m_Status := m_Status bg;
     m_ElapsedTime := m_ElapsedTime bg; m_SetDeleteThis := m_SetDeleteThis bg |}.

Definition SetStatus (status : BattlegroundStatus) (bg : Battleground)
  : Battleground :=
  {| m_TypeID := m_TypeID bg; m_RandomTypeID := m_RandomTypeID bg;
     m_InstanceID := m_InstanceID bg;
     m_ClientInstanceID := m_ClientInstanceID bg;
     m_BracketId := m_BracketId bg; m_ArenaType := m_ArenaType bg;
     m_IsRated := m_IsRated bg; m_IsRandom := m_IsRandom bg;
     m_IsArena := m_IsArena bg; m_Status := status;
     m_ElapsedTime := m_ElapsedTime bg; m_SetDeleteThis := m_SetDeleteThis bg |}.

(** Modelled from the spec: Battleground::Reset (Battleground.cpp), the
    contract's resetToWaiting; the call site says it sets the status to
    status_wait_queue. *)
Definition Reset (bg : Battleground) : Battleground :=
  {| m_TypeID := m_TypeID bg; m_RandomTypeID := m_RandomTypeID bg;
     m_InstanceID := m_InstanceID bg;
     m_ClientInstanceID := m_ClientInstanceID bg;
     m_BracketId := m_BracketId bg; m_ArenaType := m_ArenaType bg;
     m_IsRated := m_IsRated bg; m_IsRandom := m_IsRandom bg;
     m_IsArena := m_IsArena bg; m_Status := STATUS_WAIT_QUEUE;
     m_ElapsedTime := 0; m_SetDeleteThis := m_SetDeleteThis bg |}.

Definition SetArenaType (arenaType : Z) (bg : Battleground) : Battleground :=
  {| m_TypeID := m_TypeID bg; m_RandomTypeID := m_RandomTypeID bg;
     m_InstanceID := m_InstanceID bg;
     m_ClientInstanceID := m_ClientInstanceID bg;
     m_BracketId := m_BracketId bg; m_ArenaType := arenaType;
     m_IsRated := m_IsRated bg; m_IsRandom := m_IsRandom bg;
     m_IsArena := m_IsArena bg; m_Status := m_Status bg;
     m_ElapsedTime := m_ElapsedTime bg; m_SetDeleteThis := m_SetDeleteThis bg |}.

Definition SetRandomTypeID (bgTypeId : Z) (bg : Battleground) : Battleground :=
  {| m_TypeID := m_TypeID bg; m_RandomTypeID := bgTypeId;
     m_InstanceID := m_InstanceID bg;
     m_ClientInstanceID := m_ClientInstanceID bg;
     m_BracketId := m_BracketId bg; m_ArenaType := m_ArenaType bg;
     m_IsRated := m_IsRated bg; m_IsRandom := m_IsRandom bg;
     m_IsArena := m_IsArena bg; m_Status := m_Status bg;
     m_ElapsedTime := m_ElapsedTime bg; m_SetDeleteThis := m_SetDeleteThis bg |}.

Definition SetRated (isRated : bool) (bg : Battleground) : Battleground :=
  {| m_TypeID := m_TypeID bg; m_RandomTypeID := m_RandomTypeID bg;
     m_InstanceID := m_InstanceID bg;
     m_ClientInstanceID := m_ClientInstanceID bg;
     m_BracketId := m_BracketId bg; m_ArenaType := m_ArenaType bg;
     m_IsRated := isRated; m_IsRandom := m_IsRandom bg;
     m_IsArena := m_IsArena bg; m_Status := m_Status bg;
     m_ElapsedTime := m_ElapsedTime bg; m_SetDeleteThis := m_SetDeleteThis bg |}.

Definition SetRandom (isRandom : bool) (bg : Battleground) : Battleground :=
  {| m_TypeID := m_TypeID bg; m_RandomTypeID := m_RandomTypeID bg;
     m_InstanceID := m_InstanceID bg;
     m_ClientInstanceID := m_ClientInstanceID bg;
     m_BracketId := m_BracketId bg; m_ArenaType := m_ArenaType bg;
     m_IsRated := m_IsRated bg; m_IsRandom := isRandom;
     m_IsArena := m_IsArena bg; m_Status := m_Status bg;
     m_ElapsedTime := m_ElapsedTime bg; m_SetDeleteThis := m_SetDeleteThis bg |}.

(** bool Battleground::ToBeDeleted() const *)
Definition ToBeDeleted (bg : Battleground) : bool := m_SetDeleteThis bg.

(** The behaviour of a match object on a tick, [bg->Update(diff)], is
    implemented per kind outside this file. *)
Class BattlegroundScript : Type := {
  Battleground_Update : Z -> Battleground -> Battleground
}.

(** typedef std::map<uint32, Battleground*> BattlegroundContainer;
    typedef std::set<uint32> BattlegroundClientIdsContainer;
    struct BattlegroundData (BattlegroundMgr.h). The manager owns the
    objects its container points to (it deletes them), so each entry is the
    object itself. *)
Definition BattlegroundContainer : Type := StdMap.t Battleground.
Definition BattlegroundClientIdsContainer : Type := StdSet.t.

Record BattlegroundData : Type := {
  m_Battlegrounds : BattlegroundContainer;
  (* BattlegroundClientIdsContainer m_ClientBattlegroundIds[MAX_BATTLEGROUND_BRACKETS] *)
  m_ClientBattlegroundIds : list BattlegroundClientIdsContainer
}.

(** The members of BattlegroundMgr that the modelled functions use. The
    by-map index points at entries of the by-type catalog; it is read-only
    after load and holds the entry it points to. *)
Record BattlegroundMgr : Type := {
  bgDataStore : StdMap.t BattlegroundData;
  m_QueueUpdateScheduler : list Z;
  m_NextRatedArenaUpdate : Z;
  m_UpdateTimer : Z;
  _battlegroundTemplates : StdMap.t BattlegroundTemplate;
  _battlegroundMapTemplates : StdMap.t BattlegroundTemplate
}.

Definition with_bgDataStore (store : StdMap.t BattlegroundData)
  (mgr : BattlegroundMgr) : BattlegroundMgr :=
  {| bgDataStore := store;
     m_QueueUpdateScheduler := m_QueueUpdateScheduler mgr;
     m_NextRatedArenaUpdate := m_NextRatedArenaUpdate mgr;
     m_UpdateTimer := m_UpdateTimer mgr;
     _battlegroundTemplates := _battlegroundTemplates mgr;
     _battlegroundMapTemplates := _battlegroundMapTemplates mgr |}.

Definition with_QueueUpdateScheduler (pending : list Z)
  (mgr : BattlegroundMgr) : BattlegroundMgr :=
  {| bgDataStore := bgDataStore mgr;
     m_QueueUpdateScheduler := pending;
     m_NextRatedArenaUpdate := m_NextRatedArenaUpdate mgr;
     m_UpdateTimer := m_UpdateTimer mgr;
     _battlegroundTemplates := _battlegroundTemplates mgr;
     _battlegroundMapTemplates := _battlegroundMapTemplates mgr |}.

Definition with_NextRatedArenaUpdate (countdown : Z)
  (mgr : BattlegroundMgr) : BattlegroundMgr :=
  {| bgDataStore := bgDataStore mgr;
     m_QueueUpdateScheduler := m_QueueUpdateScheduler mgr;
     m_NextRatedArenaUpdate := countdown;
     m_UpdateTimer := m_UpdateTimer mgr;
     _battlegroundTemplates := _battlegroundTemplates mgr;
     _battlegroundMapTemplates := _battlegroundMapTemplates mgr |}.

Definition with_UpdateTimer (timer : Z)
  (mgr : BattlegroundMgr) : BattlegroundMgr :=
  {| bgDataStore := bgDataStore mgr;
     m_QueueUpdateScheduler := m_QueueUpdateScheduler mgr;
     m_NextRatedArenaUpdate := m_NextRatedArenaUpdate mgr;
     m_UpdateTimer := timer;
     _battlegroundTemplates := _battlegroundTemplates mgr;
     _battlegroundMapTemplates := _battlegroundMapTemplates mgr |}.

(** sWorld->getIntConfig(...) for the two settings [Update] reads. *)
Class WorldConfig : Type := {
  CONFIG_ARENA_MAX_RATING_DIFFERENCE : Z;
  CONFIG_ARENA_RATED_UPDATE_TIMER : Z
}.

(** A call made on a queue object: [m_BattlegroundQueues[qtype].f(...)]. *)
Inductive QueueCall : Type :=
| UpdateEvents (qtype : Z) (diff : Z)
| BattlegroundQueueUpdate (qtype : Z) (diff : Z) (bgTypeId : Z)
    (bracket_id : Z) (arenaType : Z) (isRated : bool) (arenaRating : Z).

(** ** The manager *)

Section Manager.
Context {D : SharedDefines}.

(** bool BattlegroundTemplate::IsArena() const *)
Definition IsArena (bgTemplate : BattlegroundTemplate) : bool :=
  bool_decide (InstanceType (BattlemasterEntry bgTemplate) = MAP_ARENA).

(** A default-constructed BattlegroundData, as [bgDataStore[bgTypeId]]
    creates it for a type that has no entry yet. *)
Definition empty_BattlegroundData : BattlegroundData :=
  {| m_Battlegrounds := [];
     m_ClientBattlegroundIds :=
       replicate (Z.to_nat MAX_BATTLEGROUND_BRACKETS) [] |}.

(** [bgDataStore[bgTypeId]] *)
Definition data_at (bgTypeId : Z) (mgr : BattlegroundMgr) : BattlegroundData :=
  default empty_BattlegroundData (StdMap.find bgTypeId (bgDataStore mgr)).

Definition set_data_at (bgTypeId : Z) (data : BattlegroundData)
  (mgr : BattlegroundMgr) : BattlegroundMgr :=
  with_bgDataStore (StdMap.assign bgTypeId data (bgDataStore mgr)) mgr.

(** The loop of [GetBattleground]:
    for (it = begin; it != end; ++it)
      { itr = bgs.find(instanceId); if (itr != bgs.end()) return itr->second; } *)
Fixpoint find_instance (instanceId : Z) (range : list (Z * BattlegroundData))
  : option Battleground :=
  match range with
  | [] => None
  | (_, data) :: rest =>
      match StdMap.find instanceId (m_Battlegrounds data) with
      | Some bg => Some bg
      | None => find_instance instanceId rest
      end
  end.

(** Battleground* BattlegroundMgr::GetBattleground(uint32 instanceId,
      BattlegroundTypeId bgTypeId); [None] is NULL. *)
Definition GetBattleground (instanceId bgTypeId : Z) (mgr : BattlegroundMgr)
  : option Battleground :=
  if decide (instanceId = 0) then None
  else if decide (bgTypeId = BATTLEGROUND_TYPE_NONE) then
    find_instance instanceId (bgDataStore mgr)
  else
    match StdMap.find bgTypeId (bgDataStore mgr) with
    | None => None
    | Some data => find_instance instanceId [(bgTypeId, data)]   (* begin = end++ *)
    end.

(** Battleground* BattlegroundMgr::GetBattlegroundTemplate(
      BattlegroundTypeId bgTypeId) *)
Definition GetBattlegroundTemplate (bgTypeId : Z) (mgr : BattlegroundMgr)
  : option Battleground :=
  match StdMap.find bgTypeId (bgDataStore mgr) with
  | None => None
  | Some data => snd <$> StdMap.begin (m_Battlegrounds data)
  end.

(** The loop of [CreateClientVisibleInstanceId]. [itr] is the range from
    the iterator to [end()]; the loop has no increment, so every round
    reads the same element.
      for (itr = clientIds.begin(); itr != clientIds.end();)
      { if ((++lastId) != *itr) break; lastId = *itr; } *)
Fixpoint client_id_scan (fuel : nat) (itr : list Z) (lastId : Z) : result Z :=
  match fuel with
  | O => OutOfFuel
  | S fuel' =>
      match itr with
      | [] => Done lastId
      | x :: _ =>
          let lastId := wrap32 (lastId + 1) in
          if decide (lastId <> x) then Done lastId
          else client_id_scan fuel' itr x
      end
  end.

(** uint32 BattlegroundMgr::CreateClientVisibleInstanceId(
      BattlegroundTypeId bgTypeId, BattlegroundBracketId bracket_id) *)
Definition CreateClientVisibleInstanceId (fuel : nat) (bgTypeId bracket_id : Z)
  (mgr : BattlegroundMgr) : result (Z * BattlegroundMgr) :=
  if IsArenaType bgTypeId then Done (0, mgr)
  else
    let data := data_at bgTypeId mgr in
    clientIds ← array_get (m_ClientBattlegroundIds data) bracket_id;
    lastId ← client_id_scan fuel clientIds 0;
    let lastId := wrap32 (lastId + 1) in
    let data' :=
      {| m_Battlegrounds := m_Battlegrounds data;
         m_ClientBattlegroundIds :=
           array_set (m_ClientBattlegroundIds data) bracket_id
             (StdSet.insert lastId clientIds) |} in
    Done (lastId, set_data_at bgTypeId data' mgr).

(** Modelled from the spec: GetBattlegroundTemplateByTypeId and
    GetBattlegroundTemplateByMapId (BattlegroundMgr.h), the two indexes of
    the template catalog, by type id and by map id. *)
Definition GetBattlegroundTemplateByTypeId (id : Z) (mgr : BattlegroundMgr)
  : option BattlegroundTemplate :=
  StdMap.find id (_battlegroundTemplates mgr).

Definition GetBattlegroundTemplateByMapId (mapId : Z) (mgr : BattlegroundMgr)
  : option BattlegroundTemplate :=
  StdMap.find mapId (_battlegroundMapTemplates mgr).

(** The loop of [GetRandomBG] over the MapID array: the pair (ids, weights). *)
Fixpoint random_candidates (mapIds : list Z) (mgr : BattlegroundMgr)
  : list Z * list Z :=
  match mapIds with
  | [] => ([], [])
  | mapId :: rest =>
      if decide (mapId = -1) then ([], [])
      else
        let '(ids, weights) := random_candidates rest mgr in
        match GetBattlegroundTemplateByMapId mapId mgr with
        | Some bg => (Id bg :: ids, Weight bg :: weights)
        | None => (ids, weights)
        end
  end.

(** BattlegroundTypeId BattlegroundMgr::GetRandomBG(BattlegroundTypeId).
    [select] is Trinity::Containers::SelectRandomWeightedContainerElement
    (Containers.h): whatever its draw, it returns an iterator into [ids],
    here the position it points at; the caller dereferences it, and a
    position past the last element is not dereferenceable. *)
Definition GetRandomBG (select : list Z -> list Z -> nat) (bgTypeId : Z)
  (mgr : BattlegroundMgr) : result Z :=
  match GetBattlegroundTemplateByTypeId bgTypeId mgr with
  | Some bgTemplate =>
      let '(ids, weights) :=
        random_candidates (MapID (BattlemasterEntry bgTemplate)) mgr in
      match ids !! select ids weights with
      | Some id => Done id
      | None => Undefined
      end
  | None => Done BATTLEGROUND_TYPE_NONE
  end.

(** Battleground* BattlegroundMgr::CreateNewBattleground(
      BattlegroundTypeId originalBgTypeId, PVPDifficultyEntry const*
      bracketEntry, uint8 arenaType, bool isRated).
    [newInstanceId] is the value of sMapMgr->GenerateInstanceId(). *)
Definition CreateNewBattleground (fuel : nat) (select : list Z -> list Z -> nat)
  (newInstanceId : Z) (originalBgTypeId : Z) (bracketEntry : PVPDifficultyEntry)
  (arenaType : Z) (isRated : bool) (mgr : BattlegroundMgr)
  : result (option Battleground * BattlegroundMgr) :=
  bgTypeId ← GetRandomBG select originalBgTypeId mgr;
  match GetBattlegroundTemplate bgTypeId mgr with
  | None => Done (None, mgr)
  | Some bg_template =>
      (* create a copy of the BG template *)
      let copy := Some bg_template in
      match switch bgTypeId
              [ (BATTLEGROUND_AV, copy); (BATTLEGROUND_WS, copy);
                (BATTLEGROUND_AB, copy); (BATTLEGROUND_NA, copy);
                (BATTLEGROUND_BE, copy); (BATTLEGROUND_EY, copy);
                (BATTLEGROUND_RL, copy); (BATTLEGROUND_SA, copy);
                (BATTLEGROUND_DS, copy); (BATTLEGROUND_RV, copy);
                (BATTLEGROUND_IC, copy); (BATTLEGROUND_TP, copy);
                (BATTLEGROUND_BFG, copy);
                (BATTLEGROUND_RB, None); (BATTLEGROUND_AA, None) ]
              None
      with
      | None => Done (None, mgr)
      | Some bg =>
          let isRandom :=
            bool_decide (bgTypeId <> originalBgTypeId) && negb (m_IsArena bg) in
          let bg := SetBracket bracketEntry bg in
          let bg := SetInstanceID newInstanceId bg in
          '(clientId, mgr') ←
            CreateClientVisibleInstanceId fuel originalBgTypeId
              (GetBracketId bracketEntry) mgr;
          let bg := SetClientInstanceID clientId bg in
          let bg := Reset bg in
          let bg := SetStatus STATUS_WAIT_JOIN bg in
          let bg := SetArenaType arenaType bg in
          let bg := SetRandomTypeID bgTypeId bg in
          let bg := SetRated isRated bg in
          let bg := SetRandom isRandom bg in
          Done (Some bg, mgr')
      end
  end.

(** void BattlegroundMgr::AddBattleground(Battleground* bg) *)
Definition AddBattleground (bg : option Battleground) (mgr : BattlegroundMgr)
  : BattlegroundMgr :=
  match bg with
  | None => mgr
  | Some bg =>
      let data := data_at (m_TypeID bg) mgr in
      set_data_at (m_TypeID bg)
        {| m_Battlegrounds :=
             StdMap.assign (m_InstanceID bg) bg (m_Battlegrounds data);
           m_ClientBattlegroundIds := m_ClientBattlegroundIds data |} mgr
  end.

(** void BattlegroundMgr::RemoveBattleground(BattlegroundTypeId bgTypeId,
      uint32 instanceId) *)
Definition RemoveBattleground (bgTypeId instanceId : Z) (mgr : BattlegroundMgr)
  : BattlegroundMgr :=
  let data := data_at bgTypeId mgr in
  set_data_at bgTypeId
    {| m_Battlegrounds := StdMap.erase instanceId (m_Battlegrounds data);
       m_ClientBattlegroundIds := m_ClientBattlegroundIds data |} mgr.

(** Modelled from the spec: the constructors Battleground(bgTemplate) and
    BattlegroundXX(bgTemplate) (Battleground.cpp and the per-kind files): a
    fresh match object of the template's kind, status none, no client id. *)
Definition new_Battleground (bgTemplate : BattlegroundTemplate) : Battleground :=
  {| m_TypeID := Id bgTemplate; m_RandomTypeID := BATTLEGROUND_TYPE_NONE;
     m_InstanceID := 0; m_ClientInstanceID := 0;
     m_BracketId := BG_BRACKET_ID_FIRST; m_ArenaType := 0;
     m_IsRated := false; m_IsRandom := false;
     m_IsArena := IsArena bgTemplate; m_Status := STATUS_NONE;
     m_ElapsedTime := 0; m_SetDeleteThis := false |}.

(** [bg->SetInstanceID(0)] on the object [GetBattlegroundTemplate] returned:
    the first entry of the type's container is that object. *)
Definition set_template_object (bgTypeId : Z) (bg : Battleground)
  (mgr : BattlegroundMgr) : BattlegroundMgr :=
  match StdMap.find bgTypeId (bgDataStore mgr) with
  | Some data =>
      match m_Battlegrounds data with
      | (k, _) :: rest =>
          set_data_at bgTypeId
            {| m_Battlegrounds := (k, bg) :: rest;
               m_ClientBattlegroundIds := m_ClientBattlegroundIds data |} mgr
      | [] => mgr
      end
  | None => mgr
  end.

(** bool BattlegroundMgr::CreateBattleground(
      BattlegroundTemplate const* bgTemplate) *)
Definition CreateBattleground (bgTemplate : BattlegroundTemplate)
  (mgr : BattlegroundMgr) : bool * BattlegroundMgr :=
  match GetBattlegroundTemplate (Id bgTemplate) mgr with
  | Some bg =>
      let bg := SetInstanceID 0 bg in
      let mgr := set_template_object (Id bgTemplate) bg mgr in
      (true, AddBattleground (Some bg) mgr)
  | None =>
      let plain := Some (new_Battleground bgTemplate) in
      match switch (Id bgTemplate)
              [ (BATTLEGROUND_AV, plain); (BATTLEGROUND_WS, plain);
                (BATTLEGROUND_AB, plain); (BATTLEGROUND_NA, plain);
                (BATTLEGROUND_BE, plain); (BATTLEGROUND_EY, plain);
                (BATTLEGROUND_RL, plain); (BATTLEGROUND_SA, plain);
                (BATTLEGROUND_DS, plain); (BATTLEGROUND_RV, plain);
                (BATTLEGROUND_IC, plain); (BATTLEGROUND_AA, plain);
                (BATTLEGROUND_RB,
                 Some (SetRandom true (new_Battleground bgTemplate)));
                (BATTLEGROUND_TP, plain); (BATTLEGROUND_BFG, plain) ]
              None
      with
      | None => (false, mgr)
      | Some bg =>
          let bg := SetInstanceID 0 bg in
          let mgr := AddBattleground (Some bg) mgr in
          let bg := SetInstanceID 0 bg in
          (true, AddBattleground (Some bg) mgr)
      end
  end.

(** The packed key of [ScheduleQueueUpdate]:
    ((uint64)arenaMatchmakerRating << 32) | ((uint64)arenaType << 24)
    | ((uint64)bgQueueTypeId << 16) | ((uint64)bgTypeId << 8)
    | (uint64)bracket_id *)
Definition scheduleId (arenaMatchmakerRating arenaType bgQueueTypeId bgTypeId
  bracket_id : Z) : Z :=
  Z.lor
    (Z.lor
       (Z.lor
          (Z.lor (wrap64 (Z.shiftl (wrap64 arenaMatchmakerRating) 32))
                 (wrap64 (Z.shiftl (wrap64 arenaType) 24)))
          (wrap64 (Z.shiftl (wrap64 bgQueueTypeId) 16)))
       (wrap64 (Z.shiftl (wrap64 bgTypeId) 8)))
    (wrap64 bracket_id).

(** void BattlegroundMgr::ScheduleQueueUpdate(uint32 arenaMatchmakerRating,
      uint8 arenaType, BattlegroundQueueTypeId bgQueueTypeId,
      BattlegroundTypeId bgTypeId, BattlegroundBracketId bracket_id) *)
Definition ScheduleQueueUpdate (arenaMatchmakerRating arenaType bgQueueTypeId
  bgTypeId bracket_id : Z) (mgr : BattlegroundMgr) : BattlegroundMgr :=
  let id :=
    scheduleId arenaMatchmakerRating arenaType bgQueueTypeId bgTypeId
      bracket_id in
  if decide (id ∈ m_QueueUpdateScheduler mgr) then mgr
  else with_QueueUpdateScheduler (m_QueueUpdateScheduler mgr ++ [id]) mgr.

End Manager.

(** ** The tick: BattlegroundMgr::Update *)

Section Sweeper.
Context {D : SharedDefines} {Script : BattlegroundScript} {W : WorldConfig}.

(** The inner loop of the sweep, over the entries after the first one:
      itrDelete = itr++; bg = itrDelete->second; bg->Update(m_UpdateTimer);
      if (bg->ToBeDeleted()) { bgs.erase(itrDelete);
        clients = m_ClientBattlegroundIds[bg->GetBracketId()];
        if (!clients.empty()) clients.erase(bg->GetClientInstanceID());
        delete bg; }
    It returns the entries that stay and the client-id array. *)
Fixpoint sweep_instances (timer : Z) (live : list (Z * Battleground))
  (clientIds : list BattlegroundClientIdsContainer)
  : result (list (Z * Battleground) * list BattlegroundClientIdsContainer) :=
  match live with
  | [] => Done ([], clientIds)
  | (instanceId, bg) :: rest =>
      let bg := Battleground_Update timer bg in
      if ToBeDeleted bg then
        clients ← array_get clientIds (m_BracketId bg);
        let clients' :=
          if StdSet.empty clients then clients
          else StdSet.erase (m_ClientInstanceID bg) clients in
        sweep_instances timer rest
          (array_set clientIds (m_BracketId bg) clients')
      else
        '(rest', clientIds') ← sweep_instances timer rest clientIds;
        Done ((instanceId, bg) :: rest', clientIds')
  end.

(** One round of the outer loop: [itrDelete = bgs.begin()] and the inner
    loop starts at [++itrDelete]; incrementing the end iterator of an empty
    container is undefined. *)
Definition sweep_data (timer : Z) (data : BattlegroundData)
  : result BattlegroundData :=
  match m_Battlegrounds data with
  | [] => Undefined
  | template :: live =>
      '(live', clientIds') ←
        sweep_instances timer live (m_ClientBattlegroundIds data);
      Done {| m_Battlegrounds := template :: live';
              m_ClientBattlegroundIds := clientIds' |}
  end.

(** for (itr1 = bgDataStore.begin(); itr1 != bgDataStore.end(); ++itr1) *)
Fixpoint sweep_store (timer : Z) (store : list (Z * BattlegroundData))
  : result (list (Z * BattlegroundData)) :=
  match store with
  | [] => Done []
  | (bgTypeId, data) :: rest =>
      data' ← sweep_data timer data;
      rest' ← sweep_store timer rest;
      Done ((bgTypeId, data') :: rest')
  end.

(** Lines 115-143: the accumulator and the throttled sweep. *)
Definition Update_instances (diff : Z) (mgr : BattlegroundMgr)
  : result BattlegroundMgr :=
  let timer := wrap32 (m_UpdateTimer mgr + diff) in
  if decide (timer > BATTLEGROUND_OBJECTIVE_UPDATE_INTERVAL) then
    store' ← sweep_store timer (bgDataStore mgr);
    Done (with_UpdateTimer 0 (with_bgDataStore store' mgr))
  else Done (with_UpdateTimer timer mgr).

(** Lines 146-147:
    for (int qtype = BATTLEGROUND_QUEUE_NONE;
         qtype < MAX_BATTLEGROUND_QUEUE_TYPES; ++qtype)
      m_BattlegroundQueues[qtype].UpdateEvents(diff); *)
Definition Update_events (diff : Z) : list QueueCall :=
  (fun qtype => UpdateEvents qtype diff)
    <$> int_range BATTLEGROUND_QUEUE_NONE MAX_BATTLEGROUND_QUEUE_TYPES.

(** The body of the loop over the drained batch: unpack one entry and call
    the queue it names. *)
Definition scheduled_call (diff : Z) (entry : Z) : QueueCall :=
  let arenaMMRating := wrap32 (Z.shiftr entry 32) in
  let arenaType := wrap8 (Z.land (Z.shiftr entry 24) 255) in
  let bgQueueTypeId := Z.land (Z.shiftr entry 16) 255 in
  let bgTypeId := Z.land (Z.shiftr entry 8) 255 in
  let bracket_id := Z.land entry 255 in
  BattlegroundQueueUpdate bgQueueTypeId diff bgTypeId bracket_id arenaType
    (bool_decide (arenaMMRating > 0)) arenaMMRating.

(** for (uint8 i = 0; i < scheduled.size(); i++): the counter is eight bits
    wide and wraps to 0 after 255. *)
Fixpoint scheduled_loop (fuel : nat) (diff : Z) (scheduled : list Z) (i : Z)
  : result (list QueueCall) :=
  match fuel with
  | O => OutOfFuel
  | S fuel' =>
      if decide (i < Z.of_nat (length scheduled)) then
        entry ← array_get scheduled i;
        calls ← scheduled_loop fuel' diff scheduled (wrap8 (i + 1));
        Done (scheduled_call diff entry :: calls)
      else Done []
  end.

(** Lines 150-164: swap the pending list out and process the batch. *)
Definition Update_scheduled (fuel : nat) (diff : Z) (mgr : BattlegroundMgr)
  : result (BattlegroundMgr * list QueueCall) :=
  match m_QueueUpdateScheduler mgr with
  | [] => Done (mgr, [])
  | scheduled =>
      calls ← scheduled_loop fuel diff scheduled 0;
      Done (with_QueueUpdateScheduler [] mgr, calls)
  end.

(** The calls of the forced update:
    for (int qtype = BATTLEGROUND_QUEUE_2v2; qtype <= BATTLEGROUND_QUEUE_5v5; ++qtype)
      for (int bracket = BG_BRACKET_ID_FIRST; bracket < MAX_BATTLEGROUND_BRACKETS; ++bracket)
        m_BattlegroundQueues[qtype].BattlegroundQueueUpdate(diff, BATTLEGROUND_AA,
          BattlegroundBracketId(bracket), BGArenaType(qtype), true, 0); *)
Definition forced_arena_calls (diff : Z) : list QueueCall :=
  qtype ← int_range BATTLEGROUND_QUEUE_2v2 (BATTLEGROUND_QUEUE_5v5 + 1);
  bracket ← int_range BG_BRACKET_ID_FIRST MAX_BATTLEGROUND_BRACKETS;
  [ BattlegroundQueueUpdate qtype diff BATTLEGROUND_AA bracket
      (BGArenaType qtype) true 0 ].

(** Lines 166-184: the forced update of the rated arena queues. *)
Definition Update_ratedArenas (diff : Z) (mgr : BattlegroundMgr)
  : BattlegroundMgr * list QueueCall :=
  if bool_decide (CONFIG_ARENA_MAX_RATING_DIFFERENCE <> 0)
     && bool_decide (CONFIG_ARENA_RATED_UPDATE_TIMER <> 0)
  then
    if decide (m_NextRatedArenaUpdate mgr < diff) then
      (with_NextRatedArenaUpdate CONFIG_ARENA_RATED_UPDATE_TIMER mgr,
       forced_arena_calls diff)
    else
      (with_NextRatedArenaUpdate
         (wrap32 (m_NextRatedArenaUpdate mgr - diff)) mgr, [])
  else (mgr, []).

(** void BattlegroundMgr::Update(uint32 diff): the manager after the call
    and the calls it made on the queues, in order. *)
Definition Update (fuel : nat) (diff : Z) (mgr : BattlegroundMgr)
  : result (BattlegroundMgr * list QueueCall) :=
  mgr ← Update_instances diff mgr;
  let events := Update_events diff in
  '(mgr, scheduled) ← Update_scheduled fuel diff mgr;
  let '(mgr, forced) := Update_ratedArenas diff mgr in
  Done (mgr, events ++ scheduled ++ forced).

(** A run of ticks, one [Update] per elapsed time of the list. *)
Fixpoint Update_many (fuel : nat) (diffs : list Z) (mgr : BattlegroundMgr)
  : result BattlegroundMgr :=
  match diffs with
  | [] => Done mgr
  | diff :: rest =>
      '(mgr', _) ← Update fuel diff mgr;
      Update_many fuel rest mgr'
  end.

End Sweeper.

(** ** Sample environment

    One assignment of the header constants, a match-object behaviour and a
    world configuration, on which the model can be run. *)

Definition sample_defines : SharedDefines :=
  {| BATTLEGROUND_TYPE_NONE := 0; BATTLEGROUND_AV := 1; BATTLEGROUND_WS := 2;
     BATTLEGROUND_AB := 3; BATTLEGROUND_NA := 4; BATTLEGROUND_BE := 5;
     BATTLEGROUND_AA := 6; BATTLEGROUND_EY := 7; BATTLEGROUND_RL := 8;
     BATTLEGROUND_SA := 9; BATTLEGROUND_DS := 10; BATTLEGROUND_RV := 11;
     BATTLEGROUND_IC := 30; BATTLEGROUND_RB := 32; BATTLEGROUND_TP := 108;
     BATTLEGROUND_BFG := 120;
     BATTLEGROUND_QUEUE_NONE := 0; BATTLEGROUND_QUEUE_AV := 1;
     BATTLEGROUND_QUEUE_WS := 2; BATTLEGROUND_QUEUE_AB := 3;
     BATTLEGROUND_QUEUE_EY := 4; BATTLEGROUND_QUEUE_SA := 5;
     BATTLEGROUND_QUEUE_IC := 6; BATTLEGROUND_QUEUE_TP := 7;
     BATTLEGROUND_QUEUE_BFG := 8; BATTLEGROUND_QUEUE_RB := 9;
     BATTLEGROUND_QUEUE_2v2 := 10; BATTLEGROUND_QUEUE_3v3 := 11;
     BATTLEGROUND_QUEUE_5v5 := 12; MAX_BATTLEGROUND_QUEUE_TYPES := 13;
     HOLIDAY_NONE := 0; HOLIDAY_CALL_TO_ARMS_AV := 283;
     HOLIDAY_CALL_TO_ARMS_EY := 353; HOLIDAY_CALL_TO_ARMS_WS := 284;
     HOLIDAY_CALL_TO_ARMS_SA := 400; HOLIDAY_CALL_TO_ARMS_AB := 285;
     HOLIDAY_CALL_TO_ARMS_IC := 420; HOLIDAY_CALL_TO_ARMS_TP := 436;
     HOLIDAY_CALL_TO_ARMS_BFG := 435;
     BG_BRACKET_ID_FIRST := 0; MAX_BATTLEGROUND_BRACKETS := 4;
     BATTLEGROUND_OBJECTIVE_UPDATE_INTERVAL := 1000;
     MAP_ARENA := 4 |}.

(** A match object that accumulates the elapsed time and completes once it
    has run for a minute. *)
Definition sample_script : BattlegroundScript :=
  {| Battleground_Update := fun diff bg =>
       {| m_TypeID := m_TypeID bg; m_RandomTypeID := m_RandomTypeID bg;
          m_InstanceID := m_InstanceID bg;
          m_ClientInstanceID := m_ClientInstanceID bg;
          m_BracketId := m_BracketId bg; m_ArenaType := m_ArenaType bg;
          m_IsRated := m_IsRated bg; m_IsRandom := m_IsRandom bg;
          m_IsArena := m_IsArena bg; m_Status := m_Status bg;
          m_ElapsedTime := wrap32 (m_ElapsedTime bg + diff);
          m_SetDeleteThis :=
            bool_decide (60000 <= wrap32 (m_ElapsedTime bg + diff)) |} |}.

Definition sample_world : WorldConfig :=
  {| CONFIG_ARENA_MAX_RATING_DIFFERENCE := 150;
     CONFIG_ARENA_RATED_UPDATE_TIMER := 5000 |}.

(** A manager right after construction, with an empty catalog. *)
Definition fresh_mgr (countdown : Z) : BattlegroundMgr :=
  {| bgDataStore := []; m_QueueUpdateScheduler := [];
     m_NextRatedArenaUpdate := countdown; m_UpdateTimer := 0;
     _battlegroundTemplates := []; _battlegroundMapTemplates := [] |}.

Definition sample_entry (instanceType : Z) (maps : list Z)
  : BattlemasterListEntry :=
  {| InstanceType := instanceType; MinPlayers := 5; MaxPlayers := 10;
     MinLevel := 10; MaxLevel := 85; MapID := maps |}.

(** Templates of the sample catalog: Warsong Gulch on map 489, Nagrand Arena
    on map 559, the arena aggregate over map 559, and the random aggregate
    over maps 30 and 529, for which the catalog has no template. *)
Definition sample_WS : BattlegroundTemplate :=
  {| Id := 2; Weight := 1; BattlemasterEntry := sample_entry 3 [489; -1] |}.
Definition sample_NA : BattlegroundTemplate :=
  {| Id := 4; Weight := 1; BattlemasterEntry := sample_entry 4 [559; -1] |}.
Definition sample_AA : BattlegroundTemplate :=
  {| Id := 6; Weight := 1; BattlemasterEntry := sample_entry 4 [559; -1] |}.
Definition sample_RB : BattlegroundTemplate :=
  {| Id := 32; Weight := 1; BattlemasterEntry := sample_entry 3 [30; 529; -1] |}.

(** The manager after loading the four sample templates: each
    [CreateBattleground] succeeds, and the single-map templates are indexed
    by their map. *)
Definition loaded_mgr : BattlegroundMgr :=
  let mgr := fresh_mgr 5000 in
  let mgr := snd (CreateBattleground (D := sample_defines) sample_WS mgr) in
  let mgr := snd (CreateBattleground (D := sample_defines) sample_NA mgr) in
  let mgr := snd (CreateBattleground (D := sample_defines) sample_AA mgr) in
  let mgr := snd (CreateBattleground (D := sample_defines) sample_RB mgr) in
  {| bgDataStore := bgDataStore mgr;
     m_QueueUpdateScheduler := m_QueueUpdateScheduler mgr;
     m_NextRatedArenaUpdate := m_NextRatedArenaUpdate mgr;
     m_UpdateTimer := m_UpdateTimer mgr;
     _battlegroundTemplates :=
       [(2, sample_WS); (4, sample_NA); (6, sample_AA); (32, sample_RB)];
     _battlegroundMapTemplates := [(489, sample_WS); (559, sample_NA)] |}.

(** The first candidate, as a draw of the weighted selection. *)
Definition select_first : list Z -> list Z -> nat := fun _ _ => O.

(** A run of [ScheduleQueueUpdate] calls, each given by its five arguments. *)
Definition ScheduleQueueUpdate_many (calls : list (Z * Z * Z * Z * Z))
  (mgr : BattlegroundMgr) : BattlegroundMgr :=
  foldl (fun mgr '(rating, arenaType, bgQueueTypeId, bgTypeId, bracket_id) =>
           ScheduleQueueUpdate rating arenaType bgQueueTypeId bgTypeId
             bracket_id mgr)
        mgr calls.

(** The loaded manager with the given client ids in use for Warsong Gulch,
    first bracket. *)
Definition mgr_with_WS_ids (ids : BattlegroundClientIdsContainer)
  : BattlegroundMgr :=
  let data := data_at (D := sample_defines) 2 loaded_mgr in
  set_data_at 2
    {| m_Battlegrounds := m_Battlegrounds data;
       m_ClientBattlegroundIds := [ids; []; []; []] |} loaded_mgr.

(** The loaded manager with a given number of pending scheduled entries,
    with pairwise different ratings. *)
Definition mgr_with_pending (n : nat) : BattlegroundMgr :=
  with_QueueUpdateScheduler
    ((fun k : nat => scheduleId (Z.of_nat k) 2 10 6 0) <$> seq 0 n) loaded_mgr.

(** A live Warsong Gulch match, 59 seconds old, holding client id 1, and the
    loaded manager with this match in its pool. *)
Definition sample_live : Battleground :=
  {| m_TypeID := 2; m_RandomTypeID := 2; m_InstanceID := 7;
     m_ClientInstanceID := 1; m_BracketId := 0; m_ArenaType := 0;
     m_IsRated := false; m_IsRandom := false; m_IsArena := false;
     m_Status := STATUS_WAIT_JOIN; m_ElapsedTime := 59000;
     m_SetDeleteThis := false |}.

Definition mgr_with_live : BattlegroundMgr :=
  AddBattleground (D := sample_defines) (Some sample_live)
    (mgr_with_WS_ids [1]).

(** ** Ordering invariant of the pool

    [std::map] and [std::set] keep their keys in increasing order; on the
    lists that stand for them this is an invariant that every operation of
    the manager has to preserve. *)

Definition data_sorted (data : BattlegroundData) : Prop :=
  StdMap.sorted (m_Battlegrounds data)
  /\ Forall StdSet.sorted (m_ClientBattlegroundIds data).

Definition pool_sorted (mgr : BattlegroundMgr) : Prop :=
  StdMap.sorted (bgDataStore mgr)
  /\ Forall (fun entry => data_sorted entry.2) (bgDataStore mgr).

(** ** The spirit healer timer *)

(** WorldPackets::Battleground::AreaSpiritHealerTime *)
Record AreaSpiritHealerTime : Type := {
  HealerGuid : Z;
  TimeLeft : Z
}.

(** void BattlegroundMgr::SendAreaSpiritHealerQueryOpcode(Player* player,
      Battleground* bg, ObjectGuid const& guid): the packet sent to the
    player. [lastResurrectTime] is bg->GetLastResurrectTime(), a uint32. *)
Definition SendAreaSpiritHealerQueryOpcode (lastResurrectTime guid : Z)
  : AreaSpiritHealerTime :=
  let time_ := wrap32 (30000 - lastResurrectTime) in
  let time_ := if decide (time_ = wrap32 (-1)) then 0 else time_ in
  {| HealerGuid := guid; TimeLeft := time_ |}.

(** ** Battlemaster entries *)

(** The fields of CreatureTemplate (CreatureData.h) that this file reads. *)
Record CreatureTemplate : Type := {
  Entry : Z;
  npcflag : Z
}.

(** What the battlemaster functions consult outside the manager: the flag
    UNIT_NPC_FLAG_BATTLEMASTER (UnitDefines.h), the creature lookup
    sObjectMgr->GetCreatureTemplate and the presence test
    sBattlemasterListStore.LookupEntry. *)
Class BattleMasterEnv : Type := {
  UNIT_NPC_FLAG_BATTLEMASTER : Z;
  GetCreatureTemplate : Z -> option CreatureTemplate;
  BattlemasterListStore_LookupEntry : Z -> bool
}.

(** typedef std::unordered_map<uint32, BattlegroundTypeId> BattleMastersMap;
    the creature templates of sObjectMgr->GetCreatureTemplates() are an
    unordered map from entry to template as well. *)
Definition BattleMastersMap : Type := gmap Z Z.
Definition CreatureTemplateContainer : Type := gmap Z CreatureTemplate.

Section BattleMasters.
Context {E : BattleMasterEnv}.

(** void BattlegroundMgr::CheckBattleMasters(): the creature templates
    after the call. *)
Definition CheckBattleMasters (mBattleMastersMap : BattleMastersMap)
  (ctc : CreatureTemplateContainer) : CreatureTemplateContainer :=
  (fun ct : CreatureTemplate =>
     if bool_decide (Z.land (npcflag ct) UNIT_NPC_FLAG_BATTLEMASTER <> 0)
        && bool_decide (mBattleMastersMap !! Entry ct = None)
     then {| Entry := Entry ct;
             npcflag := Z.land (npcflag ct)
                          (Z.lnot UNIT_NPC_FLAG_BATTLEMASTER) |}
     else ct) <$> ctc.

(** The do-while loop of [LoadBattleMastersEntry] over the rows
    (entry, bg_template) of the query result: the map and the counter. *)
Fixpoint load_battlemaster_rows (rows : list (Z * Z))
  (mBattleMastersMap : BattleMastersMap) (count : Z) : BattleMastersMap * Z :=
  match rows with
  | [] => (mBattleMastersMap, count)
  | (entry, bgTypeId) :: rest =>
      let count := wrap32 (count + 1) in
      match GetCreatureTemplate entry with
      | Some cInfo =>
          if BattlemasterListStore_LookupEntry bgTypeId then
            load_battlemaster_rows rest
              (<[entry := bgTypeId]> mBattleMastersMap) count
          else load_battlemaster_rows rest mBattleMastersMap count
      | None => load_battlemaster_rows rest mBattleMastersMap count
      end
  end.

(** void BattlegroundMgr::LoadBattleMastersEntry(): the map, the creature
    templates, and the number of entries reported as loaded, if any. The
    query result is null exactly when it has no row. *)
Definition LoadBattleMastersEntry (rows : list (Z * Z))
  (mBattleMastersMap : BattleMastersMap) (ctc : CreatureTemplateContainer)
  : BattleMastersMap * CreatureTemplateContainer * option Z :=
  let cleared : BattleMastersMap := ∅ in       (* need for reload case *)
  match rows with
  | [] => (cleared, ctc, None)
  | _ =>
      let '(loaded, count) := load_battlemaster_rows rows cleared 0 in
      (loaded, CheckBattleMasters loaded ctc, Some count)
  end.

End BattleMasters.

(** A sample world for the battlemaster functions: creatures 100 (flagged
    battlemaster), 200 (flagged), 300 (not flagged); battleground types 1, 2
    and 3 are in BattlemasterList. *)
Definition sample_creatures : CreatureTemplateContainer :=
  {[ 100 := {| Entry := 100; npcflag := 1048577 |};
     200 := {| Entry := 200; npcflag := 1048576 |};
     300 := {| Entry := 300; npcflag := 1 |} ]}.

Definition sample_battlemaster_env : BattleMasterEnv :=
  {| UNIT_NPC_FLAG_BATTLEMASTER := 1048576;
     GetCreatureTemplate := fun entry => sample_creatures !! entry;
     BattlemasterListStore_LookupEntry := fun id =>
       bool_decide (id ∈ [1; 2; 3]) |}.

(** ** Schedule requests

    A request is the five arguments of a [ScheduleQueueUpdate] call. *)

(** The key the request is stored under. *)
Definition schedule_key (call : Z * Z * Z * Z * Z) : Z :=
  let '(rating, arenaType, bgQueueTypeId, bgTypeId, bracket_id) := call in
  scheduleId rating arenaType bgQueueTypeId bgTypeId bracket_id.

(** The queue update the request asks for:
    m_BattlegroundQueues[bgQueueTypeId].BattlegroundQueueUpdate(diff,
      bgTypeId, bracket_id, arenaType, rating > 0, rating). *)
Definition requested_call (diff : Z) (call : Z * Z * Z * Z * Z) : QueueCall :=
  let '(rating, arenaType, bgQueueTypeId, bgTypeId, bracket_id) := call in
  BattlegroundQueueUpdate bgQueueTypeId diff bgTypeId bracket_id arenaType
    (bool_decide (rating > 0)) rating.

(** The rating is a uint32 and each other argument fits the eight bits the
    key gives it. *)
Definition schedule_args_in_range (call : Z * Z * Z * Z * Z) : Prop :=
  let '(rating, arenaType, bgQueueTypeId, bgTypeId, bracket_id) := call in
  0 <= rating < 2 ^ 32 /\ 0 <= arenaType < 256 /\ 0 <= bgQueueTypeId < 256
  /\ 0 <= bgTypeId < 256 /\ 0 <= bracket_id < 256.

(** The Warsong Gulch match that the loaded manager creates for bracket 1
    with instance id 77, and the manager after that creation. *)
Definition sample_created : Battleground :=
  SetRandom false (SetRated false (SetRandomTypeID 2 (SetArenaType 0
    (SetStatus STATUS_WAIT_JOIN (Reset (SetClientInstanceID 1
      (SetInstanceID 77 (SetBracket {| GetBracketId := 1 |}
        (new_Battleground (D := sample_defines) sample_WS))))))))).

Definition mgr_after_creation : BattlegroundMgr :=
  let data := data_at (D := sample_defines) 2 loaded_mgr in
  set_data_at 2
    {| m_Battlegrounds := m_Battlegrounds data;
       m_ClientBattlegroundIds := [[]; [1]; []; []] |} loaded_mgr.

(** * Properties *)

(** ** The [switch] combinator *)

Lemma switch_hit {A} (x : Z) (body : A) (cases : list (Z * A)) (default : A) :
  NoDup (cases.*1) -> (x, body) ∈ cases -> switch x cases default = body.
Proof.
  induction cases as [|[label body'] rest IH]; simpl; intros Hnd Hin.
  - by apply elem_of_nil in Hin.
  - apply NoDup_cons in Hnd as [Hfresh Hnd].
    apply elem_of_cons in Hin as [Heq|Hin].
    + injection Heq as -> ->. by rewrite decide_True.
    + case_decide as Hx; [|by apply IH].
      subst x. exfalso. apply Hfresh.
      apply list_elem_of_fmap. by exists (label, body).
Qed.

Lemma switch_miss {A} (x : Z) (cases : list (Z * A)) (default : A) :
  x ∉ cases.*1 -> switch x cases default = default.
Proof.
  induction cases as [|[label body] rest IH]; simpl; intros Hnotin; [done|].
  apply not_elem_of_cons in Hnotin as [Hne Hnotin].
  rewrite decide_False by done. by apply IH.
Qed.

Ltac solve_case :=
  repeat first [apply list_elem_of_here | apply list_elem_of_further].

(** ** The ordered containers behave as sets and maps *)

Lemma set_insert_elem (x y : Z) (s : StdSet.t) :
  x ∈ StdSet.insert y s <-> x = y \/ x ∈ s.
Proof.
  induction s as [|z rest IH]; simpl.
  - rewrite list_elem_of_singleton, elem_of_nil. tauto.
  - repeat case_decide; rewrite ?elem_of_cons, ?IH; subst; tauto.
Qed.

Lemma set_insert_sorted (y : Z) (s : StdSet.t) :
  StdSet.sorted s -> StdSet.sorted (StdSet.insert y s).
Proof.
  unfold StdSet.sorted. induction s as [|z rest IH]; simpl; intros Hsorted.
  - repeat constructor.
  - apply StronglySorted_inv in Hsorted as [Hrest Hz].
    repeat case_decide.
    + constructor; [by constructor|].
      constructor; [done|].
      eapply Forall_impl; [exact Hz|]. simpl. lia.
    + by constructor.
    + constructor; [by apply IH|].
      apply Forall_forall. intros x Hx.
      apply set_insert_elem in Hx as [->|Hx]; [lia|].
      rewrite Forall_forall in Hz. by apply Hz.
Qed.

Lemma set_erase_elem (x y : Z) (s : StdSet.t) :
  StdSet.sorted s -> x ∈ StdSet.erase y s <-> x <> y /\ x ∈ s.
Proof.
  unfold StdSet.sorted. induction s as [|z rest IH]; simpl; intros Hsorted.
  - rewrite elem_of_nil. tauto.
  - apply StronglySorted_inv in Hsorted as [Hrest Hz].
    rewrite Forall_forall in Hz. case_decide as Hy.
    + subst z. rewrite elem_of_cons. split.
      * intros Hx. split; [|by right]. specialize (Hz x Hx). lia.
      * intros [Hne [->|Hx]]; done.
    + rewrite !elem_of_cons, IH by done. split.
      * intros [->|[Hne Hx]]; [split; [done|by left]|split; [done|by right]].
      * intros [Hne [->|Hx]]; [by left|by right].
Qed.

Lemma find_assign_eq {V} (k : Z) (v : V) (m : StdMap.t V) :
  StdMap.find k (StdMap.assign k v m) = Some v.
Proof.
  induction m as [|[k' v'] rest IH]; simpl.
  - by rewrite decide_True.
  - repeat case_decide; simpl; rewrite ?decide_True by done; try done.
    by rewrite decide_False.
Qed.

Lemma find_assign_ne {V} (k k' : Z) (v : V) (m : StdMap.t V) :
  k <> k' -> StdMap.find k (StdMap.assign k' v m) = StdMap.find k m.
Proof.
  intros Hne. induction m as [|[k0 v0] rest IH]; simpl.
  - by rewrite decide_False.
  - repeat case_decide; simpl; subst;
      rewrite ?decide_False by done; rewrite ?decide_True by done; done.
Qed.

Lemma map_assign_keys {V} (k k' : Z) (v : V) (m : StdMap.t V) :
  k ∈ (StdMap.assign k' v m).*1 <-> k = k' \/ k ∈ m.*1.
Proof.
  induction m as [|[k0 v0] rest IH]; simpl.
  - rewrite list_elem_of_singleton, elem_of_nil. tauto.
  - repeat case_decide; simpl; rewrite ?elem_of_cons, ?IH; subst; tauto.
Qed.

Lemma map_assign_sorted {V} (k : Z) (v : V) (m : StdMap.t V) :
  StdMap.sorted m -> StdMap.sorted (StdMap.assign k v m).
Proof.
  unfold StdMap.sorted. induction m as [|[k0 v0] rest IH]; simpl; intros Hsorted.
  - repeat constructor.
  - apply StronglySorted_inv in Hsorted as [Hrest Hk0].
    repeat case_decide; simpl.
    + constructor; [by constructor|].
      constructor; [done|].
      eapply Forall_impl; [exact Hk0|]. simpl. lia.
    + subst k0. by constructor.
    + constructor; [by apply IH|].
      apply Forall_forall. intros x Hx.
      apply map_assign_keys in Hx as [->|Hx]; [lia|].
      rewrite Forall_forall in Hk0. by apply Hk0.
Qed.

(** ** QueueClassifier *)

Section ClassifierFacts.
Context {D : SharedDefines}.
Hypothesis Hdistinct : case_labels_distinct = true.

Lemma case_labels_NoDup :
  NoDup bg_type_labels /\ NoDup bg_queue_labels
  /\ NoDup holiday_kind_labels /\ NoDup holiday_labels.
Proof.
  unfold case_labels_distinct in Hdistinct.
  rewrite !andb_true_iff, !bool_decide_eq_true in Hdistinct. tauto.
Qed.

Lemma bg_type_labels_NoDup : NoDup bg_type_labels.
Proof. apply case_labels_NoDup. Qed.

Lemma bg_queue_labels_NoDup : NoDup bg_queue_labels.
Proof. apply case_labels_NoDup. Qed.

Lemma holiday_kind_labels_NoDup : NoDup holiday_kind_labels.
Proof. apply case_labels_NoDup. Qed.

Lemma holiday_labels_NoDup : NoDup holiday_labels.
Proof. apply case_labels_NoDup. Qed.

Lemma IsArenaType_cases (bgTypeId : Z) :
  IsArenaType bgTypeId = true ->
  bgTypeId ∈ [ BATTLEGROUND_AA; BATTLEGROUND_BE; BATTLEGROUND_NA;
               BATTLEGROUND_DS; BATTLEGROUND_RV; BATTLEGROUND_RL ].
Proof.
  unfold IsArenaType. intros H.
  repeat (apply orb_prop in H as [H|H]);
    apply bool_decide_eq_true in H; subst bgTypeId; solve_case.
Qed.

(** For an arena kind, [BGQueueTypeId] is decided by the inner switch on the
    team size alone. *)
Lemma BGQueueTypeId_arena (bgTypeId arenaType : Z) :
  IsArenaType bgTypeId = true ->
  BGQueueTypeId bgTypeId arenaType =
    switch arenaType
      [ (ARENA_TYPE_2v2, BATTLEGROUND_QUEUE_2v2);
        (ARENA_TYPE_3v3, BATTLEGROUND_QUEUE_3v3);
        (ARENA_TYPE_5v5, BATTLEGROUND_QUEUE_5v5) ]
      BATTLEGROUND_QUEUE_NONE.
Proof.
  intros Harena. apply IsArenaType_cases in Harena.
  unfold BGQueueTypeId.
  apply switch_hit; [exact bg_type_labels_NoDup|].
  repeat (apply elem_of_cons in Harena as [->|Harena]);
    [solve_case..|by apply elem_of_nil in Harena].
Qed.

(** The inner switch maps the three team sizes to the three arena queues. *)
Lemma arena_size_queue (arenaType : Z) :
  arenaType ∈ [ARENA_TYPE_2v2; ARENA_TYPE_3v3; ARENA_TYPE_5v5] ->
  switch arenaType
    [ (ARENA_TYPE_2v2, BATTLEGROUND_QUEUE_2v2);
      (ARENA_TYPE_3v3, BATTLEGROUND_QUEUE_3v3);
      (ARENA_TYPE_5v5, BATTLEGROUND_QUEUE_5v5) ]
    BATTLEGROUND_QUEUE_NONE
  ∈ [BATTLEGROUND_QUEUE_2v2; BATTLEGROUND_QUEUE_3v3; BATTLEGROUND_QUEUE_5v5].
Proof.
  intros Hsize.
  repeat (apply elem_of_cons in Hsize as [->|Hsize]);
    [..|by apply elem_of_nil in Hsize]; vm_compute; solve_case.
Qed.

(** C8: for every arena kind and team size 2, 3 or 5, the queue type of the
    pair maps back to the arena aggregate kind BATTLEGROUND_AA; and for every
    pair outside the table (a type that is no case label, or an arena kind
    with another team size) BGQueueTypeId returns BATTLEGROUND_QUEUE_NONE. *)
Theorem BGQueueTypeId_BGTemplateId_arena :
  (forall bgTypeId arenaType,
      IsArenaType bgTypeId = true ->
      arenaType ∈ [ARENA_TYPE_2v2; ARENA_TYPE_3v3; ARENA_TYPE_5v5] ->
      BGTemplateId (BGQueueTypeId bgTypeId arenaType) = BATTLEGROUND_AA)
  /\ (forall bgTypeId arenaType,
         bgTypeId ∉ bg_type_labels
         \/ (IsArenaType bgTypeId = true
             /\ arenaType ∉ [ARENA_TYPE_2v2; ARENA_TYPE_3v3; ARENA_TYPE_5v5]) ->
         BGQueueTypeId bgTypeId arenaType = BATTLEGROUND_QUEUE_NONE).
Proof.
  split.
  - intros bgTypeId arenaType Harena Hsize.
    rewrite BGQueueTypeId_arena by done.
    apply arena_size_queue in Hsize. unfold BGTemplateId.
    repeat (apply elem_of_cons in Hsize as [->|Hsize]);
      [..|by apply elem_of_nil in Hsize];
      (apply switch_hit; [exact bg_queue_labels_NoDup|solve_case]).
  - intros bgTypeId arenaType [Hunknown|[Harena Hsize]].
    + unfold BGQueueTypeId. by apply switch_miss.
    + rewrite BGQueueTypeId_arena by done. by apply switch_miss.
Qed.

(** C9: the holiday mapping round-trips on the kinds and on the holidays
    that have a case, in both directions, and outside them each direction
    returns its none sentinel. *)
Theorem WeekendHoliday_round_trip :
  (forall bgTypeId, bgTypeId ∈ holiday_kind_labels ->
      WeekendHolidayIdToBGType (BGTypeToWeekendHolidayId bgTypeId) = bgTypeId)
  /\ (forall holiday, holiday ∈ holiday_labels ->
         BGTypeToWeekendHolidayId (WeekendHolidayIdToBGType holiday) = holiday)
  /\ (forall bgTypeId, bgTypeId ∉ holiday_kind_labels ->
         BGTypeToWeekendHolidayId bgTypeId = HOLIDAY_NONE)
  /\ (forall holiday, holiday ∉ holiday_labels ->
         WeekendHolidayIdToBGType holiday = BATTLEGROUND_TYPE_NONE).
Proof.
  pose proof holiday_kind_labels_NoDup as Hkinds.
  pose proof holiday_labels_NoDup as Hholidays.
  repeat split.
  - intros bgTypeId Hin. unfold holiday_kind_labels in Hin.
    repeat (apply elem_of_cons in Hin as [->|Hin]);
      [..|by apply elem_of_nil in Hin];
      unfold BGTypeToWeekendHolidayId;
      (erewrite switch_hit; [|exact Hkinds|solve_case]);
      unfold WeekendHolidayIdToBGType;
      (apply switch_hit; [exact Hholidays|solve_case]).
  - intros holiday Hin. unfold holiday_labels in Hin.
    repeat (apply elem_of_cons in Hin as [->|Hin]);
      [..|by apply elem_of_nil in Hin];
      unfold WeekendHolidayIdToBGType;
      (erewrite switch_hit; [|exact Hholidays|solve_case]);
      unfold BGTypeToWeekendHolidayId;
      (apply switch_hit; [exact Hkinds|solve_case]).
  - intros bgTypeId Hout. by apply switch_miss.
  - intros holiday Hout. by apply switch_miss.
Qed.

End ClassifierFacts.

Lemma BGQueueTypeId_BGTemplateId_arena_witness :
  case_labels_distinct (D := sample_defines) = true
  /\ BGTemplateId (D := sample_defines)
       (BGQueueTypeId (D := sample_defines) 4 3) = 6
  /\ BGQueueTypeId (D := sample_defines) 4 4 = 0
  /\ BGQueueTypeId (D := sample_defines) 100 2 = 0.
Proof.
  assert (Hdistinct : case_labels_distinct (D := sample_defines) = true)
    by reflexivity.
  destruct (BGQueueTypeId_BGTemplateId_arena (D := sample_defines) Hdistinct)
    as [Hround Hnone].
  split; [exact Hdistinct|]. split; [|split].
  - apply (Hround 4 3); [reflexivity|compute_done].
  - apply (Hnone 4 4). right. split; [reflexivity|compute_done].
  - apply (Hnone 100 2). left. compute_done.
Defined.

Lemma WeekendHoliday_round_trip_witness :
  case_labels_distinct (D := sample_defines) = true
  /\ WeekendHolidayIdToBGType (D := sample_defines)
       (BGTypeToWeekendHolidayId (D := sample_defines) 30) = 30
  /\ BGTypeToWeekendHolidayId (D := sample_defines)
       (WeekendHolidayIdToBGType (D := sample_defines) 435) = 435
  /\ BGTypeToWeekendHolidayId (D := sample_defines) 6 = 0
  /\ WeekendHolidayIdToBGType (D := sample_defines) 999 = 0.
Proof.
  assert (Hdistinct : case_labels_distinct (D := sample_defines) = true)
    by reflexivity.
  destruct (WeekendHoliday_round_trip (D := sample_defines) Hdistinct)
    as (Hkind & Hholiday & Hnokind & Hnoholiday).
  split; [exact Hdistinct|]. split; [|split; [|split]].
  - apply (Hkind 30). compute_done.
  - apply (Hholiday 435). compute_done.
  - apply (Hnokind 6). compute_done.
  - apply (Hnoholiday 999). compute_done.
Defined.

(** ** InstancePool: lookup *)

Section PoolFacts.
Context {D : SharedDefines}.

(** C10: a lookup with instance id 0 returns NULL, whatever the type
    argument (a concrete type or BATTLEGROUND_TYPE_NONE) and whatever the
    pool holds; the template, stored under id 0, is out of its reach. *)
Theorem GetBattleground_zero_is_null (bgTypeId : Z) (mgr : BattlegroundMgr) :
  GetBattleground 0 bgTypeId mgr = None.
Proof. unfold GetBattleground. by rewrite decide_True. Qed.

(** Registering a template for a type that has none stores the new object
    under instance id 0, where [GetBattlegroundTemplate] finds it. *)
Lemma CreateBattleground_registers (bgTemplate : BattlegroundTemplate)
  (mgr mgr' : BattlegroundMgr) :
  GetBattlegroundTemplate (Id bgTemplate) mgr = None ->
  CreateBattleground bgTemplate mgr = (true, mgr') ->
  exists bg,
    m_InstanceID bg = 0
    /\ StdMap.find 0 (m_Battlegrounds (data_at (Id bgTemplate) mgr')) = Some bg
    /\ GetBattlegroundTemplate (Id bgTemplate) mgr' = Some bg.
Proof.
  intros Hnone. unfold CreateBattleground. rewrite Hnone.
  destruct (switch _ _ _) as [bg|] eqn:Hkind; [|done].
  assert (Htype : m_TypeID bg = Id bgTemplate).
  { revert Hkind. unfold switch.
    repeat case_decide; intros [= <-]; reflexivity. }
  intros [= <-]. exists (SetInstanceID 0 (SetInstanceID 0 bg)).
  assert (Hcontainer :
    m_Battlegrounds (data_at (Id bgTemplate) mgr) = []).
  { unfold GetBattlegroundTemplate in Hnone. unfold data_at.
    destruct (StdMap.find _ _) as [data|]; [|done].
    simpl in *. by destruct (m_Battlegrounds data). }
  unfold AddBattleground, GetBattlegroundTemplate, data_at, set_data_at in *.
  simpl. rewrite !Htype, !find_assign_eq. simpl.
  rewrite Hcontainer, find_assign_eq. done.
Qed.

End PoolFacts.

(** ** DeferredScheduler *)

Lemma ScheduleQueueUpdate_NoDup (rating arenaType bgQueueTypeId bgTypeId
  bracket_id : Z) (mgr : BattlegroundMgr) :
  NoDup (m_QueueUpdateScheduler mgr) ->
  NoDup (m_QueueUpdateScheduler
           (ScheduleQueueUpdate rating arenaType bgQueueTypeId bgTypeId
              bracket_id mgr)).
Proof.
  intros Hnd. unfold ScheduleQueueUpdate. case_decide as Hin; [done|].
  simpl. apply NoDup_app. split; [done|]. split.
  - intros x Hx Hx'. apply list_elem_of_singleton in Hx'. by subst x.
  - apply NoDup_singleton.
Qed.

Lemma ScheduleQueueUpdate_pending (rating arenaType bgQueueTypeId bgTypeId
  bracket_id : Z) (mgr : BattlegroundMgr) :
  scheduleId rating arenaType bgQueueTypeId bgTypeId bracket_id
    ∈ m_QueueUpdateScheduler mgr ->
  ScheduleQueueUpdate rating arenaType bgQueueTypeId bgTypeId bracket_id mgr
  = mgr.
Proof. intros Hin. unfold ScheduleQueueUpdate. by rewrite decide_True. Qed.

Lemma ScheduleQueueUpdate_scheduled (rating arenaType bgQueueTypeId bgTypeId
  bracket_id : Z) (mgr : BattlegroundMgr) :
  scheduleId rating arenaType bgQueueTypeId bgTypeId bracket_id
    ∈ m_QueueUpdateScheduler
        (ScheduleQueueUpdate rating arenaType bgQueueTypeId bgTypeId
           bracket_id mgr).
Proof.
  unfold ScheduleQueueUpdate. case_decide as Hin; [done|].
  simpl. apply elem_of_app. right. apply list_elem_of_here.
Qed.

(** C6: scheduling never duplicates a packed key. From a pending list
    without repetition (the empty list after construction or after a drain
    is one), any run of schedule calls leaves a list without repetition;
    scheduling a key that is pending leaves the manager unchanged; and
    scheduling the same key twice is the same as scheduling it once. *)
Theorem ScheduleQueueUpdate_idempotent (calls : list (Z * Z * Z * Z * Z))
  (mgr : BattlegroundMgr) :
  NoDup (m_QueueUpdateScheduler mgr) ->
  let mgr' := ScheduleQueueUpdate_many calls mgr in
  NoDup (m_QueueUpdateScheduler mgr')
  /\ (forall rating arenaType bgQueueTypeId bgTypeId bracket_id,
         scheduleId rating arenaType bgQueueTypeId bgTypeId bracket_id
           ∈ m_QueueUpdateScheduler mgr' ->
         ScheduleQueueUpdate rating arenaType bgQueueTypeId bgTypeId
           bracket_id mgr' = mgr')
  /\ (forall rating arenaType bgQueueTypeId bgTypeId bracket_id,
         ScheduleQueueUpdate rating arenaType bgQueueTypeId bgTypeId bracket_id
           (ScheduleQueueUpdate rating arenaType bgQueueTypeId bgTypeId
              bracket_id mgr')
         = ScheduleQueueUpdate rating arenaType bgQueueTypeId bgTypeId
             bracket_id mgr').
Proof.
  intros Hnd mgr'. subst mgr'. split; [|split].
  - revert mgr Hnd. unfold ScheduleQueueUpdate_many.
    induction calls as [|[[[[rating arenaType] bgQueueTypeId] bgTypeId]
                           bracket_id] rest IH]; intros mgr Hnd; simpl.
    + done.
    + apply IH. by apply ScheduleQueueUpdate_NoDup.
  - intros. by apply ScheduleQueueUpdate_pending.
  - intros. apply ScheduleQueueUpdate_pending, ScheduleQueueUpdate_scheduled.
Qed.

Lemma ScheduleQueueUpdate_idempotent_witness :
  NoDup (m_QueueUpdateScheduler (fresh_mgr 5000))
  /\ m_QueueUpdateScheduler
       (ScheduleQueueUpdate_many
          [(1500, 2, 10, 6, 1); (0, 0, 2, 2, 0); (1500, 2, 10, 6, 1)]
          (fresh_mgr 5000))
     = [6442485155329; 131584]
  /\ NoDup (m_QueueUpdateScheduler
              (ScheduleQueueUpdate_many
                 [(1500, 2, 10, 6, 1); (0, 0, 2, 2, 0); (1500, 2, 10, 6, 1)]
                 (fresh_mgr 5000)))
  /\ ScheduleQueueUpdate 0 0 2 2 0
       (ScheduleQueueUpdate_many
          [(1500, 2, 10, 6, 1); (0, 0, 2, 2, 0); (1500, 2, 10, 6, 1)]
          (fresh_mgr 5000))
     = ScheduleQueueUpdate_many
         [(1500, 2, 10, 6, 1); (0, 0, 2, 2, 0); (1500, 2, 10, 6, 1)]
         (fresh_mgr 5000).
Proof.
  assert (Hnd : NoDup (m_QueueUpdateScheduler (fresh_mgr 5000)))
    by apply NoDup_nil_2.
  destruct (ScheduleQueueUpdate_idempotent
              [(1500, 2, 10, 6, 1); (0, 0, 2, 2, 0); (1500, 2, 10, 6, 1)]
              (fresh_mgr 5000) Hnd) as (Hnodup & Hpending & _).
  split; [exact Hnd|]. split; [reflexivity|]. split; [exact Hnodup|].
  apply Hpending. compute_done.
Defined.

(** ** ClientIdPool *)

Section ClientIdFacts.
Context {D : SharedDefines}.

(** The scan ends within two rounds: the second round compares the element
    it has just copied into [lastId] with its successor. *)
Lemma client_id_scan_total (fuel : nat) (itr : list Z) (lastId : Z) :
  exists id, client_id_scan (S (S fuel)) itr lastId = Done id.
Proof.
  destruct itr as [|x rest]; simpl; [by eexists|].
  case_decide as Hfirst; [by eexists|].
  case_decide as Hsecond; [by eexists|].
  exfalso. unfold wrap32 in Hsecond.
  pose proof (Z.mod_pos_bound (x + 1) (2 ^ 32) ltac:(lia)) as Hrange.
  rewrite Hsecond in Hrange.
  destruct (decide (x + 1 < 2 ^ 32)) as [Hsmall|Hlarge].
  - rewrite Z.mod_small in Hsecond by lia. lia.
  - assert (Hmax : x + 1 = 2 ^ 32) by lia.
    rewrite Hmax, Z.mod_same in Hsecond by lia. lia.
Qed.

(** What the scan returns from [lastId = 0]: it looks at the smallest
    element only. *)
Lemma client_id_scan_value (fuel : nat) (clientIds : list Z) :
  client_id_scan (S (S fuel)) clientIds 0
  = Done match clientIds with
         | [] => 0
         | x :: _ => if decide (x = 1) then 2 else 1
         end.
Proof.
  destruct clientIds as [|x rest]; simpl; [done|].
  change (wrap32 (0 + 1)) with 1.
  destruct (decide (x = 1)) as [->|Hx].
  - rewrite decide_False by (intros Hne; by apply Hne).
    change (wrap32 (1 + 1)) with 2. by rewrite decide_True.
  - by rewrite decide_True by (intros Heq; by apply Hx).
Qed.

(** The id a non-arena allocation returns: 1 for an empty set, 3 when the
    smallest id in use is 1, and 2 otherwise. *)
Lemma CreateClientVisibleInstanceId_value (fuel : nat) (bgTypeId bracket_id : Z)
  (mgr : BattlegroundMgr) (clientIds : list Z) :
  IsArenaType bgTypeId = false ->
  array_get (m_ClientBattlegroundIds (data_at bgTypeId mgr)) bracket_id
    = Done clientIds ->
  let id := match clientIds with
            | [] => 1
            | x :: _ => if decide (x = 1) then 3 else 2
            end in
  CreateClientVisibleInstanceId (S (S fuel)) bgTypeId bracket_id mgr
  = Done (id,
          set_data_at bgTypeId
            {| m_Battlegrounds := m_Battlegrounds (data_at bgTypeId mgr);
               m_ClientBattlegroundIds :=
                 array_set (m_ClientBattlegroundIds (data_at bgTypeId mgr))
                   bracket_id (StdSet.insert id clientIds) |} mgr).
Proof.
  intros Harena Hids id. unfold CreateClientVisibleInstanceId.
  rewrite Harena, Hids. cbn [mbind result_bind].
  rewrite client_id_scan_value. cbn [mbind result_bind].
  assert (Hid : wrap32 (match clientIds with
                        | [] => 0
                        | x :: _ => if decide (x = 1) then 2 else 1
                        end + 1) = id).
  { subst id. destruct clientIds as [|x rest]; [done|].
    by destruct (decide (x = 1)). }
  by rewrite Hid.
Qed.

(** C7: for an arena kind, CreateClientVisibleInstanceId returns 0 and leaves
    the manager, hence every client-id set, as it was; and an instance that
    CreateNewBattleground creates for a requested arena kind has client id
    0, again with the manager unchanged. *)
Theorem CreateClientVisibleInstanceId_arena (bgTypeId : Z) :
  IsArenaType bgTypeId = true ->
  (forall fuel bracket_id mgr,
      CreateClientVisibleInstanceId fuel bgTypeId bracket_id mgr
      = Done (0, mgr))
  /\ (forall fuel select newInstanceId bracketEntry arenaType isRated mgr bg mgr',
         CreateNewBattleground fuel select newInstanceId bgTypeId bracketEntry
           arenaType isRated mgr = Done (Some bg, mgr') ->
         m_ClientInstanceID bg = 0 /\ mgr' = mgr).
Proof.
  intros Harena.
  assert (Hzero : forall fuel bracket_id mgr,
             CreateClientVisibleInstanceId fuel bgTypeId bracket_id mgr
             = Done (0, mgr)).
  { intros. unfold CreateClientVisibleInstanceId. by rewrite Harena. }
  split; [exact Hzero|].
  intros fuel select newInstanceId bracketEntry arenaType isRated mgr bg mgr'.
  unfold CreateNewBattleground.
  destruct (GetRandomBG select bgTypeId mgr) as [resolved| |];
    cbn [mbind result_bind]; [|done..].
  destruct (GetBattlegroundTemplate resolved mgr) as [bg_template|]; [|done].
  destruct (switch resolved _ None) as [copy|]; [|done].
  rewrite Hzero. cbn [mbind result_bind].
  intros [= <- <-]. done.
Qed.

Lemma GetRandomBG_no_candidate (select : list Z -> list Z -> nat)
  (bgTypeId : Z) (mgr : BattlegroundMgr) (bgTemplate : BattlegroundTemplate) :
  GetBattlegroundTemplateByTypeId bgTypeId mgr = Some bgTemplate ->
  (random_candidates (MapID (BattlemasterEntry bgTemplate)) mgr).1 = [] ->
  GetRandomBG select bgTypeId mgr = Undefined.
Proof.
  intros Htemplate Hnone. unfold GetRandomBG. rewrite Htemplate.
  destruct (random_candidates _ mgr) as [ids weights]. simpl in Hnone.
  subst ids. done.
Qed.

End ClientIdFacts.

Lemma CreateClientVisibleInstanceId_arena_witness :
  IsArenaType (D := sample_defines) 6 = true
  /\ CreateNewBattleground (D := sample_defines) 0 select_first 77 6
       {| GetBracketId := 1 |} 2 true loaded_mgr
     = Done (Some (SetRandom false (SetRated true (SetRandomTypeID 4
               (SetArenaType 2 (SetStatus STATUS_WAIT_JOIN (Reset
                 (SetClientInstanceID 0 (SetInstanceID 77
                   (SetBracket {| GetBracketId := 1 |}
                      (new_Battleground (D := sample_defines) sample_NA)))))))))),
             loaded_mgr)
  /\ CreateClientVisibleInstanceId (D := sample_defines) 0 6 1 loaded_mgr
     = Done (0, loaded_mgr).
Proof.
  assert (Harena : IsArenaType (D := sample_defines) 6 = true) by reflexivity.
  destruct (CreateClientVisibleInstanceId_arena (D := sample_defines) 6 Harena)
    as [Hzero Hcreate].
  split; [exact Harena|]. split; [reflexivity|]. apply Hzero.
Defined.

(** C1: the id returned is not the smallest free one. On the loaded
    manager the first allocation returns 1; with id 1 in use the next one
    returns 3, where 2 is free; with 1 and 3 in use it returns 3 again, an id
    that is in use; and with only id 3 in use (1 released from 1 and 3) it
    returns 2, where 1 is free. The loop never advances its iterator, so it
    only ever compares with the smallest id in use. *)
Theorem CreateClientVisibleInstanceId_skips_free_id (fuel : nat) :
  CreateClientVisibleInstanceId (D := sample_defines) (S (S fuel)) 2 0
    loaded_mgr
  = Done (1, mgr_with_WS_ids [1])
  /\ CreateClientVisibleInstanceId (D := sample_defines) (S (S fuel)) 2 0
       (mgr_with_WS_ids [1])
     = Done (3, mgr_with_WS_ids [1; 3])
  /\ CreateClientVisibleInstanceId (D := sample_defines) (S (S fuel)) 2 0
       (mgr_with_WS_ids [1; 3])
     = Done (3, mgr_with_WS_ids [1; 3])
  /\ CreateClientVisibleInstanceId (D := sample_defines) (S (S fuel)) 2 0
       (mgr_with_WS_ids (StdSet.erase 1 [1; 3]))
     = Done (2, mgr_with_WS_ids [2; 3])
  /\ ((2 ∉ [1]) /\ 0 < 2 < 3)
  /\ (3 ∈ [1; 3])
  /\ ((1 ∉ StdSet.erase 1 [1; 3]) /\ 0 < 1 < 2).
Proof.
  split; [|split; [|split; [|split; [|split; [|split]]]]];
    [..|compute_done|compute_done|compute_done].
  - rewrite (CreateClientVisibleInstanceId_value (D := sample_defines)
               fuel 2 0 loaded_mgr []);
      vm_compute; reflexivity.
  - rewrite (CreateClientVisibleInstanceId_value (D := sample_defines)
               fuel 2 0 (mgr_with_WS_ids [1]) [1]);
      vm_compute; reflexivity.
  - rewrite (CreateClientVisibleInstanceId_value (D := sample_defines)
               fuel 2 0 (mgr_with_WS_ids [1; 3]) [1; 3]);
      vm_compute; reflexivity.
  - rewrite (CreateClientVisibleInstanceId_value (D := sample_defines)
               fuel 2 0 (mgr_with_WS_ids (StdSet.erase 1 [1; 3])) [3]);
      vm_compute; reflexivity.
Qed.

(** C2: when the requested kind has a template but none of its maps has a
    registered kind, the candidate list is empty and GetRandomBG
    dereferences the end of an empty vector: the creation has undefined
    behaviour instead of returning NULL. Here for the random aggregate of
    the sample catalog, whatever the draw. *)
Theorem CreateNewBattleground_no_candidate (fuel : nat)
  (select : list Z -> list Z -> nat) (newInstanceId : Z)
  (bracketEntry : PVPDifficultyEntry) (arenaType : Z) (isRated : bool) :
  CreateNewBattleground (D := sample_defines) fuel select newInstanceId 32
    bracketEntry arenaType isRated loaded_mgr
  = Undefined.
Proof.
  unfold CreateNewBattleground.
  rewrite (GetRandomBG_no_candidate (D := sample_defines) select 32
             loaded_mgr sample_RB); vm_compute; reflexivity.
Qed.

(** ** Sweeper *)

Section SweeperFacts.
Context {D : SharedDefines} {Script : BattlegroundScript} {W : WorldConfig}.

(** *** The drained batch *)

(** With at most 255 entries the eight-bit counter never wraps, and the
    loop calls the queue of every entry from position [i] on, in order. *)
Lemma scheduled_loop_done (fuel : nat) (diff : Z) (scheduled : list Z) (i : Z) :
  (length scheduled <= 255)%nat ->
  0 <= i <= Z.of_nat (length scheduled) ->
  (length scheduled - Z.to_nat i < fuel)%nat ->
  scheduled_loop fuel diff scheduled i
  = Done (scheduled_call diff <$> drop (Z.to_nat i) scheduled).
Proof.
  intros Hsize. revert i.
  induction fuel as [|fuel IH]; intros i Hi Hfuel; [lia|].
  simpl. case_decide as Hlt.
  - destruct (lookup_lt_is_Some_2 scheduled (Z.to_nat i)) as [entry Hentry];
      [lia|].
    unfold array_get. rewrite decide_True by lia. rewrite Hentry.
    cbn [mbind result_bind].
    assert (Hwrap : wrap8 (i + 1) = i + 1).
    { unfold wrap8. apply Z.mod_small. lia. }
    rewrite Hwrap, IH by lia. cbn [mbind result_bind].
    rewrite (drop_S _ _ _ Hentry), fmap_cons.
    by replace (Z.to_nat (i + 1)) with (S (Z.to_nat i)) by lia.
  - by rewrite drop_ge by lia.
Qed.

(** With 256 entries or more the counter wraps to 0 before it can reach the
    size of the batch, and the loop does not end. *)
Lemma scheduled_loop_diverges (fuel : nat) (diff : Z) (scheduled : list Z)
  (i : Z) :
  (256 <= length scheduled)%nat ->
  0 <= i < 256 ->
  scheduled_loop fuel diff scheduled i = OutOfFuel.
Proof.
  intros Hsize. revert i.
  induction fuel as [|fuel IH]; intros i Hi; [done|].
  simpl. rewrite decide_True by lia.
  destruct (lookup_lt_is_Some_2 scheduled (Z.to_nat i)) as [entry Hentry];
    [lia|].
  unfold array_get. rewrite decide_True by lia. rewrite Hentry.
  cbn [mbind result_bind]. rewrite IH; [done|].
  unfold wrap8. apply Z.mod_pos_bound. lia.
Qed.

Lemma Update_scheduled_done (fuel : nat) (diff : Z) (mgr : BattlegroundMgr) :
  (length (m_QueueUpdateScheduler mgr) <= 255)%nat ->
  (length (m_QueueUpdateScheduler mgr) < fuel)%nat ->
  Update_scheduled fuel diff mgr
  = Done (with_QueueUpdateScheduler [] mgr,
          scheduled_call diff <$> m_QueueUpdateScheduler mgr).
Proof.
  intros Hsize Hfuel. unfold Update_scheduled.
  destruct (m_QueueUpdateScheduler mgr) as [|entry rest] eqn:Hpending.
  - destruct mgr; simpl in *; by subst.
  - rewrite scheduled_loop_done by (simpl in *; lia). done.
Qed.

Lemma Update_scheduled_diverges (fuel : nat) (diff : Z)
  (mgr : BattlegroundMgr) :
  (256 <= length (m_QueueUpdateScheduler mgr))%nat ->
  Update_scheduled fuel diff mgr = OutOfFuel.
Proof.
  intros Hsize. unfold Update_scheduled.
  destruct (m_QueueUpdateScheduler mgr) as [|entry rest] eqn:Hpending;
    [simpl in Hsize; lia|].
  by rewrite scheduled_loop_diverges by (simpl in *; lia).
Qed.

(** *** The instance sweep *)

Lemma sweep_data_begin (timer : Z) (data data' : BattlegroundData) :
  sweep_data timer data = Done data' ->
  StdMap.begin (m_Battlegrounds data') = StdMap.begin (m_Battlegrounds data).
Proof.
  unfold sweep_data. destruct (m_Battlegrounds data) as [|template live];
    [done|].
  destruct (sweep_instances _ _ _) as [[live' clientIds']| |];
    cbn [mbind result_bind]; [|done..].
  by intros [= <-].
Qed.

(** The sweep leaves the first entry of every type's container in place
    and as it was. *)
Lemma sweep_store_template (timer : Z) (store store' : StdMap.t BattlegroundData)
  (bgTypeId : Z) (mgr : BattlegroundMgr) :
  sweep_store timer store = Done store' ->
  GetBattlegroundTemplate bgTypeId (with_bgDataStore store' mgr)
  = GetBattlegroundTemplate bgTypeId (with_bgDataStore store mgr).
Proof.
  unfold GetBattlegroundTemplate. simpl. revert store'.
  induction store as [|[k data] rest IH]; intros store'; simpl.
  - by intros [= <-].
  - destruct (sweep_data timer data) as [data'| |] eqn:Hdata;
      cbn [mbind result_bind]; [|done..].
    destruct (sweep_store timer rest) as [rest'| |];
      cbn [mbind result_bind]; [|done..].
    intros [= <-]. simpl. case_decide.
    + by rewrite (sweep_data_begin _ _ _ Hdata).
    + by apply IH.
Qed.

Lemma Update_instances_template (diff : Z) (mgr mgr1 : BattlegroundMgr)
  (bgTypeId : Z) :
  Update_instances diff mgr = Done mgr1 ->
  GetBattlegroundTemplate bgTypeId mgr1 = GetBattlegroundTemplate bgTypeId mgr.
Proof.
  unfold Update_instances. case_decide.
  - destruct (sweep_store _ _) as [store'| |] eqn:Hsweep;
      cbn [mbind result_bind]; [|done..].
    intros [= <-].
    pose proof (sweep_store_template _ _ _ bgTypeId mgr Hsweep) as Hsame.
    unfold GetBattlegroundTemplate in *. exact Hsame.
  - by intros [= <-].
Qed.

(** The sweep does not touch the pending list nor the countdown. *)
Lemma Update_instances_frame (diff : Z) (mgr mgr1 : BattlegroundMgr) :
  Update_instances diff mgr = Done mgr1 ->
  m_QueueUpdateScheduler mgr1 = m_QueueUpdateScheduler mgr
  /\ m_NextRatedArenaUpdate mgr1 = m_NextRatedArenaUpdate mgr.
Proof.
  unfold Update_instances. case_decide.
  - destruct (sweep_store _ _) as [store'| |];
      cbn [mbind result_bind]; [|done..].
    by intros [= <-].
  - by intros [= <-].
Qed.

(** Below the interval there is no sweep: only the accumulator changes. *)
Lemma Update_instances_below (diff : Z) (mgr : BattlegroundMgr) :
  wrap32 (m_UpdateTimer mgr + diff) <= BATTLEGROUND_OBJECTIVE_UPDATE_INTERVAL ->
  Update_instances diff mgr
  = Done (with_UpdateTimer (wrap32 (m_UpdateTimer mgr + diff)) mgr).
Proof. intros Hbelow. unfold Update_instances. by rewrite decide_False by lia. Qed.

(** *** The whole tick *)

(** A tick whose sweep is defined and whose batch has at most 255 entries
    completes, with this outcome. *)
Lemma Update_done (fuel : nat) (diff : Z) (mgr mgr1 : BattlegroundMgr) :
  Update_instances diff mgr = Done mgr1 ->
  (length (m_QueueUpdateScheduler mgr) <= 255)%nat ->
  (length (m_QueueUpdateScheduler mgr) < fuel)%nat ->
  Update fuel diff mgr
  = Done ((Update_ratedArenas diff (with_QueueUpdateScheduler [] mgr1)).1,
          Update_events diff
            ++ (scheduled_call diff <$> m_QueueUpdateScheduler mgr)
            ++ (Update_ratedArenas diff (with_QueueUpdateScheduler [] mgr1)).2).
Proof.
  intros Hsweep Hsize Hfuel. unfold Update.
  rewrite Hsweep. cbn [mbind result_bind].
  destruct (Update_instances_frame _ _ _ Hsweep) as [Hpending _].
  rewrite Update_scheduled_done by (rewrite Hpending; lia).
  cbn [mbind result_bind]. rewrite Hpending.
  by destruct (Update_ratedArenas diff _).
Qed.

(** A tick with 256 pending entries or more does not return. *)
Lemma Update_diverges (fuel : nat) (diff : Z) (mgr mgr1 : BattlegroundMgr) :
  Update_instances diff mgr = Done mgr1 ->
  (256 <= length (m_QueueUpdateScheduler mgr))%nat ->
  Update fuel diff mgr = OutOfFuel.
Proof.
  intros Hsweep Hsize. unfold Update.
  rewrite Hsweep. cbn [mbind result_bind].
  destruct (Update_instances_frame _ _ _ Hsweep) as [Hpending _].
  by rewrite Update_scheduled_diverges by (rewrite Hpending; lia).
Qed.

(** A tick that returns leaves no entry pending. *)
Lemma Update_drains (fuel : nat) (diff : Z) (mgr mgr' : BattlegroundMgr)
  (calls : list QueueCall) :
  Update fuel diff mgr = Done (mgr', calls) ->
  m_QueueUpdateScheduler mgr' = [].
Proof.
  unfold Update.
  destruct (Update_instances diff mgr) as [mgr1| |];
    cbn [mbind result_bind]; [|done..].
  destruct (Update_scheduled fuel diff mgr1) as [[mgr2 scheduled]| |] eqn:Hbatch;
    cbn [mbind result_bind]; [|done..].
  assert (Hempty : m_QueueUpdateScheduler mgr2 = []).
  { revert Hbatch. unfold Update_scheduled.
    destruct (m_QueueUpdateScheduler mgr1) eqn:Hpending;
      [by intros [= <- _]|].
    destruct (scheduled_loop _ _ _ _); cbn [mbind result_bind]; [|done..].
    by intros [= <- _]. }
  destruct (Update_ratedArenas diff mgr2) as [mgr3 forced] eqn:Hrated.
  intros [= <- _]. revert Hrated. unfold Update_ratedArenas.
  destruct (_ && _); [case_decide|]; by intros [= <- _].
Qed.

(** A tick that returns has not changed the first entry of any type. *)
Lemma Update_template (fuel : nat) (diff : Z) (mgr mgr' : BattlegroundMgr)
  (calls : list QueueCall) (bgTypeId : Z) :
  Update fuel diff mgr = Done (mgr', calls) ->
  GetBattlegroundTemplate bgTypeId mgr' = GetBattlegroundTemplate bgTypeId mgr.
Proof.
  unfold Update.
  destruct (Update_instances diff mgr) as [mgr1| |] eqn:Hsweep;
    cbn [mbind result_bind]; [|done..].
  rewrite <- (Update_instances_template _ _ _ bgTypeId Hsweep).
  destruct (Update_scheduled fuel diff mgr1) as [[mgr2 scheduled]| |] eqn:Hbatch;
    cbn [mbind result_bind]; [|done..].
  assert (Hstore2 : bgDataStore mgr2 = bgDataStore mgr1).
  { revert Hbatch. unfold Update_scheduled.
    destruct (m_QueueUpdateScheduler mgr1); [by intros [= <- _]|].
    destruct (scheduled_loop _ _ _ _); cbn [mbind result_bind]; [|done..].
    by intros [= <- _]. }
  destruct (Update_ratedArenas diff mgr2) as [mgr3 forced] eqn:Hrated.
  intros [= <- _].
  assert (Hstore3 : bgDataStore mgr3 = bgDataStore mgr2).
  { revert Hrated. unfold Update_ratedArenas.
    destruct (_ && _); [case_decide|]; by intros [= <- _]. }
  unfold GetBattlegroundTemplate. by rewrite Hstore3, Hstore2.
Qed.

End SweeperFacts.

Lemma elem_of_int_range (lo hi x : Z) : x ∈ int_range lo hi <-> lo <= x < hi.
Proof.
  unfold int_range. rewrite elem_of_seqZ. lia.
Qed.

Section TickFacts.
Context {D : SharedDefines} {Script : BattlegroundScript} {W : WorldConfig}.

(** The forced update calls the queue update of every queue index from 2v2
    to 5v5 for every bracket. *)
Lemma forced_arena_calls_elem (diff qtype bracket : Z) :
  BATTLEGROUND_QUEUE_2v2 <= qtype <= BATTLEGROUND_QUEUE_5v5 ->
  BG_BRACKET_ID_FIRST <= bracket < MAX_BATTLEGROUND_BRACKETS ->
  BattlegroundQueueUpdate qtype diff BATTLEGROUND_AA bracket
    (BGArenaType qtype) true 0 ∈ forced_arena_calls diff.
Proof.
  intros Hq Hb. unfold forced_arena_calls.
  apply list_elem_of_bind. exists qtype. split; [|apply elem_of_int_range; lia].
  apply list_elem_of_bind. exists bracket. split; [|by apply elem_of_int_range].
  apply list_elem_of_here.
Qed.

(** C3 (as the code has it): in a tick that completes, with both settings
    non-zero, if the countdown is strictly below the elapsed time the queue
    update is called for each of the 2v2, 3v3 and 5v5 queues and every
    bracket and the countdown is reset to the configured interval; otherwise,
    which includes a countdown equal to the elapsed time, the countdown is
    only decremented and no forced call is made. *)
Theorem Update_forced_arena_update (fuel : nat) (diff : Z)
  (mgr mgr1 : BattlegroundMgr) :
  CONFIG_ARENA_MAX_RATING_DIFFERENCE <> 0 ->
  CONFIG_ARENA_RATED_UPDATE_TIMER <> 0 ->
  BATTLEGROUND_QUEUE_2v2 <= BATTLEGROUND_QUEUE_3v3 <= BATTLEGROUND_QUEUE_5v5 ->
  0 <= diff ->
  m_NextRatedArenaUpdate mgr < 2 ^ 32 ->
  Update_instances diff mgr = Done mgr1 ->
  (length (m_QueueUpdateScheduler mgr) <= 255)%nat ->
  (length (m_QueueUpdateScheduler mgr) < fuel)%nat ->
  exists mgr' calls,
    Update fuel diff mgr = Done (mgr', calls)
    /\ (m_NextRatedArenaUpdate mgr < diff ->
        m_NextRatedArenaUpdate mgr' = CONFIG_ARENA_RATED_UPDATE_TIMER
        /\ forall qtype bracket,
             qtype ∈ [ BATTLEGROUND_QUEUE_2v2; BATTLEGROUND_QUEUE_3v3;
                       BATTLEGROUND_QUEUE_5v5 ] ->
             BG_BRACKET_ID_FIRST <= bracket < MAX_BATTLEGROUND_BRACKETS ->
             BattlegroundQueueUpdate qtype diff BATTLEGROUND_AA bracket
               (BGArenaType qtype) true 0 ∈ calls)
    /\ (diff <= m_NextRatedArenaUpdate mgr ->
        m_NextRatedArenaUpdate mgr' = m_NextRatedArenaUpdate mgr - diff
        /\ calls = Update_events diff
                     ++ (scheduled_call diff <$> m_QueueUpdateScheduler mgr)).
Proof.
  intros Hrating Htimer Horder Hdiff Hcountdown Hsweep Hsize Hfuel.
  eexists _, _. split; [by apply Update_done|].
  destruct (Update_instances_frame _ _ _ Hsweep) as [_ Hnext].
  unfold Update_ratedArenas.
  rewrite !bool_decide_eq_true_2 by done.
  cbn [andb with_QueueUpdateScheduler m_NextRatedArenaUpdate].
  rewrite Hnext. split.
  - intros Hforce. rewrite decide_True by done. simpl. split; [done|].
    intros qtype bracket Hqtype Hbracket.
    rewrite !elem_of_app. right. right.
    apply forced_arena_calls_elem; [|done].
    repeat (apply elem_of_cons in Hqtype as [->|Hqtype]);
      [lia..|by apply elem_of_nil in Hqtype].
  - intros Hwait. rewrite decide_False by lia. simpl. split.
    + unfold wrap32. apply Z.mod_small. lia.
    + by rewrite app_nil_r.
Qed.


(** The first entry of a sorted container with unsigned keys is the entry
    of key 0, if there is one. *)
Lemma begin_is_key_zero {V} (m : StdMap.t V) (v : V) :
  StdMap.sorted m ->
  Forall (fun k => 0 <= k) (m.*1) ->
  StdMap.find 0 m = Some v ->
  StdMap.begin m = Some (0, v).
Proof.
  unfold StdMap.sorted. destruct m as [|[k v'] rest]; simpl; [done|].
  intros Hsorted Hkeys. case_decide as Hk; [by intros [= ->]; subst k|].
  intros Hfind. exfalso.
  apply StronglySorted_inv in Hsorted as [_ Hlt].
  apply Forall_cons in Hkeys as [Hk0 _].
  assert (Hin : 0 ∈ rest.*1).
  { clear -Hfind. induction rest as [|[k' w] rest IH]; simpl in *; [done|].
    case_decide; [subst; apply list_elem_of_here|].
    apply list_elem_of_further. by apply IH. }
  rewrite Forall_forall in Hlt. specialize (Hlt 0 Hin). lia.
Qed.

(** C5: for a type whose container is sorted on unsigned instance ids and
    holds a template under id 0, GetBattlegroundTemplate returns that
    template, and returns the very same object after any run of ticks: the
    sweep neither updates nor deletes the first entry. *)
Theorem GetBattlegroundTemplate_stable (bgTypeId : Z) (mgr : BattlegroundMgr)
  (data : BattlegroundData) (template : Battleground) :
  StdMap.find bgTypeId (bgDataStore mgr) = Some data ->
  StdMap.sorted (m_Battlegrounds data) ->
  Forall (fun k => 0 <= k) ((m_Battlegrounds data).*1) ->
  StdMap.find 0 (m_Battlegrounds data) = Some template ->
  GetBattlegroundTemplate bgTypeId mgr = Some template
  /\ forall fuel diffs mgr',
       Update_many fuel diffs mgr = Done mgr' ->
       GetBattlegroundTemplate bgTypeId mgr' = Some template.
Proof.
  intros Hdata Hsorted Hkeys Hzero.
  assert (Hnow : GetBattlegroundTemplate bgTypeId mgr = Some template).
  { unfold GetBattlegroundTemplate. rewrite Hdata.
    by rewrite (begin_is_key_zero _ _ Hsorted Hkeys Hzero). }
  split; [done|].
  intros fuel diffs. clear Hdata Hsorted Hkeys Hzero. revert mgr Hnow.
  induction diffs as [|diff rest IH]; intros mgr Hnow mgr'; simpl.
  - by intros [= <-].
  - destruct (Update fuel diff mgr) as [[mgr1 calls]| |] eqn:Htick;
      cbn [mbind result_bind]; [|done..].
    apply IH. by rewrite (Update_template _ _ _ _ _ bgTypeId Htick).
Qed.

End TickFacts.

Lemma Update_forced_arena_update_witness :
  exists mgr' calls,
    Update (D := sample_defines) (Script := sample_script) (W := sample_world)
      3 1000 (with_NextRatedArenaUpdate 999 (mgr_with_pending 2))
    = Done (mgr', calls)
    /\ m_NextRatedArenaUpdate mgr' = 5000
    /\ BattlegroundQueueUpdate 11 1000 6 3 3 true 0 ∈ calls.
Proof.
  destruct (Update_forced_arena_update
              (D := sample_defines) (Script := sample_script)
              (W := sample_world) 3 1000
              (with_NextRatedArenaUpdate 999 (mgr_with_pending 2))
              (with_UpdateTimer 1000
                 (with_NextRatedArenaUpdate 999 (mgr_with_pending 2))))
    as (mgr' & calls & Hrun & Hforce & _).
  - simpl. lia.
  - simpl. lia.
  - simpl. lia.
  - lia.
  - reflexivity.
  - reflexivity.
  - simpl. lia.
  - simpl. lia.
  - exists mgr', calls. destruct Hforce as [Hreset Hcalls]; [reflexivity|].
    split; [exact Hrun|]. split; [exact Hreset|].
    apply (Hcalls 11 3); [compute_done|simpl; lia].
Defined.

(** C3 (as stated) fails when the countdown reaches exactly zero: with both
    settings non-zero, a countdown of 1000 and 1000 elapsed, the tick makes
    the thirteen UpdateEvents calls and nothing else, and leaves the
    countdown at 0 instead of the configured 5000. *)
Lemma Update_countdown_reaching_zero :
  CONFIG_ARENA_MAX_RATING_DIFFERENCE (WorldConfig := sample_world) <> 0
  /\ CONFIG_ARENA_RATED_UPDATE_TIMER (WorldConfig := sample_world) <> 0
  /\ m_NextRatedArenaUpdate (with_NextRatedArenaUpdate 1000 loaded_mgr) - 1000
     <= 0
  /\ Update (D := sample_defines) (Script := sample_script) (W := sample_world)
       1 1000 (with_NextRatedArenaUpdate 1000 loaded_mgr)
     = Done (with_UpdateTimer 1000 (with_NextRatedArenaUpdate 0 loaded_mgr),
             (fun qtype => UpdateEvents qtype 1000) <$> seqZ 0 13)
  /\ m_NextRatedArenaUpdate
       (with_UpdateTimer 1000 (with_NextRatedArenaUpdate 0 loaded_mgr))
     <> CONFIG_ARENA_RATED_UPDATE_TIMER (WorldConfig := sample_world).
Proof.
  split; [simpl; lia|]. split; [simpl; lia|]. split; [simpl; lia|].
  split; [vm_compute; reflexivity|simpl; lia].
Qed.

(** C4: with 257 entries pending, as 257 schedule calls with different
    ratings leave them, a tick below the interval never returns: the
    eight-bit counter of the dispatch loop wraps to 0 after entry 255, so
    the entry at position 256 is never dispatched. *)
Theorem Update_pending_overflow (fuel : nat) :
  ScheduleQueueUpdate_many
    ((fun k : nat => (Z.of_nat k, 2, 10, 6, 0)) <$> seq 0 257) loaded_mgr
  = mgr_with_pending 257
  /\ wrap32 (m_UpdateTimer (mgr_with_pending 257) + 100)
     <= BATTLEGROUND_OBJECTIVE_UPDATE_INTERVAL (SharedDefines := sample_defines)
  /\ Update (D := sample_defines) (Script := sample_script) (W := sample_world)
       fuel 100 (mgr_with_pending 257)
     = OutOfFuel.
Proof.
  split; [vm_compute; reflexivity|]. split; [vm_compute; discriminate|].
  apply (Update_diverges (D := sample_defines) fuel 100 _
           (with_UpdateTimer 100 (mgr_with_pending 257))).
  - reflexivity.
  - unfold mgr_with_pending.
    cbn [with_QueueUpdateScheduler m_QueueUpdateScheduler].
    rewrite length_fmap, length_seq. lia.
Qed.

Lemma GetBattlegroundTemplate_stable_witness :
  GetBattlegroundTemplate 2 mgr_with_live
  = Some (new_Battleground (D := sample_defines) sample_WS)
  /\ GetBattleground (D := sample_defines) 7 2 mgr_with_live = Some sample_live
  /\ Update_many (D := sample_defines) (Script := sample_script)
       (W := sample_world) 1 [1500; 300] mgr_with_live
     = Done (with_UpdateTimer 300
               (with_NextRatedArenaUpdate 3200 (mgr_with_WS_ids [])))
  /\ GetBattleground (D := sample_defines) 7 2
       (with_UpdateTimer 300
          (with_NextRatedArenaUpdate 3200 (mgr_with_WS_ids []))) = None
  /\ GetBattlegroundTemplate 2
       (with_UpdateTimer 300
          (with_NextRatedArenaUpdate 3200 (mgr_with_WS_ids [])))
     = Some (new_Battleground (D := sample_defines) sample_WS).
Proof.
  assert (Hrun :
    Update_many (D := sample_defines) (Script := sample_script)
      (W := sample_world) 1 [1500; 300] mgr_with_live
    = Done (with_UpdateTimer 300
              (with_NextRatedArenaUpdate 3200 (mgr_with_WS_ids []))))
    by (vm_compute; reflexivity).
  destruct (GetBattlegroundTemplate_stable
              (D := sample_defines) (Script := sample_script)
              (W := sample_world) 2 mgr_with_live
              {| m_Battlegrounds :=
                   [(0, new_Battleground (D := sample_defines) sample_WS);
                    (7, sample_live)];
                 m_ClientBattlegroundIds := [[1]; []; []; []] |}
              (new_Battleground (D := sample_defines) sample_WS))
    as [Hnow Hafter].
  - reflexivity.
  - unfold StdMap.sorted. simpl. repeat constructor.
  - simpl. repeat constructor; lia.
  - reflexivity.
  - split; [exact Hnow|]. split; [reflexivity|]. split; [exact Hrun|].
    split; [reflexivity|]. exact (Hafter 1%nat [1500; 300] _ Hrun).
Defined.

(** * Further properties *)

(** ** QueueClassifier: the other round trips *)

Section ClassifierRoundTrips.
Context {D : SharedDefines}.
Hypothesis Hdistinct : case_labels_distinct = true.

(** X1: for each of the nine kinds with a queue of their own, the queue type
    maps back to the kind, whatever the team size. *)
Theorem BGTemplateId_BGQueueTypeId_battleground (bgTypeId arenaType : Z) :
  bgTypeId ∈ [ BATTLEGROUND_AB; BATTLEGROUND_AV; BATTLEGROUND_EY;
               BATTLEGROUND_IC; BATTLEGROUND_TP; BATTLEGROUND_BFG;
               BATTLEGROUND_RB; BATTLEGROUND_SA; BATTLEGROUND_WS ] ->
  BGTemplateId (BGQueueTypeId bgTypeId arenaType) = bgTypeId.
Proof.
  intros Hkind.
  pose proof (bg_type_labels_NoDup Hdistinct) as Htypes.
  pose proof (bg_queue_labels_NoDup Hdistinct) as Hqueues.
  repeat (apply elem_of_cons in Hkind as [->|Hkind]);
    [..|by apply elem_of_nil in Hkind];
    unfold BGQueueTypeId;
    (erewrite switch_hit; [|exact Htypes|solve_case]);
    unfold BGTemplateId;
    (apply switch_hit; [exact Hqueues|solve_case]).
Qed.

Lemma arena_queue_labels_NoDup :
  NoDup [ BATTLEGROUND_QUEUE_2v2; BATTLEGROUND_QUEUE_3v3;
          BATTLEGROUND_QUEUE_5v5 ]
  /\ forall bgQueueTypeId,
       bgQueueTypeId ∈ [ BATTLEGROUND_QUEUE_WS; BATTLEGROUND_QUEUE_AB;
                         BATTLEGROUND_QUEUE_AV; BATTLEGROUND_QUEUE_EY;
                         BATTLEGROUND_QUEUE_SA; BATTLEGROUND_QUEUE_IC;
                         BATTLEGROUND_QUEUE_TP; BATTLEGROUND_QUEUE_BFG;
                         BATTLEGROUND_QUEUE_RB ] ->
       bgQueueTypeId ∉ [ BATTLEGROUND_QUEUE_2v2; BATTLEGROUND_QUEUE_3v3;
                         BATTLEGROUND_QUEUE_5v5 ].
Proof.
  pose proof (bg_queue_labels_NoDup Hdistinct) as Hqueues.
  change bg_queue_labels with
    ([ BATTLEGROUND_QUEUE_WS; BATTLEGROUND_QUEUE_AB; BATTLEGROUND_QUEUE_AV;
       BATTLEGROUND_QUEUE_EY; BATTLEGROUND_QUEUE_SA; BATTLEGROUND_QUEUE_IC;
       BATTLEGROUND_QUEUE_TP; BATTLEGROUND_QUEUE_BFG; BATTLEGROUND_QUEUE_RB ]
     ++ [ BATTLEGROUND_QUEUE_2v2; BATTLEGROUND_QUEUE_3v3;
          BATTLEGROUND_QUEUE_5v5 ]) in Hqueues.
  apply NoDup_app in Hqueues as (_ & Hdisjoint & Harena). by split.
Qed.

(** X2: the team size of a queue undoes the classification of an arena: for
    an arena kind and team size 2, 3 or 5, BGArenaType of the queue type is
    that team size; the arena aggregate with the team size of an arena queue
    gives that queue back; and the nine battleground queues have team
    size 0. *)
Theorem BGArenaType_BGQueueTypeId :
  (forall bgTypeId arenaType,
      IsArenaType bgTypeId = true ->
      arenaType ∈ [ARENA_TYPE_2v2; ARENA_TYPE_3v3; ARENA_TYPE_5v5] ->
      BGArenaType (BGQueueTypeId bgTypeId arenaType) = arenaType)
  /\ (forall bgQueueTypeId,
         bgQueueTypeId ∈ [ BATTLEGROUND_QUEUE_2v2; BATTLEGROUND_QUEUE_3v3;
                           BATTLEGROUND_QUEUE_5v5 ] ->
         BGQueueTypeId BATTLEGROUND_AA (BGArenaType bgQueueTypeId)
         = bgQueueTypeId)
  /\ (forall bgQueueTypeId,
         bgQueueTypeId ∈ [ BATTLEGROUND_QUEUE_WS; BATTLEGROUND_QUEUE_AB;
                           BATTLEGROUND_QUEUE_AV; BATTLEGROUND_QUEUE_EY;
                           BATTLEGROUND_QUEUE_SA; BATTLEGROUND_QUEUE_IC;
                           BATTLEGROUND_QUEUE_TP; BATTLEGROUND_QUEUE_BFG;
                           BATTLEGROUND_QUEUE_RB ] ->
         BGArenaType bgQueueTypeId = 0).
Proof.
  destruct arena_queue_labels_NoDup as [Harena Hdisjoint].
  assert (Hback : forall q size,
             (q, size) ∈ [ (BATTLEGROUND_QUEUE_2v2, ARENA_TYPE_2v2);
                           (BATTLEGROUND_QUEUE_3v3, ARENA_TYPE_3v3);
                           (BATTLEGROUND_QUEUE_5v5, ARENA_TYPE_5v5) ] ->
             BGArenaType q = size).
  { intros q size Hin. unfold BGArenaType. by apply switch_hit. }
  split; [|split].
  - intros bgTypeId arenaType Hkind Hsize.
    rewrite (BGQueueTypeId_arena Hdistinct) by done.
    repeat (apply elem_of_cons in Hsize as [->|Hsize]);
      [..|by apply elem_of_nil in Hsize];
      (etransitivity; [apply Hback; vm_compute; solve_case|reflexivity]).
  - intros q Hq.
    assert (Hkind : IsArenaType BATTLEGROUND_AA = true).
    { unfold IsArenaType. by rewrite bool_decide_eq_true_2. }
    rewrite (BGQueueTypeId_arena Hdistinct) by done.
    repeat (apply elem_of_cons in Hq as [->|Hq]);
      [..|by apply elem_of_nil in Hq];
      (erewrite Hback; [|solve_case]); reflexivity.
  - intros q Hq. unfold BGArenaType. apply switch_miss.
    by apply Hdisjoint.
Qed.

End ClassifierRoundTrips.

Lemma BGTemplateId_BGQueueTypeId_battleground_witness :
  case_labels_distinct (D := sample_defines) = true
  /\ BGTemplateId (D := sample_defines)
       (BGQueueTypeId (D := sample_defines) 108 0) = 108.
Proof.
  assert (Hdistinct : case_labels_distinct (D := sample_defines) = true)
    by reflexivity.
  split; [exact Hdistinct|].
  apply (BGTemplateId_BGQueueTypeId_battleground (D := sample_defines)
           Hdistinct 108 0).
  compute_done.
Defined.

Lemma BGArenaType_BGQueueTypeId_witness :
  case_labels_distinct (D := sample_defines) = true
  /\ BGArenaType (D := sample_defines)
       (BGQueueTypeId (D := sample_defines) 8 5) = 5
  /\ BGQueueTypeId (D := sample_defines) 6
       (BGArenaType (D := sample_defines) 11) = 11
  /\ BGArenaType (D := sample_defines) 9 = 0.
Proof.
  assert (Hdistinct : case_labels_distinct (D := sample_defines) = true)
    by reflexivity.
  destruct (BGArenaType_BGQueueTypeId (D := sample_defines) Hdistinct)
    as (Hsize & Hqueue & Hzero).
  split; [exact Hdistinct|]. split; [|split].
  - apply (Hsize 8 5); [reflexivity|compute_done].
  - apply (Hqueue 11). compute_done.
  - apply (Hzero 9). compute_done.
Defined.

(** ** DeferredScheduler: packing and unpacking *)

(** Or-ing a value below [2 ^ n] into a multiple of [2 ^ n] adds it. *)
Lemma lor_shifted_add (a b n : Z) :
  0 <= n -> 0 <= b < 2 ^ n -> Z.lor (a * 2 ^ n) b = a * 2 ^ n + b.
Proof.
  intros Hn Hb.
  assert (Hdisjoint : Z.land (a * 2 ^ n) b = 0).
  { apply Z.bits_inj'. intros i Hi.
    rewrite Z.land_spec, Z.bits_0.
    destruct (decide (i < n)) as [Hlow|Hhigh].
    - by rewrite Z.mul_pow2_bits_low by lia.
    - rewrite <- (Z.mod_small b (2 ^ n)) by lia.
      rewrite Z.mod_pow2_bits_high by lia. apply andb_false_r. }
  rewrite <- Z.lxor_lor by done. symmetry. by apply Z.add_nocarry_lxor.
Qed.

(** With every field inside its bit field, the packed key is the sum of the
    shifted fields. *)
Lemma scheduleId_sum (rating arenaType bgQueueTypeId bgTypeId bracket_id : Z) :
  0 <= rating < 2 ^ 32 -> 0 <= arenaType < 256 -> 0 <= bgQueueTypeId < 256 ->
  0 <= bgTypeId < 256 -> 0 <= bracket_id < 256 ->
  scheduleId rating arenaType bgQueueTypeId bgTypeId bracket_id
  = rating * 2 ^ 32 + arenaType * 2 ^ 24 + bgQueueTypeId * 2 ^ 16
    + bgTypeId * 2 ^ 8 + bracket_id.
Proof.
  intros Hr Ha Hq Ht Hb. unfold scheduleId, wrap64.
  rewrite !Z.shiftl_mul_pow2 by lia.
  rewrite !(Z.mod_small rating), !(Z.mod_small arenaType),
    !(Z.mod_small bgQueueTypeId), !(Z.mod_small bgTypeId),
    !(Z.mod_small bracket_id) by lia.
  rewrite !Z.mod_small by lia.
  rewrite (lor_shifted_add rating (arenaType * 2 ^ 24) 32) by lia.
  replace (rating * 2 ^ 32 + arenaType * 2 ^ 24)
    with ((rating * 2 ^ 8 + arenaType) * 2 ^ 24) by lia.
  rewrite (lor_shifted_add _ (bgQueueTypeId * 2 ^ 16) 24) by lia.
  replace ((rating * 2 ^ 8 + arenaType) * 2 ^ 24 + bgQueueTypeId * 2 ^ 16)
    with ((rating * 2 ^ 16 + arenaType * 2 ^ 8 + bgQueueTypeId) * 2 ^ 16)
    by lia.
  rewrite (lor_shifted_add _ (bgTypeId * 2 ^ 8) 16) by lia.
  replace ((rating * 2 ^ 16 + arenaType * 2 ^ 8 + bgQueueTypeId) * 2 ^ 16
           + bgTypeId * 2 ^ 8)
    with ((rating * 2 ^ 24 + arenaType * 2 ^ 16 + bgQueueTypeId * 2 ^ 8
           + bgTypeId) * 2 ^ 8) by lia.
  rewrite (lor_shifted_add _ bracket_id 8) by lia. lia.
Qed.

(** Unpacking a key packed from fields inside their bit fields. *)
Lemma scheduled_call_scheduleId_args (diff rating arenaType bgQueueTypeId
  bgTypeId bracket_id : Z) :
  0 <= rating < 2 ^ 32 -> 0 <= arenaType < 256 -> 0 <= bgQueueTypeId < 256 ->
  0 <= bgTypeId < 256 -> 0 <= bracket_id < 256 ->
  scheduled_call diff
    (scheduleId rating arenaType bgQueueTypeId bgTypeId bracket_id)
  = BattlegroundQueueUpdate bgQueueTypeId diff bgTypeId bracket_id arenaType
      (bool_decide (rating > 0)) rating.
Proof.
  intros Hr Ha Hq Ht Hb.
  rewrite scheduleId_sum by done. unfold scheduled_call, wrap32, wrap8.
  rewrite !Z.shiftr_div_pow2 by lia.
  change 255 with (Z.ones 8). rewrite !Z.land_ones by lia.
  change (2 ^ 32) with 4294967296 in *. change (2 ^ 24) with 16777216.
  change (2 ^ 16) with 65536. change (2 ^ 8) with 256.
  set (key := rating * 4294967296 + arenaType * 16777216
              + bgQueueTypeId * 65536 + bgTypeId * 256 + bracket_id).
  assert (Hrating : key / 4294967296 = rating)
    by (subst key; Z.div_mod_to_equations; lia).
  assert (Hsize : (key / 16777216) mod 256 = arenaType)
    by (subst key; Z.div_mod_to_equations; lia).
  assert (Hqueue : (key / 65536) mod 256 = bgQueueTypeId)
    by (subst key; Z.div_mod_to_equations; lia).
  assert (Htype : (key / 256) mod 256 = bgTypeId)
    by (subst key; Z.div_mod_to_equations; lia).
  assert (Hbracket : key mod 256 = bracket_id)
    by (subst key; Z.div_mod_to_equations; lia).
  rewrite Hrating, Hsize, Hqueue, Htype, Hbracket.
  by rewrite !Z.mod_small by lia.
Qed.

(** X3: unpacking undoes packing. For a request whose rating is a uint32
    and whose other four arguments are below 256, the call the tick makes
    for the packed key is the queue update the request asks for: that
    queue, type, bracket and team size, with the rating, rated exactly when
    the rating is positive. Two such requests with the same key are the
    same request. *)
Theorem scheduled_call_scheduleId (diff : Z) (call : Z * Z * Z * Z * Z) :
  schedule_args_in_range call ->
  scheduled_call diff (schedule_key call) = requested_call diff call
  /\ forall call', schedule_args_in_range call' ->
       schedule_key call' = schedule_key call -> call' = call.
Proof.
  intros Hrange.
  assert (Hdecode : forall c, schedule_args_in_range c ->
             scheduled_call diff (schedule_key c) = requested_call diff c).
  { intros [[[[r a] q] t] b] (Hr & Ha & Hq & Ht & Hb).
    by apply scheduled_call_scheduleId_args. }
  split; [by apply Hdecode|].
  intros call' Hrange' Hkey.
  pose proof (Hdecode call Hrange) as Hcall.
  pose proof (Hdecode call' Hrange') as Hcall'.
  rewrite Hkey, Hcall in Hcall'.
  destruct call as [[[[r a] q] t] b], call' as [[[[r' a'] q'] t'] b'].
  simpl in Hcall'. by injection Hcall' as -> -> -> -> _ ->.
Qed.



Lemma scheduled_call_scheduleId_witness :
  schedule_args_in_range (1500, 2, 10, 6, 1)
  /\ scheduled_call 50 (schedule_key (1500, 2, 10, 6, 1))
     = BattlegroundQueueUpdate 10 50 6 1 2 true 1500.
Proof.
  assert (Hrange : schedule_args_in_range (1500, 2, 10, 6, 1))
    by (simpl; lia).
  split; [exact Hrange|].
  exact (proj1 (scheduled_call_scheduleId 50 (1500, 2, 10, 6, 1) Hrange)).
Defined.


Section ScheduleThenTick.
Context {D : SharedDefines} {Script : BattlegroundScript} {W : WorldConfig}.


End ScheduleThenTick.


(** ** InstancePool: registering, removing, looking up *)

Lemma find_above_None {V} (k : Z) (m : StdMap.t V) :
  Forall (Z.lt k) (m.*1) -> StdMap.find k m = None.
Proof.
  induction m as [|[k' v] rest IH]; simpl; [done|].
  intros Hlt. apply Forall_cons in Hlt as [Hk Hrest].
  rewrite decide_False by lia. by apply IH.
Qed.

Lemma find_erase_eq {V} (k : Z) (m : StdMap.t V) :
  StdMap.sorted m -> StdMap.find k (StdMap.erase k m) = None.
Proof.
  unfold StdMap.sorted. induction m as [|[k' v] rest IH]; simpl; [done|].
  intros Hsorted. apply StronglySorted_inv in Hsorted as [Hrest Hk'].
  case_decide as Hk.
  - subst k'. by apply find_above_None.
  - simpl. rewrite decide_False by done. by apply IH.
Qed.

Lemma find_erase_ne {V} (k k' : Z) (m : StdMap.t V) :
  k <> k' -> StdMap.find k (StdMap.erase k' m) = StdMap.find k m.
Proof.
  intros Hne. induction m as [|[k0 v] rest IH]; simpl; [done|].
  repeat case_decide; simpl; subst;
    rewrite ?decide_False by done; rewrite ?decide_True by done; done.
Qed.

Lemma map_erase_keys {V} (k k' : Z) (m : StdMap.t V) :
  k ∈ (StdMap.erase k' m).*1 -> k ∈ m.*1.
Proof.
  induction m as [|[k0 v] rest IH]; simpl; [done|].
  case_decide; simpl; rewrite ?elem_of_cons; [by right|].
  intros [->|Hin]; [by left|right; by apply IH].
Qed.

Lemma map_erase_sorted {V} (k : Z) (m : StdMap.t V) :
  StdMap.sorted m -> StdMap.sorted (StdMap.erase k m).
Proof.
  unfold StdMap.sorted. induction m as [|[k0 v] rest IH]; simpl; [done|].
  intros Hsorted. apply StronglySorted_inv in Hsorted as [Hrest Hk0].
  case_decide; simpl; [done|].
  constructor; [by apply IH|].
  apply Forall_forall. intros x Hx. apply map_erase_keys in Hx.
  rewrite Forall_forall in Hk0. by apply Hk0.
Qed.

Lemma set_erase_sorted (x : Z) (s : StdSet.t) :
  StdSet.sorted s -> StdSet.sorted (StdSet.erase x s).
Proof.
  unfold StdSet.sorted. induction s as [|y rest IH]; simpl; [done|].
  intros Hsorted. apply StronglySorted_inv in Hsorted as [Hrest Hy].
  case_decide; [done|].
  constructor; [by apply IH|].
  apply Forall_forall. intros z Hz.
  assert (Hin : z ∈ rest).
  { clear -Hz. induction rest as [|w rest IH]; simpl in *; [done|].
    case_decide; [by apply list_elem_of_further|].
    apply elem_of_cons in Hz as [->|Hz]; [apply list_elem_of_here|].
    apply list_elem_of_further. by apply IH. }
  rewrite Forall_forall in Hy. by apply Hy.
Qed.

Section PoolLookups.
Context {D : SharedDefines}.

Lemma GetBattleground_zero_instance (bgTypeId : Z) (mgr : BattlegroundMgr) :
  GetBattleground 0 bgTypeId mgr = None.
Proof. unfold GetBattleground. by rewrite decide_True. Qed.

(** A typed lookup reads the container of that type only. *)
Lemma GetBattleground_typed (instanceId bgTypeId : Z) (mgr : BattlegroundMgr) :
  instanceId <> 0 -> bgTypeId <> BATTLEGROUND_TYPE_NONE ->
  GetBattleground instanceId bgTypeId mgr
  = StdMap.find instanceId (m_Battlegrounds (data_at bgTypeId mgr)).
Proof.
  intros Hid Htype. unfold GetBattleground, data_at.
  rewrite !decide_False by done.
  destruct (StdMap.find bgTypeId (bgDataStore mgr)) as [data|]; simpl; [|done].
  by destruct (StdMap.find instanceId (m_Battlegrounds data)).
Qed.

Lemma data_at_set_data_at (bgTypeId bgTypeId' : Z) (data : BattlegroundData)
  (mgr : BattlegroundMgr) :
  data_at bgTypeId (set_data_at bgTypeId' data mgr)
  = if decide (bgTypeId = bgTypeId') then data else data_at bgTypeId mgr.
Proof.
  unfold data_at, set_data_at. simpl. case_decide as Heq.
  - subst. by rewrite find_assign_eq.
  - by rewrite find_assign_ne.
Qed.

(** X5: insert then look up. An instance added with a non-zero instance id
    under a type other than BATTLEGROUND_TYPE_NONE is what a lookup of that
    id and type returns, and every other typed lookup answers as before. *)
Theorem AddBattleground_GetBattleground (bg : Battleground)
  (mgr : BattlegroundMgr) :
  m_InstanceID bg <> 0 ->
  m_TypeID bg <> BATTLEGROUND_TYPE_NONE ->
  GetBattleground (m_InstanceID bg) (m_TypeID bg)
    (AddBattleground (Some bg) mgr) = Some bg
  /\ forall instanceId bgTypeId,
       bgTypeId <> BATTLEGROUND_TYPE_NONE ->
       (instanceId, bgTypeId) <> (m_InstanceID bg, m_TypeID bg) ->
       GetBattleground instanceId bgTypeId (AddBattleground (Some bg) mgr)
       = GetBattleground instanceId bgTypeId mgr.
Proof.
  intros Hid Htype. split.
  - rewrite GetBattleground_typed by done. unfold AddBattleground.
    rewrite data_at_set_data_at, decide_True by done. simpl.
    apply find_assign_eq.
  - intros instanceId bgTypeId Htype' Hother.
    destruct (decide (instanceId = 0)) as [->|Hid'].
    { by rewrite !GetBattleground_zero_instance. }
    rewrite !GetBattleground_typed by done. unfold AddBattleground.
    rewrite data_at_set_data_at. case_decide as Hsame; [|done].
    subst bgTypeId. simpl. apply find_assign_ne. congruence.
Qed.

(** X6: remove then look up. After RemoveBattleground the instance is not
    found under that type any more, and every other typed lookup answers as
    before. *)
Theorem RemoveBattleground_GetBattleground (bgTypeId instanceId : Z)
  (mgr : BattlegroundMgr) :
  bgTypeId <> BATTLEGROUND_TYPE_NONE ->
  StdMap.sorted (m_Battlegrounds (data_at bgTypeId mgr)) ->
  GetBattleground instanceId bgTypeId
    (RemoveBattleground bgTypeId instanceId mgr) = None
  /\ forall instanceId' bgTypeId',
       bgTypeId' <> BATTLEGROUND_TYPE_NONE ->
       (instanceId', bgTypeId') <> (instanceId, bgTypeId) ->
       GetBattleground instanceId' bgTypeId'
         (RemoveBattleground bgTypeId instanceId mgr)
       = GetBattleground instanceId' bgTypeId' mgr.
Proof.
  intros Htype Hsorted. split.
  - destruct (decide (instanceId = 0)) as [->|Hid].
    { apply GetBattleground_zero_instance. }
    rewrite GetBattleground_typed by done. unfold RemoveBattleground.
    rewrite data_at_set_data_at, decide_True by done. simpl.
    by apply find_erase_eq.
  - intros instanceId' bgTypeId' Htype' Hother.
    destruct (decide (instanceId' = 0)) as [->|Hid'].
    { by rewrite !GetBattleground_zero_instance. }
    rewrite !GetBattleground_typed by done. unfold RemoveBattleground.
    rewrite data_at_set_data_at. case_decide as Hsame; [|done].
    subst bgTypeId'. simpl. apply find_erase_ne. congruence.
Qed.

End PoolLookups.

Lemma AddBattleground_GetBattleground_witness :
  m_InstanceID sample_live <> 0
  /\ m_TypeID sample_live <> BATTLEGROUND_TYPE_NONE (SharedDefines := sample_defines)
  /\ GetBattleground (D := sample_defines) 7 2
       (AddBattleground (D := sample_defines) (Some sample_live)
          (mgr_with_WS_ids [1]))
     = Some sample_live
  /\ GetBattleground (D := sample_defines) 7 4
       (AddBattleground (D := sample_defines) (Some sample_live)
          (mgr_with_WS_ids [1]))
     = None.
Proof.
  assert (Hid : m_InstanceID sample_live <> 0) by (simpl; lia).
  assert (Htype : m_TypeID sample_live
                  <> BATTLEGROUND_TYPE_NONE (SharedDefines := sample_defines))
    by (simpl; lia).
  destruct (AddBattleground_GetBattleground (D := sample_defines)
              sample_live (mgr_with_WS_ids [1]) Hid Htype)
    as [Hfound Hothers].
  split; [exact Hid|]. split; [exact Htype|]. split; [exact Hfound|].
  rewrite (Hothers 7 4); [reflexivity|simpl; lia|simpl; congruence].
Defined.

Lemma RemoveBattleground_GetBattleground_witness :
  GetBattleground (D := sample_defines) 7 2 mgr_with_live = Some sample_live
  /\ GetBattleground (D := sample_defines) 7 2
       (RemoveBattleground (D := sample_defines) 2 7 mgr_with_live)
     = None.
Proof.
  split; [reflexivity|].
  apply (RemoveBattleground_GetBattleground (D := sample_defines)
           2 7 mgr_with_live).
  - simpl. lia.
  - unfold StdMap.sorted. simpl. repeat constructor.
Defined.

(** ** The ordering invariant is kept *)

Lemma assign_Forall {V} (P : Z * V -> Prop) (k : Z) (v : V) (m : StdMap.t V) :
  P (k, v) -> Forall P m -> Forall P (StdMap.assign k v m).
Proof.
  intros Hv. induction m as [|[k' v'] rest IH]; simpl; intros Hm.
  - by constructor.
  - apply Forall_cons in Hm as [Hhead Hrest].
    repeat case_decide; repeat constructor; auto.
Qed.

Lemma find_Forall {V} (P : Z * V -> Prop) (k : Z) (v : V) (m : StdMap.t V) :
  Forall P m -> StdMap.find k m = Some v -> P (k, v).
Proof.
  induction m as [|[k' v'] rest IH]; simpl; [done|].
  intros Hm. apply Forall_cons in Hm as [Hhead Hrest].
  case_decide; [by intros [= <-]; subst|by apply IH].
Qed.

Section OrderingInvariant.
Context {D : SharedDefines} {Script : BattlegroundScript} {W : WorldConfig}.

Lemma empty_BattlegroundData_sorted : data_sorted empty_BattlegroundData.
Proof.
  split; [constructor|]. simpl. apply Forall_replicate. constructor.
Qed.

Lemma data_at_sorted (bgTypeId : Z) (mgr : BattlegroundMgr) :
  pool_sorted mgr -> data_sorted (data_at bgTypeId mgr).
Proof.
  intros [_ Hdata]. unfold data_at.
  destruct (StdMap.find bgTypeId (bgDataStore mgr)) as [data|] eqn:Hfind.
  - exact (find_Forall _ _ _ _ Hdata Hfind).
  - apply empty_BattlegroundData_sorted.
Qed.

Lemma set_data_at_sorted (bgTypeId : Z) (data : BattlegroundData)
  (mgr : BattlegroundMgr) :
  pool_sorted mgr -> data_sorted data ->
  pool_sorted (set_data_at bgTypeId data mgr).
Proof.
  intros [Hstore Hdata] Hnew. split; simpl.
  - by apply map_assign_sorted.
  - by apply assign_Forall.
Qed.

Lemma AddBattleground_sorted (bg : option Battleground)
  (mgr : BattlegroundMgr) :
  pool_sorted mgr -> pool_sorted (AddBattleground bg mgr).
Proof.
  intros Hpool. destruct bg as [bg|]; [|done]. simpl.
  apply set_data_at_sorted; [done|].
  destruct (data_at_sorted (m_TypeID bg) mgr Hpool) as [Hmap Hsets].
  split; simpl; [by apply map_assign_sorted|done].
Qed.

Lemma RemoveBattleground_sorted (bgTypeId instanceId : Z)
  (mgr : BattlegroundMgr) :
  pool_sorted mgr -> pool_sorted (RemoveBattleground bgTypeId instanceId mgr).
Proof.
  intros Hpool. apply set_data_at_sorted; [done|].
  destruct (data_at_sorted bgTypeId mgr Hpool) as [Hmap Hsets].
  split; simpl; [by apply map_erase_sorted|done].
Qed.

Lemma CreateClientVisibleInstanceId_sorted (fuel : nat)
  (bgTypeId bracket_id id : Z) (mgr mgr' : BattlegroundMgr) :
  pool_sorted mgr ->
  CreateClientVisibleInstanceId fuel bgTypeId bracket_id mgr = Done (id, mgr') ->
  pool_sorted mgr'.
Proof.
  intros Hpool. unfold CreateClientVisibleInstanceId.
  destruct (IsArenaType bgTypeId); [by intros [= _ <-]|].
  destruct (data_at_sorted bgTypeId mgr Hpool) as [Hmap Hsets].
  unfold array_get. case_decide; [|done].
  destruct (_ !! _) as [clientIds|] eqn:Hids; cbn [mbind result_bind]; [|done].
  destruct (client_id_scan fuel clientIds 0) as [lastId| |];
    cbn [mbind result_bind]; [|done..].
  intros [= _ <-]. apply set_data_at_sorted; [done|].
  split; simpl; [done|]. unfold array_set.
  apply Forall_insert; [done|]. apply set_insert_sorted.
  exact (Forall_lookup_1 _ _ _ _ Hsets Hids).
Qed.

Lemma CreateBattleground_sorted (bgTemplate : BattlegroundTemplate)
  (mgr : BattlegroundMgr) :
  pool_sorted mgr -> pool_sorted (CreateBattleground bgTemplate mgr).2.
Proof.
  intros Hpool. unfold CreateBattleground.
  destruct (GetBattlegroundTemplate (Id bgTemplate) mgr) as [bg|]; cbn [snd].
  - apply (AddBattleground_sorted (Some _)). unfold set_template_object.
    destruct (StdMap.find (Id bgTemplate) (bgDataStore mgr)) as [data|] eqn:Hfind;
      [|done].
    destruct (m_Battlegrounds data) as [|[k old] rest] eqn:Hcontainer; [done|].
    apply set_data_at_sorted; [done|].
    destruct Hpool as [_ Hdata].
    pose proof (find_Forall _ _ _ _ Hdata Hfind) as Hsorted.
    cbn [snd] in Hsorted. destruct Hsorted as [Hmap Hsets].
    split; simpl; [|done]. unfold StdMap.sorted in *.
    by rewrite Hcontainer in Hmap.
  - destruct (switch _ _ _) as [bg|]; cbn [snd]; [|done].
    by do 2 apply (AddBattleground_sorted (Some _)).
Qed.

Lemma sweep_instances_sorted (timer : Z) (live live' : list (Z * Battleground))
  (clientIds clientIds' : list BattlegroundClientIdsContainer) :
  sweep_instances timer live clientIds = Done (live', clientIds') ->
  (forall k, k ∈ live'.*1 -> k ∈ live.*1)
  /\ (StronglySorted Z.lt (live.*1) -> StronglySorted Z.lt (live'.*1))
  /\ (Forall StdSet.sorted clientIds -> Forall StdSet.sorted clientIds').
Proof.
  revert live' clientIds clientIds'.
  induction live as [|[instanceId bg] rest IH];
    intros live' clientIds clientIds'; simpl.
  - intros [= <- <-]. by repeat split.
  - destruct (ToBeDeleted (Battleground_Update timer bg)).
    + unfold array_get. case_decide; [|done].
      destruct (_ !! _) as [clients|] eqn:Hclients;
        cbn [mbind result_bind]; [|done].
      intros Hrest. destruct (IH _ _ _ Hrest) as (Hkeys & Hsorted & Hsets).
      split; [|split].
      * intros k Hk. apply list_elem_of_further. by apply Hkeys.
      * intros Hs. apply StronglySorted_inv in Hs as [Hs _]. by apply Hsorted.
      * intros Hs. apply Hsets. unfold array_set.
        apply Forall_insert; [done|].
        pose proof (Forall_lookup_1 _ _ _ _ Hs Hclients) as Hone.
        destruct (StdSet.empty clients); [done|]. by apply set_erase_sorted.
    + destruct (sweep_instances timer rest clientIds)
        as [[rest' ids']| |] eqn:Hrest; cbn [mbind result_bind]; [|done..].
      intros [= <- <-].
      destruct (IH _ _ _ Hrest) as (Hkeys & Hsorted & Hsets).
      split; [|split; [|done]].
      * intros k Hk. simpl in Hk.
        apply elem_of_cons in Hk as [->|Hk]; [apply list_elem_of_here|].
        apply list_elem_of_further. by apply Hkeys.
      * intros Hs. simpl. apply StronglySorted_inv in Hs as [Hs Hlt].
        constructor; [by apply Hsorted|].
        apply Forall_forall. intros k Hk.
        rewrite Forall_forall in Hlt. by apply Hlt, Hkeys.
Qed.

Lemma sweep_data_sorted (timer : Z) (data data' : BattlegroundData) :
  data_sorted data -> sweep_data timer data = Done data' -> data_sorted data'.
Proof.
  intros [Hmap Hsets]. unfold sweep_data.
  destruct (m_Battlegrounds data) as [|[k template] live] eqn:Hcontainer;
    [done|].
  destruct (sweep_instances _ _ _) as [[live' clientIds']| |] eqn:Hlive;
    cbn [mbind result_bind]; [|done..].
  intros [= <-].
  destruct (sweep_instances_sorted _ _ _ _ _ Hlive) as (Hkeys & Hsorted & Hids).
  unfold StdMap.sorted in Hmap. simpl in Hmap.
  apply StronglySorted_inv in Hmap as [Hlive_sorted Hlt].
  split; simpl; [|by apply Hids].
  unfold StdMap.sorted. simpl. constructor; [by apply Hsorted|].
  apply Forall_forall. intros k' Hk'.
  rewrite Forall_forall in Hlt. by apply Hlt, Hkeys.
Qed.

Lemma sweep_store_sorted (timer : Z) (store store' : StdMap.t BattlegroundData) :
  Forall (fun entry => data_sorted entry.2) store ->
  sweep_store timer store = Done store' ->
  store'.*1 = store.*1
  /\ Forall (fun entry => data_sorted entry.2) store'.
Proof.
  revert store'. induction store as [|[k data] rest IH]; intros store' Hdata;
    simpl.
  - by intros [= <-].
  - apply Forall_cons in Hdata as [Hhead Hrest].
    destruct (sweep_data timer data) as [data'| |] eqn:Hsweep;
      cbn [mbind result_bind]; [|done..].
    destruct (sweep_store timer rest) as [rest'| |] eqn:Hsweeps;
      cbn [mbind result_bind]; [|done..].
    intros [= <-]. destruct (IH _ Hrest eq_refl) as [Hkeys Hsorted].
    split; [rewrite !fmap_cons; by f_equal|].
    constructor; [|done]. simpl in *. by eapply sweep_data_sorted.
Qed.

Lemma Update_instances_sorted (diff : Z) (mgr mgr' : BattlegroundMgr) :
  pool_sorted mgr -> Update_instances diff mgr = Done mgr' -> pool_sorted mgr'.
Proof.
  intros [Hstore Hdata]. unfold Update_instances. case_decide.
  - destruct (sweep_store _ _) as [store'| |] eqn:Hsweep;
      cbn [mbind result_bind]; [|done..].
    intros [= <-].
    destruct (sweep_store_sorted _ _ _ Hdata Hsweep) as [Hkeys Hsorted].
    split; simpl; [|done]. unfold StdMap.sorted in *. by rewrite Hkeys.
  - by intros [= <-].
Qed.

Lemma Update_store (fuel : nat) (diff : Z) (mgr mgr' : BattlegroundMgr)
  (calls : list QueueCall) :
  Update fuel diff mgr = Done (mgr', calls) ->
  exists mgr1,
    Update_instances diff mgr = Done mgr1
    /\ bgDataStore mgr' = bgDataStore mgr1.
Proof.
  unfold Update.
  destruct (Update_instances diff mgr) as [mgr1| |];
    cbn [mbind result_bind]; [|done..].
  destruct (Update_scheduled fuel diff mgr1) as [[mgr2 scheduled]| |] eqn:Hbatch;
    cbn [mbind result_bind]; [|done..].
  assert (Hstore2 : bgDataStore mgr2 = bgDataStore mgr1).
  { revert Hbatch. unfold Update_scheduled.
    destruct (m_QueueUpdateScheduler mgr1); [by intros [= <- _]|].
    destruct (scheduled_loop _ _ _ _); cbn [mbind result_bind]; [|done..].
    by intros [= <- _]. }
  destruct (Update_ratedArenas diff mgr2) as [mgr3 forced] eqn:Hrated.
  intros [= <- _]. exists mgr1. split; [done|].
  rewrite <- Hstore2. revert Hrated. unfold Update_ratedArenas.
  destruct (_ && _); [case_decide|]; by intros [= <- _].
Qed.

(** X7: the containers stay ordered. If the type map, every instance map
    and every client-id set are in increasing key order, they still are
    after AddBattleground, RemoveBattleground, CreateBattleground, a client
    id allocation, CreateNewBattleground, and a tick. *)
Theorem pool_sorted_invariant (mgr : BattlegroundMgr) :
  pool_sorted mgr ->
  (forall bg, pool_sorted (AddBattleground bg mgr))
  /\ (forall bgTypeId instanceId,
         pool_sorted (RemoveBattleground bgTypeId instanceId mgr))
  /\ (forall bgTemplate, pool_sorted (CreateBattleground bgTemplate mgr).2)
  /\ (forall fuel bgTypeId bracket_id id mgr',
         CreateClientVisibleInstanceId fuel bgTypeId bracket_id mgr
         = Done (id, mgr') -> pool_sorted mgr')
  /\ (forall fuel select newInstanceId bgTypeId bracketEntry arenaType isRated
        bg mgr',
         CreateNewBattleground fuel select newInstanceId bgTypeId bracketEntry
           arenaType isRated mgr = Done (bg, mgr') -> pool_sorted mgr')
  /\ (forall fuel diff mgr' calls,
         Update fuel diff mgr = Done (mgr', calls) -> pool_sorted mgr').
Proof.
  intros Hpool. repeat apply conj.
  - intros. by apply AddBattleground_sorted.
  - intros. by apply RemoveBattleground_sorted.
  - intros. by apply CreateBattleground_sorted.
  - intros. by eapply CreateClientVisibleInstanceId_sorted.
  - intros fuel select newInstanceId bgTypeId bracketEntry arenaType isRated
      bg mgr'.
    unfold CreateNewBattleground.
    destruct (GetRandomBG select bgTypeId mgr) as [resolved| |];
      cbn [mbind result_bind]; [|done..].
    destruct (GetBattlegroundTemplate resolved mgr); [|by intros [= _ <-]].
    destruct (switch resolved _ None); [|by intros [= _ <-]].
    destruct (CreateClientVisibleInstanceId _ _ _ _)
      as [[clientId mgr1]| |] eqn:Hid; cbn [mbind result_bind]; [|done..].
    intros [= _ <-]. by eapply CreateClientVisibleInstanceId_sorted.
  - intros fuel diff mgr' calls Hrun.
    destruct (Update_store _ _ _ _ _ Hrun) as (mgr1 & Hsweep & Hstore).
    pose proof (Update_instances_sorted _ _ _ Hpool Hsweep) as Hsorted.
    unfold pool_sorted in *. by rewrite Hstore.
Qed.

End OrderingInvariant.

Lemma loaded_mgr_sorted : pool_sorted loaded_mgr.
Proof.
  split.
  - unfold StdMap.sorted. simpl. repeat constructor.
  - simpl. repeat constructor.
Qed.

Lemma pool_sorted_invariant_witness :
  pool_sorted loaded_mgr
  /\ pool_sorted
       (AddBattleground (D := sample_defines) (Some sample_live) loaded_mgr)
  /\ pool_sorted (mgr_with_WS_ids [1]).
Proof.
  destruct (pool_sorted_invariant (D := sample_defines)
              (Script := sample_script) (W := sample_world)
              loaded_mgr loaded_mgr_sorted)
    as (Hadd & _ & _ & Hid & _).
  split; [exact loaded_mgr_sorted|]. split; [apply Hadd|].
  apply (Hid 2%nat 2 0 1 (mgr_with_WS_ids [1])). reflexivity.
Defined.

(** ** InstancePool: registering templates *)

Lemma switch_is_Some {A} (x : Z) (cases : list (Z * option A)) :
  Forall (fun c => is_Some c.2) cases ->
  is_Some (switch x cases None) <-> x ∈ cases.*1.
Proof.
  induction cases as [|[label body] rest IH]; simpl; intros Hsome.
  - rewrite elem_of_nil. split; [by intros [? ?]|done].
  - apply Forall_cons in Hsome as [Hbody Hrest].
    rewrite elem_of_cons. case_decide.
    + split; [by left|done].
    + rewrite IH by done. split; [by right|]. by intros [?|?].
Qed.

Lemma find_Some_key {V} (k : Z) (v : V) (m : StdMap.t V) :
  StdMap.find k m = Some v -> k ∈ m.*1.
Proof.
  induction m as [|[k' v'] rest IH]; simpl; [done|].
  case_decide; [subst; intros _; apply list_elem_of_here|].
  intros Hfind. apply list_elem_of_further. by apply IH.
Qed.

(** Storing the value a sorted map already holds under a key changes
    nothing. *)
Lemma assign_same {V} (k : Z) (v : V) (m : StdMap.t V) :
  StdMap.sorted m -> StdMap.find k m = Some v -> StdMap.assign k v m = m.
Proof.
  unfold StdMap.sorted. induction m as [|[k' v'] rest IH]; simpl; [done|].
  intros Hsorted. apply StronglySorted_inv in Hsorted as [Hrest Hlt].
  destruct (decide (k = k')) as [->|Hne].
  - intros [= ->]. by rewrite decide_False by lia.
  - intros Hfind. pose proof (find_Some_key _ _ _ Hfind) as Hin.
    rewrite Forall_forall in Hlt. specialize (Hlt _ Hin).
    rewrite decide_False by lia. f_equal. by apply IH.
Qed.

Section Registration.
Context {D : SharedDefines}.

Lemma AddBattleground_template_is_Some (bg : Battleground) (bgTypeId : Z)
  (mgr : BattlegroundMgr) :
  is_Some (GetBattlegroundTemplate bgTypeId mgr) ->
  is_Some (GetBattlegroundTemplate bgTypeId (AddBattleground (Some bg) mgr)).
Proof.
  unfold GetBattlegroundTemplate, AddBattleground, set_data_at. simpl.
  destruct (decide (bgTypeId = m_TypeID bg)) as [->|Hne].
  - intros _. rewrite find_assign_eq. simpl.
    destruct (m_Battlegrounds _) as [|[k v] rest]; simpl; [by eexists|].
    repeat case_decide; by eexists.
  - by rewrite find_assign_ne.
Qed.

(** X8: CreateBattleground succeeds exactly when the type already has a
    template instance or is one of the fifteen kinds its switch knows;
    when it fails the manager is unchanged, and when it succeeds the type
    has a template instance afterwards. *)
Theorem CreateBattleground_success (bgTemplate : BattlegroundTemplate)
  (mgr : BattlegroundMgr) :
  ((CreateBattleground bgTemplate mgr).1 = true
   <-> is_Some (GetBattlegroundTemplate (Id bgTemplate) mgr)
       \/ Id bgTemplate ∈ bg_type_labels)
  /\ ((CreateBattleground bgTemplate mgr).1 = false ->
      (CreateBattleground bgTemplate mgr).2 = mgr)
  /\ ((CreateBattleground bgTemplate mgr).1 = true ->
      is_Some (GetBattlegroundTemplate (Id bgTemplate)
                 (CreateBattleground bgTemplate mgr).2)).
Proof.
  destruct (GetBattlegroundTemplate (Id bgTemplate) mgr) as [bg|] eqn:Htemplate.
  - unfold CreateBattleground. rewrite Htemplate. cbn [fst snd].
    split; [|split; [done|]].
    + split; [intros _; left; by eexists|done].
    + intros _. apply AddBattleground_template_is_Some.
      unfold set_template_object, GetBattlegroundTemplate in *.
      destruct (StdMap.find (Id bgTemplate) (bgDataStore mgr)) as [data|];
        [|done].
      destruct (m_Battlegrounds data) as [|[k old] rest]; [done|].
      unfold set_data_at. simpl. rewrite find_assign_eq. by eexists.
  - destruct (CreateBattleground bgTemplate mgr) as [ok mgr'] eqn:Hcreate.
    cbn [fst snd].
    assert (Hkind : ok = true <-> Id bgTemplate ∈ bg_type_labels).
    { revert Hcreate. unfold CreateBattleground. rewrite Htemplate.
      match goal with
      | |- context [switch ?x ?cases None] =>
          pose proof (switch_is_Some x cases) as Hswitch
      end.
      destruct (switch _ _ _) as [bg|].
      - intros [= <- _]. split; [intros _|done].
        assert (Hin : Id bgTemplate ∈ _)
          by (apply Hswitch; [repeat constructor; by eexists|by eexists]).
        clear -Hin. simpl in Hin. unfold bg_type_labels.
        repeat (apply elem_of_cons in Hin as [->|Hin]);
          [solve_case..|by apply elem_of_nil in Hin].
      - intros [= <- _]. split; [done|]. intros Hin. exfalso.
        assert (Hnone : ~ is_Some (@None Battleground)) by (by intros [? ?]).
        apply Hnone, Hswitch; [repeat constructor; by eexists|].
        clear -Hin. unfold bg_type_labels in Hin. simpl.
        repeat (apply elem_of_cons in Hin as [->|Hin]);
          [solve_case..|by apply elem_of_nil in Hin]. }
    split; [|split].
    + rewrite Hkind. split; [by right|]. intros [[? ?]|?]; done.
    + intros ->. revert Hcreate. unfold CreateBattleground. rewrite Htemplate.
      destruct (switch _ _ _); [by intros [=]|by intros [= <-]].
    + intros ->.
      destruct (CreateBattleground_registers _ _ _ Htemplate Hcreate)
        as (bg & _ & _ & Hnow). by eexists.
Qed.

(** X9: registering again is a no-op. When the type's container is sorted
    and starts with a template of that type under instance id 0, and the
    type map is sorted, CreateBattleground returns true and leaves the
    manager exactly as it was. *)
Theorem CreateBattleground_again (bgTemplate : BattlegroundTemplate)
  (mgr : BattlegroundMgr) (data : BattlegroundData) (bg : Battleground)
  (rest : list (Z * Battleground)) :
  StdMap.sorted (bgDataStore mgr) ->
  StdMap.find (Id bgTemplate) (bgDataStore mgr) = Some data ->
  m_Battlegrounds data = (0, bg) :: rest ->
  StdMap.sorted (m_Battlegrounds data) ->
  m_InstanceID bg = 0 ->
  m_TypeID bg = Id bgTemplate ->
  CreateBattleground bgTemplate mgr = (true, mgr).
Proof.
  intros Hstore Hfind Hcontainer Hsorted Hid Htype.
  assert (Hbg : SetInstanceID 0 bg = bg).
  { destruct bg. simpl in Hid. by subst. }
  assert (Hdata : {| m_Battlegrounds := (0, bg) :: rest;
                     m_ClientBattlegroundIds := m_ClientBattlegroundIds data |}
                  = data).
  { destruct data. simpl in *. by subst. }
  assert (Hmgr : set_data_at (Id bgTemplate) data mgr = mgr).
  { unfold set_data_at. rewrite assign_same by done. by destruct mgr. }
  unfold CreateBattleground, GetBattlegroundTemplate.
  rewrite Hfind, Hcontainer. simpl. rewrite Hbg.
  unfold set_template_object. rewrite Hfind, Hcontainer, Hdata, Hmgr.
  unfold AddBattleground. rewrite Htype. unfold data_at. rewrite Hfind. simpl.
  rewrite assign_same.
  - destruct data as [container ids]. simpl in *. subst container.
    by rewrite Hmgr.
  - done.
  - by rewrite Hcontainer.
Qed.

End Registration.

Lemma CreateBattleground_success_witness :
  (CreateBattleground (D := sample_defines)
     {| Id := 999; Weight := 1; BattlemasterEntry := sample_entry 3 [1; -1] |}
     loaded_mgr).1 = false
  /\ (CreateBattleground (D := sample_defines)
        {| Id := 999; Weight := 1; BattlemasterEntry := sample_entry 3 [1; -1] |}
        loaded_mgr).2 = loaded_mgr
  /\ is_Some (GetBattlegroundTemplate 7
                (CreateBattleground (D := sample_defines)
                   {| Id := 7; Weight := 1;
                      BattlemasterEntry := sample_entry 3 [566; -1] |}
                   loaded_mgr).2).
Proof.
  split; [reflexivity|]. split.
  - apply (CreateBattleground_success (D := sample_defines)
             {| Id := 999; Weight := 1;
                BattlemasterEntry := sample_entry 3 [1; -1] |} loaded_mgr).
    reflexivity.
  - apply (CreateBattleground_success (D := sample_defines)
             {| Id := 7; Weight := 1;
                BattlemasterEntry := sample_entry 3 [566; -1] |} loaded_mgr).
    reflexivity.
Defined.

Lemma CreateBattleground_again_witness :
  CreateBattleground (D := sample_defines) sample_WS loaded_mgr
  = (true, loaded_mgr).
Proof.
  apply (CreateBattleground_again (D := sample_defines) sample_WS loaded_mgr
           {| m_Battlegrounds :=
                [(0, new_Battleground (D := sample_defines) sample_WS)];
              m_ClientBattlegroundIds := [[]; []; []; []] |}
           (new_Battleground (D := sample_defines) sample_WS) []).
  - apply loaded_mgr_sorted.
  - reflexivity.
  - reflexivity.
  - unfold StdMap.sorted. simpl. repeat constructor.
  - reflexivity.
  - reflexivity.
Defined.

(** ** InstancePool: creating live instances *)

Lemma find_instance_assign (instanceId bgTypeId : Z) (data : BattlegroundData)
  (store : StdMap.t BattlegroundData) :
  StdMap.sorted store ->
  m_Battlegrounds data
  = match StdMap.find bgTypeId store with
    | Some old => m_Battlegrounds old
    | None => []
    end ->
  find_instance instanceId (StdMap.assign bgTypeId data store)
  = find_instance instanceId store.
Proof.
  unfold StdMap.sorted. induction store as [|[k old] rest IH]; simpl.
  - intros _ Hcontainer. by rewrite Hcontainer.
  - intros Hsorted. apply StronglySorted_inv in Hsorted as [Hrest Hlt].
    destruct (decide (bgTypeId = k)) as [->|Hne].
    + intros Hcontainer. rewrite decide_False by lia. simpl.
      by rewrite Hcontainer.
    + intros Hcontainer. case_decide as Hbefore.
      * assert (Hnone : StdMap.find bgTypeId rest = None).
        { apply find_above_None.
          eapply Forall_impl; [exact Hlt|]. simpl. lia. }
        rewrite Hnone in Hcontainer. simpl. by rewrite Hcontainer.
      * simpl. by rewrite IH.
Qed.

Section LiveInstances.
Context {D : SharedDefines}.

(** A client id allocation changes no instance map. *)
Lemma CreateClientVisibleInstanceId_containers (fuel : nat)
  (bgTypeId bracket_id id : Z) (mgr mgr' : BattlegroundMgr) :
  CreateClientVisibleInstanceId fuel bgTypeId bracket_id mgr = Done (id, mgr') ->
  mgr' = mgr
  \/ exists data,
       mgr' = set_data_at bgTypeId data mgr
       /\ m_Battlegrounds data = m_Battlegrounds (data_at bgTypeId mgr).
Proof.
  unfold CreateClientVisibleInstanceId.
  destruct (IsArenaType bgTypeId); [intros [= _ <-]; by left|].
  destruct (array_get _ _) as [clientIds| |]; cbn [mbind result_bind];
    [|done..].
  destruct (client_id_scan fuel clientIds 0) as [lastId| |];
    cbn [mbind result_bind]; [|done..].
  intros [= _ <-]. right. by eexists.
Qed.

(** X10: CreateNewBattleground does not put the new instance into the
    pool. Whatever it returns, every lookup by instance id (typed or over
    all types) and every template lookup answers afterwards as before. *)
Theorem CreateNewBattleground_not_registered (fuel : nat)
  (select : list Z -> list Z -> nat) (newInstanceId originalBgTypeId : Z)
  (bracketEntry : PVPDifficultyEntry) (arenaType : Z) (isRated : bool)
  (mgr mgr' : BattlegroundMgr) (created : option Battleground) :
  StdMap.sorted (bgDataStore mgr) ->
  CreateNewBattleground fuel select newInstanceId originalBgTypeId
    bracketEntry arenaType isRated mgr = Done (created, mgr') ->
  (forall instanceId bgTypeId,
      GetBattleground instanceId bgTypeId mgr'
      = GetBattleground instanceId bgTypeId mgr)
  /\ (forall bgTypeId,
         GetBattlegroundTemplate bgTypeId mgr'
         = GetBattlegroundTemplate bgTypeId mgr).
Proof.
  intros Hsorted. unfold CreateNewBattleground.
  destruct (GetRandomBG select originalBgTypeId mgr) as [resolved| |];
    cbn [mbind result_bind]; [|done..].
  destruct (GetBattlegroundTemplate resolved mgr); [|by intros [= _ <-]].
  destruct (switch resolved _ None); [|by intros [= _ <-]].
  destruct (CreateClientVisibleInstanceId _ _ _ _)
    as [[clientId mgr1]| |] eqn:Hid; cbn [mbind result_bind]; [|done..].
  intros [= _ <-].
  apply CreateClientVisibleInstanceId_containers in Hid
    as [->|(data & -> & Hcontainer)]; [done|].
  assert (Hfind : forall bgTypeId,
    m_Battlegrounds
      <$> StdMap.find bgTypeId
            (bgDataStore (set_data_at originalBgTypeId data mgr))
    = if decide (bgTypeId = originalBgTypeId)
      then Some (m_Battlegrounds (data_at originalBgTypeId mgr))
      else m_Battlegrounds <$> StdMap.find bgTypeId (bgDataStore mgr)).
  { intros bgTypeId. unfold set_data_at. simpl. case_decide as Heq.
    - subst. rewrite find_assign_eq. simpl. by rewrite Hcontainer.
    - by rewrite find_assign_ne. }
  unfold data_at in Hfind, Hcontainer. split.
  - intros instanceId bgTypeId. unfold GetBattleground.
    case_decide; [done|]. case_decide.
    + unfold set_data_at. simpl. apply find_instance_assign; [done|].
      rewrite Hcontainer.
      by destruct (StdMap.find originalBgTypeId (bgDataStore mgr)).
    + specialize (Hfind bgTypeId). revert Hfind. case_decide as Heq.
      * subst bgTypeId.
        destruct (StdMap.find originalBgTypeId (bgDataStore mgr))
          as [old|]; destruct (StdMap.find originalBgTypeId (bgDataStore _))
          as [new|]; simpl; try done.
        -- by intros [= ->].
        -- intros [= ->]. simpl. done.
      * destruct (StdMap.find bgTypeId (bgDataStore mgr)) as [old|];
          destruct (StdMap.find bgTypeId (bgDataStore _)) as [new|];
          simpl; try done.
        by intros [= ->].
  - intros bgTypeId. unfold GetBattlegroundTemplate.
    specialize (Hfind bgTypeId). revert Hfind. case_decide as Heq.
    + subst bgTypeId.
      destruct (StdMap.find originalBgTypeId (bgDataStore mgr))
        as [old|]; destruct (StdMap.find originalBgTypeId (bgDataStore _))
        as [new|]; simpl; try done.
      * by intros [= ->].
      * by intros [= ->].
    + destruct (StdMap.find bgTypeId (bgDataStore mgr)) as [old|];
        destruct (StdMap.find bgTypeId (bgDataStore _)) as [new|];
        simpl; try done.
      by intros [= ->].
Qed.

(** X11: what a created instance looks like. A returned instance waits for
    players to join, carries the generated instance id, the bracket, team
    size and rated flag of the request, and a client id allocated under
    the requested type; its resolved type is one of the thirteen concrete
    kinds and has a template, from which it takes its own type; and it is
    marked random only if the resolved type differs from the requested one
    and the template is not an arena. *)
Theorem CreateNewBattleground_instance (fuel : nat)
  (select : list Z -> list Z -> nat) (newInstanceId originalBgTypeId : Z)
  (bracketEntry : PVPDifficultyEntry) (arenaType : Z) (isRated : bool)
  (mgr mgr' : BattlegroundMgr) (bg : Battleground) :
  CreateNewBattleground fuel select newInstanceId originalBgTypeId
    bracketEntry arenaType isRated mgr = Done (Some bg, mgr') ->
  m_Status bg = STATUS_WAIT_JOIN
  /\ m_InstanceID bg = newInstanceId
  /\ m_BracketId bg = GetBracketId bracketEntry
  /\ m_ArenaType bg = arenaType
  /\ m_IsRated bg = isRated
  /\ CreateClientVisibleInstanceId fuel originalBgTypeId
       (GetBracketId bracketEntry) mgr = Done (m_ClientInstanceID bg, mgr')
  /\ GetRandomBG select originalBgTypeId mgr = Done (m_RandomTypeID bg)
  /\ m_RandomTypeID bg
       ∈ [ BATTLEGROUND_AV; BATTLEGROUND_WS; BATTLEGROUND_AB; BATTLEGROUND_NA;
           BATTLEGROUND_BE; BATTLEGROUND_EY; BATTLEGROUND_RL; BATTLEGROUND_SA;
           BATTLEGROUND_DS; BATTLEGROUND_RV; BATTLEGROUND_IC; BATTLEGROUND_TP;
           BATTLEGROUND_BFG ]
  /\ (exists template,
         GetBattlegroundTemplate (m_RandomTypeID bg) mgr = Some template
         /\ m_TypeID bg = m_TypeID template
         /\ m_IsArena bg = m_IsArena template)
  /\ m_IsRandom bg
     = bool_decide (m_RandomTypeID bg <> originalBgTypeId)
       && negb (m_IsArena bg).
Proof.
  unfold CreateNewBattleground.
  destruct (GetRandomBG select originalBgTypeId mgr) as [resolved| |];
    cbn [mbind result_bind]; [|done..].
  destruct (GetBattlegroundTemplate resolved mgr) as [template|] eqn:Htemplate;
    [|done].
  destruct (switch resolved _ None) as [copy|] eqn:Hkind; [|done].
  destruct (CreateClientVisibleInstanceId _ _ _ _)
    as [[clientId mgr1]| |] eqn:Hid; cbn [mbind result_bind]; [|done..].
  intros [= <- <-]. simpl.
  assert (Hcopy : copy = template
                  /\ resolved
                       ∈ [ BATTLEGROUND_AV; BATTLEGROUND_WS; BATTLEGROUND_AB;
                           BATTLEGROUND_NA; BATTLEGROUND_BE; BATTLEGROUND_EY;
                           BATTLEGROUND_RL; BATTLEGROUND_SA; BATTLEGROUND_DS;
                           BATTLEGROUND_RV; BATTLEGROUND_IC; BATTLEGROUND_TP;
                           BATTLEGROUND_BFG ]).
  { revert Hkind. unfold switch.
    repeat (let Hlabel := fresh "Hlabel" in
            case_decide as Hlabel;
            [intros [= <-]; split; [done|]; rewrite Hlabel; solve_case|]).
    repeat case_decide; done. }
  destruct Hcopy as [-> Hconcrete].
  repeat split; try done.
  by exists template.
Qed.

End LiveInstances.

Lemma sample_creation :
  CreateNewBattleground (D := sample_defines) 2 select_first 77 2
    {| GetBracketId := 1 |} 0 false loaded_mgr
  = Done (Some sample_created, mgr_after_creation).
Proof. vm_compute. reflexivity. Qed.

Lemma CreateNewBattleground_not_registered_witness :
  CreateNewBattleground (D := sample_defines) 2 select_first 77 2
    {| GetBracketId := 1 |} 0 false loaded_mgr
  = Done (Some sample_created, mgr_after_creation)
  /\ GetBattleground (D := sample_defines) 77 2 mgr_after_creation = None
  /\ GetBattleground (D := sample_defines) 77 0 mgr_after_creation = None.
Proof.
  destruct (CreateNewBattleground_not_registered (D := sample_defines)
              2 select_first 77 2 {| GetBracketId := 1 |} 0 false
              loaded_mgr mgr_after_creation (Some sample_created)
              (proj1 loaded_mgr_sorted) sample_creation) as [Hlookup _].
  split; [exact sample_creation|].
  split; rewrite Hlookup; reflexivity.
Defined.

Lemma CreateNewBattleground_instance_witness :
  CreateNewBattleground (D := sample_defines) 2 select_first 77 2
    {| GetBracketId := 1 |} 0 false loaded_mgr
  = Done (Some sample_created, mgr_after_creation)
  /\ m_Status sample_created = STATUS_WAIT_JOIN
  /\ m_InstanceID sample_created = 77
  /\ m_IsRandom sample_created = false.
Proof.
  destruct (CreateNewBattleground_instance (D := sample_defines)
              2 select_first 77 2 {| GetBracketId := 1 |} 0 false
              loaded_mgr mgr_after_creation sample_created sample_creation)
    as (Hstatus & Hid & _ & _ & _ & _ & _ & _ & _ & Hrandom).
  split; [exact sample_creation|]. split; [exact Hstatus|].
  split; [exact Hid|]. rewrite Hrandom. reflexivity.
Defined.

(** ** Weighted random selection: the candidates *)

Section Candidates.
Context {D : SharedDefines}.

(** The candidate kinds are the kinds registered for the maps listed
    before the first -1, and the two vectors run in parallel. *)
Lemma random_candidates_spec (mapIds : list Z) (mgr : BattlegroundMgr) :
  length (random_candidates mapIds mgr).1
  = length (random_candidates mapIds mgr).2
  /\ forall id,
       id ∈ (random_candidates mapIds mgr).1 <->
       exists before mapId after bg,
         mapIds = before ++ mapId :: after
         /\ (-1 ∉ before) /\ mapId <> -1
         /\ GetBattlegroundTemplateByMapId mapId mgr = Some bg
         /\ Id bg = id.
Proof.
  induction mapIds as [|mapId rest [IHlen IH]]; simpl.
  - split; [done|]. intros id. rewrite elem_of_nil. split; [done|].
    intros (before & m & after & bg & Heq & _). by destruct before.
  - case_decide as Hend.
    + split; [done|]. intros id. simpl. rewrite elem_of_nil. split; [done|].
      intros (before & m & after & bg & Heq & Hbefore & Hm & _).
      destruct before as [|b before]; simplify_eq/=.
      apply Hbefore. apply list_elem_of_here.
    + destruct (random_candidates rest mgr) as [ids weights] eqn:Hrest.
      simpl in *.
      assert (Hlater : forall id,
        (exists before m after bg,
            mapId :: rest = before ++ m :: after
            /\ (-1 ∉ before) /\ m <> -1
            /\ GetBattlegroundTemplateByMapId m mgr = Some bg /\ Id bg = id)
        <-> (exists bg, GetBattlegroundTemplateByMapId mapId mgr = Some bg
                        /\ Id bg = id)
            \/ id ∈ ids).
      { intros id. rewrite IH. split.
        - intros (before & m & after & bg & Heq & Hbefore & Hm & Hbg & Hid).
          destruct before as [|b before]; simplify_eq/=.
          + left. by exists bg.
          + right. exists before, m, after, bg. repeat split; try done.
            intros Hin. apply Hbefore. by apply list_elem_of_further.
        - intros [(bg & Hbg & Hid)|(before & m & after & bg & Heq & Hbefore
                                     & Hm & Hbg & Hid)].
          + exists [], mapId, rest, bg. repeat split; try done.
            by apply not_elem_of_nil.
          + exists (mapId :: before), m, after, bg.
            repeat split; try done; [by rewrite Heq|].
            apply not_elem_of_cons. split; [done|]. done. }
      destruct (GetBattlegroundTemplateByMapId mapId mgr) as [bg|]; simpl.
      * split; [by rewrite IHlen|]. intros id. rewrite Hlater, elem_of_cons.
        split.
        -- intros [->|Hin]; [left; by exists bg|by right].
        -- intros [(bg' & [= <-] & Hid)|Hin]; [by left|by right].
      * split; [done|]. intros id. rewrite Hlater. split; [by right|].
        by intros [(bg' & ? & ?)|?].
Qed.

(** X12: GetRandomBG stays inside the map pool of the requested kind. It
    returns BATTLEGROUND_TYPE_NONE when the catalog has no template for the
    requested kind; otherwise a returned kind is the kind of a template
    registered for one of the maps the requested template lists before its
    first -1. *)
Theorem GetRandomBG_in_pool (select : list Z -> list Z -> nat)
  (bgTypeId id : Z) (mgr : BattlegroundMgr) :
  GetRandomBG select bgTypeId mgr = Done id ->
  match GetBattlegroundTemplateByTypeId bgTypeId mgr with
  | None => id = BATTLEGROUND_TYPE_NONE
  | Some bgTemplate =>
      exists before mapId after bg,
        MapID (BattlemasterEntry bgTemplate) = before ++ mapId :: after
        /\ (-1 ∉ before) /\ mapId <> -1
        /\ GetBattlegroundTemplateByMapId mapId mgr = Some bg
        /\ Id bg = id
  end.
Proof.
  unfold GetRandomBG.
  destruct (GetBattlegroundTemplateByTypeId bgTypeId mgr) as [bgTemplate|];
    [|by intros [= <-]].
  destruct (random_candidates_spec (MapID (BattlemasterEntry bgTemplate)) mgr)
    as [_ Hcandidates].
  destruct (random_candidates _ mgr) as [ids weights]. simpl in *.
  destruct (ids !! select ids weights) as [chosen|] eqn:Hchosen; [|done].
  intros [= <-]. apply Hcandidates. by eapply list_elem_of_lookup_2.
Qed.

End Candidates.

Lemma GetRandomBG_in_pool_witness :
  GetRandomBG (D := sample_defines) select_first 6 loaded_mgr = Done 4
  /\ exists before mapId after bg,
       MapID (BattlemasterEntry sample_AA) = before ++ mapId :: after
       /\ (-1 ∉ before) /\ mapId <> -1
       /\ GetBattlegroundTemplateByMapId mapId loaded_mgr = Some bg
       /\ Id bg = 4.
Proof.
  assert (Hrun : GetRandomBG (D := sample_defines) select_first 6 loaded_mgr
                 = Done 4) by reflexivity.
  split; [exact Hrun|].
  exact (GetRandomBG_in_pool (D := sample_defines) select_first 6 4
           loaded_mgr Hrun).
Defined.

(** ** Sweeper: what the sweep does to the pool *)

Section SweepOutcome.
Context {D : SharedDefines} {Script : BattlegroundScript} {W : WorldConfig}.

(** The entries that stay are the updated entries that do not ask to be
    deleted, in their order. *)
Lemma sweep_instances_filter (timer : Z) (live live' : list (Z * Battleground))
  (clientIds clientIds' : list BattlegroundClientIdsContainer) :
  sweep_instances timer live clientIds = Done (live', clientIds') ->
  live' = filter (fun entry : Z * Battleground => ToBeDeleted entry.2 = false)
            ((fun entry : Z * Battleground =>
                (entry.1, Battleground_Update timer entry.2)) <$> live).
Proof.
  revert live' clientIds clientIds'.
  induction live as [|[instanceId bg] rest IH];
    intros live' clientIds clientIds'; simpl.
  - by intros [= <- <-].
  - rewrite filter_cons. cbn [fst snd].
    destruct (ToBeDeleted (Battleground_Update timer bg)) eqn:Hdelete.
    + rewrite decide_False by done.
      destruct (array_get _ _) as [clients| |]; cbn [mbind result_bind];
        [|done..].
      apply IH.
    + rewrite decide_True by done.
      destruct (sweep_instances timer rest clientIds)
        as [[rest' ids']| |] eqn:Hrest; cbn [mbind result_bind]; [|done..].
      intros [= <- <-]. f_equal. by eapply IH.
Qed.

(** The client-id sets keep their number and only lose elements. *)
Lemma sweep_instances_ids_shrink (timer : Z)
  (live live' : list (Z * Battleground))
  (clientIds clientIds' : list BattlegroundClientIdsContainer) :
  Forall StdSet.sorted clientIds ->
  sweep_instances timer live clientIds = Done (live', clientIds') ->
  forall i clients',
    clientIds' !! i = Some clients' ->
    exists clients,
      clientIds !! i = Some clients /\ forall x, x ∈ clients' -> x ∈ clients.
Proof.
  revert live' clientIds clientIds'.
  induction live as [|[instanceId bg] rest IH];
    intros live' clientIds clientIds' Hsorted; simpl.
  - intros [= <- <-] i clients' Hi. by exists clients'.
  - destruct (ToBeDeleted (Battleground_Update timer bg)).
    + unfold array_get. case_decide; [|done].
      destruct (_ !! _) as [clients|] eqn:Hclients;
        cbn [mbind result_bind]; [|done].
      intros Hrest i clients' Hi.
      pose proof (Forall_lookup_1 _ _ _ _ Hsorted Hclients) as Hone.
      assert (Hsorted' :
        Forall StdSet.sorted
          (array_set clientIds (m_BracketId (Battleground_Update timer bg))
             (if StdSet.empty clients then clients
              else StdSet.erase
                     (m_ClientInstanceID (Battleground_Update timer bg))
                     clients))).
      { apply Forall_insert; [done|].
        destruct (StdSet.empty clients); [done|]. by apply set_erase_sorted. }
      destruct (IH _ _ _ Hsorted' Hrest i clients' Hi)
        as (middle & Hmiddle & Hsub).
      unfold array_set in Hmiddle.
      destruct (decide
                  (Z.to_nat (m_BracketId (Battleground_Update timer bg)) = i))
        as [<-|Hne].
      * rewrite list_lookup_insert_eq in Hmiddle
          by (by eapply lookup_lt_Some).
        injection Hmiddle as <-. exists clients. split; [done|].
        intros x Hx. specialize (Hsub x Hx).
        destruct (StdSet.empty clients); [done|].
        by apply set_erase_elem in Hsub as [_ ?].
      * rewrite list_lookup_insert_ne in Hmiddle by done.
        by exists middle.
    + destruct (sweep_instances timer rest clientIds)
        as [[rest' ids']| |] eqn:Hrest; cbn [mbind result_bind]; [|done..].
      intros [= <- <-]. by eapply IH.
Qed.

(** The sweep keeps the number of client-id sets. *)
Lemma sweep_instances_ids_length (timer : Z)
  (live live' : list (Z * Battleground))
  (clientIds clientIds' : list BattlegroundClientIdsContainer) :
  sweep_instances timer live clientIds = Done (live', clientIds') ->
  length clientIds' = length clientIds.
Proof.
  revert live' clientIds clientIds'.
  induction live as [|[instanceId bg] rest IH];
    intros live' clientIds clientIds'; simpl.
  - by intros [= _ <-].
  - destruct (ToBeDeleted (Battleground_Update timer bg)).
    + destruct (array_get _ _) as [clients| |]; cbn [mbind result_bind];
        [|done..].
      intros Hrest. rewrite (IH _ _ _ Hrest).
      unfold array_set. by rewrite length_insert.
    + destruct (sweep_instances timer rest clientIds)
        as [[rest' ids']| |] eqn:Hrest; cbn [mbind result_bind]; [|done..].
      intros [= _ <-]. by eapply IH.
Qed.

(** A deleted entry leaves the container, and its client id leaves the set
    of its bracket. *)
Lemma sweep_instances_retires (timer : Z)
  (live live' : list (Z * Battleground))
  (clientIds clientIds' : list BattlegroundClientIdsContainer)
  (instanceId : Z) (bg : Battleground) :
  StronglySorted Z.lt (live.*1) ->
  Forall StdSet.sorted clientIds ->
  sweep_instances timer live clientIds = Done (live', clientIds') ->
  (instanceId, bg) ∈ live ->
  ToBeDeleted (Battleground_Update timer bg) = true ->
  (instanceId ∉ live'.*1)
  /\ exists clients,
       clientIds' !! Z.to_nat (m_BracketId (Battleground_Update timer bg))
       = Some clients
       /\ m_ClientInstanceID (Battleground_Update timer bg) ∉ clients.
Proof.
  revert live' clientIds clientIds'.
  induction live as [|[k bg0] rest IH];
    intros live' clientIds clientIds' Hkeys Hsorted; simpl.
  - intros _ Hin. by apply elem_of_nil in Hin.
  - simpl in Hkeys. apply StronglySorted_inv in Hkeys as [Hrest_sorted Hlt].
    intros Hsweep Hin Hdelete. apply elem_of_cons in Hin as [Hhead|Hin].
    + injection Hhead as <- <-. rewrite Hdelete in Hsweep.
      unfold array_get in Hsweep. case_decide as Hbracket; [|done].
      destruct (_ !! _) as [clients|] eqn:Hclients;
        cbn [mbind result_bind] in Hsweep; [|done].
      pose proof (Forall_lookup_1 _ _ _ _ Hsorted Hclients) as Hone.
      assert (Hsorted' :
        Forall StdSet.sorted
          (array_set clientIds (m_BracketId (Battleground_Update timer bg))
             (if StdSet.empty clients then clients
              else StdSet.erase
                     (m_ClientInstanceID (Battleground_Update timer bg))
                     clients))).
      { apply Forall_insert; [done|].
        destruct (StdSet.empty clients); [done|]. by apply set_erase_sorted. }
      split.
      * intros Hstill.
        destruct (sweep_instances_sorted _ _ _ _ _ Hsweep) as (Hsub & _ & _).
        rewrite Forall_forall in Hlt. specialize (Hlt _ (Hsub _ Hstill)). lia.
      * assert (Hlen : (Z.to_nat (m_BracketId (Battleground_Update timer bg))
                        < length clientIds)%nat) by (by eapply lookup_lt_Some).
        destruct (lookup_lt_is_Some_2 clientIds'
                    (Z.to_nat (m_BracketId (Battleground_Update timer bg))))
          as [clients' Hclients'].
        { rewrite (sweep_instances_ids_length _ _ _ _ _ Hsweep).
          unfold array_set. by rewrite length_insert. }
        exists clients'. split; [done|]. intros Hstill.
        destruct (sweep_instances_ids_shrink _ _ _ _ _ Hsorted' Hsweep
                    _ _ Hclients') as (middle & Hmiddle & Hsub).
        unfold array_set in Hmiddle.
        rewrite list_lookup_insert_eq in Hmiddle by done.
        injection Hmiddle as <-. specialize (Hsub _ Hstill).
        destruct clients as [|c0 clients]; simpl in Hsub;
          [by apply elem_of_nil in Hsub|].
        by apply (set_erase_elem _ _ _ Hone) in Hsub as [? _].
    + assert (Hne : instanceId <> k).
      { rewrite Forall_forall in Hlt.
        assert (k < instanceId); [|lia].
        apply Hlt. apply list_elem_of_fmap. by exists (instanceId, bg). }
      destruct (ToBeDeleted (Battleground_Update timer bg0)).
      * unfold array_get in Hsweep. case_decide; [|done].
        destruct (_ !! _) as [clients|] eqn:Hclients;
          cbn [mbind result_bind] in Hsweep; [|done].
        eapply IH; [done| |exact Hsweep|done|done].
        apply Forall_insert; [done|].
        pose proof (Forall_lookup_1 _ _ _ _ Hsorted Hclients).
        destruct (StdSet.empty clients); [done|]. by apply set_erase_sorted.
      * destruct (sweep_instances timer rest clientIds)
          as [[rest' ids']| |] eqn:Hrest; cbn [mbind result_bind] in Hsweep;
          [|done..].
        injection Hsweep as <- <-.
        destruct (IH _ _ _ Hrest_sorted Hsorted Hrest Hin Hdelete)
          as [Hgone Hreleased].
        split; [|done]. simpl. by apply not_elem_of_cons.
Qed.

(** The sweep of one type's data is a bounded loop. *)
Lemma sweep_data_bounded (timer : Z) (data : BattlegroundData) :
  sweep_data timer data <> OutOfFuel.
Proof.
  unfold sweep_data. destruct (m_Battlegrounds data) as [|template live];
    [done|].
  assert (Hlive : forall clientIds,
            sweep_instances timer live clientIds <> OutOfFuel).
  { induction live as [|[instanceId bg] rest IH]; intros clientIds; simpl;
      [done|].
    destruct (ToBeDeleted _).
    - unfold array_get. case_decide; [|done].
      destruct (_ !! _); cbn [mbind result_bind]; [apply IH|done].
    - specialize (IH clientIds).
      by destruct (sweep_instances timer rest clientIds) as [[??]| |]. }
  specialize (Hlive (m_ClientBattlegroundIds data)).
  by destruct (sweep_instances _ _ _) as [[??]| |].
Qed.

(** The sweep handles each type's data on its own. *)
Lemma sweep_store_find (timer : Z) (store store' : StdMap.t BattlegroundData)
  (bgTypeId : Z) (data : BattlegroundData) :
  sweep_store timer store = Done store' ->
  StdMap.find bgTypeId store = Some data ->
  exists data',
    StdMap.find bgTypeId store' = Some data'
    /\ sweep_data timer data = Done data'.
Proof.
  revert store'. induction store as [|[k d] rest IH]; intros store'; simpl;
    [done|].
  destruct (sweep_data timer d) as [d'| |] eqn:Hd;
    cbn [mbind result_bind]; [|done..].
  destruct (sweep_store timer rest) as [rest'| |];
    cbn [mbind result_bind]; [|done..].
  intros [= <-]. simpl. case_decide.
  - intros [= <-]. by exists d'.
  - by apply IH.
Qed.

(** The pool and the accumulator after a tick are those after its first
    step. *)
Lemma Update_pool (fuel : nat) (diff : Z) (mgr mgr' : BattlegroundMgr)
  (calls : list QueueCall) :
  Update fuel diff mgr = Done (mgr', calls) ->
  exists mgr1,
    Update_instances diff mgr = Done mgr1
    /\ bgDataStore mgr' = bgDataStore mgr1
    /\ m_UpdateTimer mgr' = m_UpdateTimer mgr1.
Proof.
  unfold Update.
  destruct (Update_instances diff mgr) as [mgr1| |];
    cbn [mbind result_bind]; [|done..].
  destruct (Update_scheduled fuel diff mgr1) as [[mgr2 scheduled]| |] eqn:Hbatch;
    cbn [mbind result_bind]; [|done..].
  assert (Hsame2 : bgDataStore mgr2 = bgDataStore mgr1
                   /\ m_UpdateTimer mgr2 = m_UpdateTimer mgr1).
  { revert Hbatch. unfold Update_scheduled.
    destruct (m_QueueUpdateScheduler mgr1); [by intros [= <- _]|].
    destruct (scheduled_loop _ _ _ _); cbn [mbind result_bind]; [|done..].
    by intros [= <- _]. }
  destruct Hsame2 as [Hstore2 Htimer2].
  destruct (Update_ratedArenas diff mgr2) as [mgr3 forced] eqn:Hrated.
  intros [= <- _]. exists mgr1. split; [done|].
  rewrite <- Hstore2, <- Htimer2. revert Hrated. unfold Update_ratedArenas.
  destruct (_ && _); [case_decide|]; by intros [= <- _].
Qed.

(** X13: what a sweeping tick leaves in the pool. When the accumulated time
    exceeds the interval, a tick that returns has reset the accumulator to
    0, and for every type the container holds its first entry untouched,
    followed by the other entries updated with the accumulated time, in
    their order, minus those that ask to be deleted. *)
Theorem Update_sweeps (fuel : nat) (diff : Z) (mgr mgr' : BattlegroundMgr)
  (calls : list QueueCall) :
  wrap32 (m_UpdateTimer mgr + diff) > BATTLEGROUND_OBJECTIVE_UPDATE_INTERVAL ->
  Update fuel diff mgr = Done (mgr', calls) ->
  m_UpdateTimer mgr' = 0
  /\ forall bgTypeId data,
       StdMap.find bgTypeId (bgDataStore mgr) = Some data ->
       exists data' template live,
         StdMap.find bgTypeId (bgDataStore mgr') = Some data'
         /\ m_Battlegrounds data = template :: live
         /\ m_Battlegrounds data'
            = template
              :: filter (fun entry : Z * Battleground =>
                           ToBeDeleted entry.2 = false)
                   ((fun entry : Z * Battleground =>
                       (entry.1,
                        Battleground_Update
                          (wrap32 (m_UpdateTimer mgr + diff)) entry.2))
                    <$> live).
Proof.
  intros Hsweep Hrun.
  destruct (Update_pool _ _ _ _ _ Hrun) as (mgr1 & Hfirst & Hstore & Htimer).
  rewrite Hstore, Htimer. clear Hrun Hstore Htimer.
  revert Hfirst. unfold Update_instances. rewrite decide_True by done.
  destruct (sweep_store _ _) as [store'| |] eqn:Hstore;
    cbn [mbind result_bind]; [|done..].
  intros [= <-]. split; [done|].
  intros bgTypeId data Hfind. simpl.
  destruct (sweep_store_find _ _ _ _ _ Hstore Hfind) as (data' & Hfind' & Hdata).
  revert Hdata. unfold sweep_data.
  destruct (m_Battlegrounds data) as [|template live] eqn:Hcontainer;
    [done|].
  destruct (sweep_instances _ _ _) as [[live' clientIds']| |] eqn:Hlive;
    cbn [mbind result_bind]; [|done..].
  intros [= <-]. eexists _, template, live.
  split; [done|]. split; [done|]. simpl. f_equal.
  by eapply sweep_instances_filter.
Qed.

(** X14: a retired instance is gone and its client id is free. In a pool in
    key order, when a sweeping tick returns, an instance after the first
    entry of its type that asks to be deleted once updated is no longer in
    the container of its type, and its client id is no longer in the id set
    of its bracket. *)
Theorem Update_retires (fuel : nat) (diff : Z) (mgr mgr' : BattlegroundMgr)
  (calls : list QueueCall) (bgTypeId : Z) (data : BattlegroundData)
  (template : Z * Battleground) (live : list (Z * Battleground))
  (instanceId : Z) (bg : Battleground) :
  pool_sorted mgr ->
  wrap32 (m_UpdateTimer mgr + diff) > BATTLEGROUND_OBJECTIVE_UPDATE_INTERVAL ->
  Update fuel diff mgr = Done (mgr', calls) ->
  StdMap.find bgTypeId (bgDataStore mgr) = Some data ->
  m_Battlegrounds data = template :: live ->
  (instanceId, bg) ∈ live ->
  ToBeDeleted
    (Battleground_Update (wrap32 (m_UpdateTimer mgr + diff)) bg) = true ->
  StdMap.find instanceId (m_Battlegrounds (data_at bgTypeId mgr')) = None
  /\ exists clients,
       m_ClientBattlegroundIds (data_at bgTypeId mgr')
         !! Z.to_nat
              (m_BracketId
                 (Battleground_Update (wrap32 (m_UpdateTimer mgr + diff)) bg))
       = Some clients
       /\ m_ClientInstanceID
            (Battleground_Update (wrap32 (m_UpdateTimer mgr + diff)) bg)
          ∉ clients.
Proof.
  intros [_ Hpool] Hsweep Hrun Hfind Hcontainer Hin Hdelete.
  destruct (Update_pool _ _ _ _ _ Hrun) as (mgr1 & Hfirst & Hstore & _).
  unfold data_at. rewrite Hstore. clear Hrun Hstore.
  revert Hfirst. unfold Update_instances. rewrite decide_True by done.
  destruct (sweep_store _ _) as [store'| |] eqn:Hstore;
    cbn [mbind result_bind]; [|done..].
  intros [= <-]. simpl.
  destruct (sweep_store_find _ _ _ _ _ Hstore Hfind) as (data' & -> & Hdata).
  simpl. pose proof (find_Forall _ _ _ _ Hpool Hfind) as Hsorted.
  cbn [snd] in Hsorted. destruct Hsorted as [Hmap Hsets].
  unfold StdMap.sorted in Hmap. rewrite Hcontainer in Hmap. simpl in Hmap.
  apply StronglySorted_inv in Hmap as [Hlive Hlt].
  revert Hdata. unfold sweep_data. rewrite Hcontainer.
  destruct (sweep_instances _ _ _) as [[live' clientIds']| |] eqn:Hsweeps;
    cbn [mbind result_bind]; [|done..].
  intros [= <-]. simpl.
  destruct (sweep_instances_retires _ _ _ _ _ _ _ Hlive Hsets Hsweeps
              Hin Hdelete) as [Hgone Hreleased].
  split; [|done].
  destruct template as [k0 t0]. simpl.
  assert (Hne : instanceId <> k0).
  { rewrite Forall_forall in Hlt. assert (k0 < instanceId); [|lia].
    apply Hlt. apply list_elem_of_fmap. by exists (instanceId, bg). }
  rewrite decide_False by done.
  destruct (StdMap.find instanceId live') as [found|] eqn:Hfound; [|done].
  exfalso. apply Hgone. by eapply find_Some_key.
Qed.

(** X15: ticks below the interval add up. If a first tick does not reach
    the interval, the accumulator and the pool after a second tick are
    those of one tick with the two elapsed times added: the sweep, when it
    comes, passes the instances all the time elapsed since the last one. *)
Theorem Update_instances_accumulates (diff1 diff2 : Z)
  (mgr : BattlegroundMgr) :
  wrap32 (m_UpdateTimer mgr + diff1) <= BATTLEGROUND_OBJECTIVE_UPDATE_INTERVAL ->
  (Update_instances diff1 mgr ≫= Update_instances diff2)
  = Update_instances (diff1 + diff2) mgr.
Proof.
  intros Hbelow. rewrite Update_instances_below by done.
  cbn [mbind result_bind]. unfold Update_instances. simpl.
  assert (Htimer : wrap32 (wrap32 (m_UpdateTimer mgr + diff1) + diff2)
                   = wrap32 (m_UpdateTimer mgr + (diff1 + diff2))).
  { unfold wrap32. rewrite Zplus_mod_idemp_l. f_equal. lia. }
  rewrite Htimer. case_decide; [|done].
  by destruct (sweep_store _ _).
Qed.

(** X16: a type entry without instances makes the sweep undefined.
    RemoveBattleground for a type the pool has no entry for creates an
    entry with an empty container; the next tick that sweeps then
    increments the end iterator of that empty container. *)
Theorem Update_after_RemoveBattleground_unknown (fuel : nat) (diff : Z)
  (bgTypeId instanceId : Z) (mgr : BattlegroundMgr) :
  StdMap.find bgTypeId (bgDataStore mgr) = None ->
  wrap32 (m_UpdateTimer mgr + diff) > BATTLEGROUND_OBJECTIVE_UPDATE_INTERVAL ->
  Update fuel diff (RemoveBattleground bgTypeId instanceId mgr) = Undefined.
Proof.
  intros Hnone Hsweep.
  assert (Hstore : forall timer (store : StdMap.t BattlegroundData) data,
    m_Battlegrounds data = [] ->
    sweep_store timer (StdMap.assign bgTypeId data store) = Undefined).
  { intros timer store data Hempty.
    assert (Hdata : sweep_data timer data = Undefined)
      by (unfold sweep_data; by rewrite Hempty).
    induction store as [|[k d] rest IH]; cbn [StdMap.assign].
    - cbn [sweep_store]. by rewrite Hdata.
    - repeat case_decide; cbn [sweep_store].
      + by rewrite Hdata.
      + by rewrite Hdata.
      + pose proof (sweep_data_bounded timer d).
        destruct (sweep_data timer d); cbn [mbind result_bind]; [|done..].
        by rewrite IH. }
  unfold Update, Update_instances, RemoveBattleground, data_at, set_data_at.
  rewrite Hnone. simpl. rewrite decide_True by done.
  by rewrite Hstore.
Qed.

End SweepOutcome.

Lemma mgr_with_live_sorted : pool_sorted mgr_with_live.
Proof.
  split.
  - unfold StdMap.sorted. simpl. repeat constructor.
  - simpl. repeat constructor.
Qed.

Lemma Update_sweeps_witness :
  m_UpdateTimer
    (with_UpdateTimer 0 (with_NextRatedArenaUpdate 3999 (mgr_with_WS_ids [])))
  = 0
  /\ forall bgTypeId data,
       StdMap.find bgTypeId (bgDataStore mgr_with_live) = Some data ->
       exists data' template live,
         StdMap.find bgTypeId
           (bgDataStore
              (with_UpdateTimer 0
                 (with_NextRatedArenaUpdate 3999 (mgr_with_WS_ids []))))
         = Some data'
         /\ m_Battlegrounds data = template :: live
         /\ m_Battlegrounds data'
            = template
              :: filter (fun entry : Z * Battleground =>
                           ToBeDeleted entry.2 = false)
                   ((fun entry : Z * Battleground =>
                       (entry.1,
                        Battleground_Update (BattlegroundScript := sample_script)
                          (wrap32 (m_UpdateTimer mgr_with_live + 1001))
                          entry.2))
                    <$> live).
Proof.
  apply (Update_sweeps (D := sample_defines) (Script := sample_script)
           (W := sample_world) 1 1001 mgr_with_live
           (with_UpdateTimer 0
              (with_NextRatedArenaUpdate 3999 (mgr_with_WS_ids [])))
           (Update_events (D := sample_defines) 1001)).
  - vm_compute. reflexivity.
  - vm_compute. reflexivity.
Defined.

Lemma Update_retires_witness :
  StdMap.find 7
    (m_Battlegrounds
       (data_at (D := sample_defines) 2
          (with_UpdateTimer 0
             (with_NextRatedArenaUpdate 3999 (mgr_with_WS_ids [])))))
  = None
  /\ exists clients,
       m_ClientBattlegroundIds
         (data_at (D := sample_defines) 2
            (with_UpdateTimer 0
               (with_NextRatedArenaUpdate 3999 (mgr_with_WS_ids []))))
         !! 0%nat = Some clients
       /\ (1 ∉ clients).
Proof.
  apply (Update_retires (D := sample_defines) (Script := sample_script)
           (W := sample_world) 1 1001 mgr_with_live
           (with_UpdateTimer 0
              (with_NextRatedArenaUpdate 3999 (mgr_with_WS_ids [])))
           (Update_events (D := sample_defines) 1001) 2
           (data_at (D := sample_defines) 2 mgr_with_live)
           (0, new_Battleground (D := sample_defines) sample_WS)
           [(7, sample_live)] 7 sample_live).
  - exact mgr_with_live_sorted.
  - vm_compute. reflexivity.
  - vm_compute. reflexivity.
  - vm_compute. reflexivity.
  - vm_compute. reflexivity.
  - apply list_elem_of_here.
  - vm_compute. reflexivity.
Defined.

Lemma Update_instances_accumulates_witness :
  (Update_instances (D := sample_defines) (Script := sample_script) 400
     mgr_with_live
   ≫= Update_instances (D := sample_defines) (Script := sample_script) 601)
  = Update_instances (D := sample_defines) (Script := sample_script) 1001
      mgr_with_live.
Proof.
  apply (Update_instances_accumulates (D := sample_defines)
           (Script := sample_script) 400 601 mgr_with_live).
  vm_compute. discriminate.
Defined.

Lemma Update_after_RemoveBattleground_unknown_witness :
  Update (D := sample_defines) (Script := sample_script) (W := sample_world)
    1 1001 (RemoveBattleground (D := sample_defines) 3 7 loaded_mgr)
  = Undefined.
Proof.
  apply (Update_after_RemoveBattleground_unknown (D := sample_defines)
           (Script := sample_script) (W := sample_world) 1 1001 3 7
           loaded_mgr).
  - vm_compute. reflexivity.
  - vm_compute. reflexivity.
Defined.

(** ** InstancePool: lookup over all types *)

Section LookupAnyType.
Context {D : SharedDefines}.

(** The loop over the whole type map stops at the lowest type that holds
    the instance id. *)
Lemma find_instance_lowest (instanceId : Z)
  (store : StdMap.t BattlegroundData) :
  StdMap.sorted store ->
  match find_instance instanceId store with
  | None =>
      forall bgTypeId data,
        StdMap.find bgTypeId store = Some data ->
        StdMap.find instanceId (m_Battlegrounds data) = None
  | Some bg =>
      exists bgTypeId data,
        StdMap.find bgTypeId store = Some data
        /\ StdMap.find instanceId (m_Battlegrounds data) = Some bg
        /\ forall bgTypeId' data',
             bgTypeId' < bgTypeId ->
             StdMap.find bgTypeId' store = Some data' ->
             StdMap.find instanceId (m_Battlegrounds data') = None
  end.
Proof.
  unfold StdMap.sorted.
  induction store as [|[k d] rest IH]; simpl; [done|].
  intros Hsorted. apply StronglySorted_inv in Hsorted as [Hrest Hlt].
  rewrite Forall_forall in Hlt.
  destruct (StdMap.find instanceId (m_Battlegrounds d)) as [bg|] eqn:Hhere.
  - exists k, d. rewrite decide_True by done. split; [done|]. split; [done|].
    intros k' d' Hbelow. rewrite decide_False by lia.
    intros Hfind. apply find_Some_key in Hfind. specialize (Hlt _ Hfind). lia.
  - specialize (IH Hrest).
    destruct (find_instance instanceId rest) as [bg|].
    + destruct IH as (t & data & Hfind & Hfound & Hlowest).
      exists t, data.
      pose proof (Hlt _ (find_Some_key _ _ _ Hfind)) as Habove.
      rewrite decide_False by lia. split; [done|]. split; [done|].
      intros k' d' Hbelow. case_decide; [by intros [= <-]|].
      by apply Hlowest.
    + intros t data. case_decide; [by intros [= <-]|]. apply IH.
Qed.

(** X17: a lookup with BATTLEGROUND_TYPE_NONE searches every type, lowest
    type first. On a type map in key order, if it finds nothing then no
    typed lookup of that instance id finds anything; and what it finds is
    held under some type, is what the typed lookup for that type returns,
    and no lower type holds that instance id. *)
Theorem GetBattleground_any_type (instanceId : Z) (mgr : BattlegroundMgr) :
  StdMap.sorted (bgDataStore mgr) ->
  match GetBattleground instanceId BATTLEGROUND_TYPE_NONE mgr with
  | None => forall bgTypeId, GetBattleground instanceId bgTypeId mgr = None
  | Some bg =>
      exists bgTypeId,
        StdMap.find instanceId (m_Battlegrounds (data_at bgTypeId mgr))
        = Some bg
        /\ (bgTypeId <> BATTLEGROUND_TYPE_NONE ->
            GetBattleground instanceId bgTypeId mgr = Some bg)
        /\ forall bgTypeId',
             bgTypeId' < bgTypeId ->
             StdMap.find instanceId (m_Battlegrounds (data_at bgTypeId' mgr))
             = None
  end.
Proof.
  intros Hsorted. pose proof (find_instance_lowest instanceId _ Hsorted) as Hloop.
  unfold GetBattleground at 1.
  destruct (decide (instanceId = 0)) as [Hzero|Hid].
  { intros bgTypeId. unfold GetBattleground. by rewrite decide_True. }
  rewrite decide_True by done.
  destruct (find_instance instanceId (bgDataStore mgr)) as [bg|] eqn:Hany.
  - destruct Hloop as (t & data & Hfind & Hfound & Hlowest).
    exists t. unfold data_at. rewrite Hfind. simpl. split; [done|].
    split.
    + intros Htype. rewrite GetBattleground_typed by done.
      unfold data_at. by rewrite Hfind.
    + intros t' Hbelow.
      destruct (StdMap.find t' (bgDataStore mgr)) as [data'|] eqn:Hfind';
        simpl; [|done].
      by eapply Hlowest.
  - intros bgTypeId. unfold GetBattleground. rewrite decide_False by done.
    case_decide; [exact Hany|].
    destruct (StdMap.find bgTypeId (bgDataStore mgr)) as [data|] eqn:Hfind;
      [|done].
    simpl. by rewrite (Hloop _ _ Hfind).
Qed.

End LookupAnyType.

Lemma GetBattleground_any_type_witness :
  match
    GetBattleground (D := sample_defines) 7
      (BATTLEGROUND_TYPE_NONE (SharedDefines := sample_defines)) mgr_with_live
  with
  | None =>
      forall bgTypeId,
        GetBattleground (D := sample_defines) 7 bgTypeId mgr_with_live = None
  | Some bg =>
      exists bgTypeId,
        StdMap.find 7
          (m_Battlegrounds (data_at (D := sample_defines) bgTypeId
                              mgr_with_live))
        = Some bg
        /\ (bgTypeId <> BATTLEGROUND_TYPE_NONE (SharedDefines := sample_defines) ->
            GetBattleground (D := sample_defines) 7 bgTypeId mgr_with_live
            = Some bg)
        /\ forall bgTypeId',
             bgTypeId' < bgTypeId ->
             StdMap.find 7
               (m_Battlegrounds (data_at (D := sample_defines) bgTypeId'
                                   mgr_with_live))
             = None
  end.
Proof.
  apply (GetBattleground_any_type (D := sample_defines) 7 mgr_with_live).
  unfold StdMap.sorted. vm_compute. repeat constructor.
Defined.

(** ** The spirit healer timer *)

(** X18: the time left until the next resurrection. For a last-resurrect
    time of at most 30 seconds the packet carries the remaining time, at
    most 30000 ms; an overshoot of exactly one millisecond is sent as 0;
    any larger overshoot wraps around modulo 2^32 and is sent as a time of
    more than 30000 ms. The packet always names the given healer. *)
Theorem SendAreaSpiritHealerQueryOpcode_TimeLeft (lastResurrectTime guid : Z) :
  0 <= lastResurrectTime < 2 ^ 32 ->
  HealerGuid (SendAreaSpiritHealerQueryOpcode lastResurrectTime guid) = guid
  /\ (lastResurrectTime <= 30000 ->
      TimeLeft (SendAreaSpiritHealerQueryOpcode lastResurrectTime guid)
      = 30000 - lastResurrectTime)
  /\ (lastResurrectTime = 30001 ->
      TimeLeft (SendAreaSpiritHealerQueryOpcode lastResurrectTime guid) = 0)
  /\ (30001 < lastResurrectTime ->
      TimeLeft (SendAreaSpiritHealerQueryOpcode lastResurrectTime guid)
      = 2 ^ 32 + 30000 - lastResurrectTime
      /\ 30000
         < TimeLeft (SendAreaSpiritHealerQueryOpcode lastResurrectTime guid)).
Proof.
  intros Hrange. unfold SendAreaSpiritHealerQueryOpcode, wrap32. simpl.
  change (-1 mod 2 ^ 32) with 4294967295.
  split; [done|]. split; [|split].
  - intros Hle. rewrite Z.mod_small by lia. case_decide; simpl; lia.
  - intros ->. by rewrite decide_True.
  - intros Hover.
    assert (Hwrap : (30000 - lastResurrectTime) mod 2 ^ 32
                    = 2 ^ 32 + 30000 - lastResurrectTime).
    { change (2 ^ 32) with 4294967296 in *. Z.div_mod_to_equations. lia. }
    rewrite Hwrap. case_decide; simpl; lia.
Qed.

Lemma SendAreaSpiritHealerQueryOpcode_TimeLeft_witness :
  TimeLeft (SendAreaSpiritHealerQueryOpcode 12000 5) = 30000 - 12000.
Proof.
  apply (SendAreaSpiritHealerQueryOpcode_TimeLeft 12000 5); lia.
Defined.

(** ** Battlemaster entries *)

Section BattleMastersProperties.
Context {E : BattleMasterEnv}.

(** The loop keeps, for each creature, the type of its last accepted row,
    or what the map held before if no row of the creature is accepted. *)
Lemma load_battlemaster_rows_lookup (rows : list (Z * Z))
  (mBattleMastersMap : BattleMastersMap) (count : Z) (entry bgTypeId : Z) :
  (load_battlemaster_rows rows mBattleMastersMap count).1 !! entry
  = Some bgTypeId
  <-> (exists before after,
          rows = before ++ (entry, bgTypeId) :: after
          /\ is_Some (GetCreatureTemplate entry)
          /\ BattlemasterListStore_LookupEntry bgTypeId = true
          /\ forall bgTypeId',
               (entry, bgTypeId') ∈ after ->
               BattlemasterListStore_LookupEntry bgTypeId' = false)
      \/ (mBattleMastersMap !! entry = Some bgTypeId
          /\ forall bgTypeId',
               (entry, bgTypeId') ∈ rows ->
               is_Some (GetCreatureTemplate entry) ->
               BattlemasterListStore_LookupEntry bgTypeId' = false).
Proof.
  revert mBattleMastersMap count.
  induction rows as [|[e ty] rest IH]; intros m count.
  - simpl. split.
    + intros Hm. right. split; [done|]. intros t' Hin.
      by apply elem_of_nil in Hin.
    + intros [(before & after & Hrows & _)|[Hm _]]; [|done].
      by destruct before.
  - cbn [load_battlemaster_rows].
    assert (Hskip :
      (GetCreatureTemplate e = None
       \/ BattlemasterListStore_LookupEntry ty = false) ->
      (load_battlemaster_rows rest m (wrap32 (count + 1))).1 !! entry
      = Some bgTypeId
      <-> (exists before after,
              (e, ty) :: rest = before ++ (entry, bgTypeId) :: after
              /\ is_Some (GetCreatureTemplate entry)
              /\ BattlemasterListStore_LookupEntry bgTypeId = true
              /\ forall bgTypeId',
                   (entry, bgTypeId') ∈ after ->
                   BattlemasterListStore_LookupEntry bgTypeId' = false)
          \/ (m !! entry = Some bgTypeId
              /\ forall bgTypeId',
                   (entry, bgTypeId') ∈ (e, ty) :: rest ->
                   is_Some (GetCreatureTemplate entry) ->
                   BattlemasterListStore_LookupEntry bgTypeId' = false)).
    { intros Hinvalid. rewrite IH. split.
      - intros [(before & after & -> & Hcreature & Htype & Hlater)|[Hm Hnone]].
        + left. by exists ((e, ty) :: before), after.
        + right. split; [done|]. intros t' Hin Hcreature.
          apply elem_of_cons in Hin as [[= <- <-]|Hin]; [|by apply Hnone].
          destruct Hinvalid as [Hmissing|Hunknown]; [|done].
          rewrite Hmissing in Hcreature. by destruct Hcreature.
      - intros [(before & after & Hrows & Hcreature & Htype & Hlater)|[Hm Hnone]].
        + destruct before as [|row before]; simpl in Hrows.
          * simplify_eq.
            destruct Hinvalid as [Hmissing|Hunknown]; [|congruence].
            rewrite Hmissing in Hcreature. by destruct Hcreature.
          * simplify_eq. left. by exists before, after.
        + right. split; [done|]. intros t' Hin. apply Hnone.
          by apply list_elem_of_further. }
    destruct (GetCreatureTemplate e) as [cInfo|] eqn:Hcreature;
      [|apply Hskip; by left].
    destruct (BattlemasterListStore_LookupEntry ty) eqn:Htype;
      [|apply Hskip; by right].
    clear Hskip. rewrite IH. unfold BattleMastersMap in *. split.
    + intros [(before & after & -> & Hc & Ht & Hlater)|[Hm Hnone]].
      * left. by exists ((e, ty) :: before), after.
      * destruct (decide (e = entry)) as [->|Hne].
        -- rewrite lookup_insert_eq in Hm. injection Hm as ->.
           left. exists [], rest. split; [done|].
           split; [by rewrite Hcreature|]. split; [done|].
           intros t' Hin. apply Hnone; [done|]. by rewrite Hcreature.
        -- rewrite lookup_insert_ne in Hm by done.
           right. split; [done|]. intros t' Hin.
           apply elem_of_cons in Hin as [[= ? ?]|Hin]; [congruence|].
           by apply Hnone.
    + intros [(before & after & Hrows & Hc & Ht & Hlater)|[Hm Hnone]].
      * destruct before as [|row before]; simpl in Hrows.
        -- simplify_eq. right.
           rewrite lookup_insert_eq. split; [done|].
           intros t' Hin _. by apply Hlater.
        -- simplify_eq. left. by exists before, after.
      * destruct (decide (e = entry)) as [->|Hne].
        -- rewrite (Hnone ty) in Htype;
             [done|apply list_elem_of_here|by rewrite Hcreature].
        -- right. rewrite lookup_insert_ne by done. split; [done|].
           intros t' Hin. apply Hnone. by apply list_elem_of_further.
Qed.

(** The counter counts the rows. *)
Lemma load_battlemaster_rows_count (rows : list (Z * Z))
  (mBattleMastersMap : BattleMastersMap) (count : Z) :
  0 <= count < 2 ^ 32 ->
  (load_battlemaster_rows rows mBattleMastersMap count).2
  = wrap32 (count + Z.of_nat (length rows)).
Proof.
  revert mBattleMastersMap count.
  induction rows as [|[e ty] rest IH]; intros m count Hrange.
  - simpl. unfold wrap32. rewrite Z.add_0_r. by rewrite Z.mod_small.
  - cbn [load_battlemaster_rows length].
    assert (Hnext : 0 <= wrap32 (count + 1) < 2 ^ 32)
      by (unfold wrap32; by apply Z.mod_pos_bound).
    assert (Hsum : wrap32 (wrap32 (count + 1) + Z.of_nat (length rest))
                   = wrap32 (count + Z.of_nat (S (length rest)))).
    { unfold wrap32. rewrite Zplus_mod_idemp_l. f_equal. lia. }
    destruct (GetCreatureTemplate e);
      [destruct (BattlemasterListStore_LookupEntry ty)|];
      by rewrite IH.
Qed.

(** X19: the battlemaster map after a load. A creature is mapped to a
    battleground type exactly when the table has a row for it with that
    type, the creature exists, the type is in BattlemasterList, and no
    later row of that creature has a type in BattlemasterList: the last
    accepted row wins, rows of missing creatures or unknown types leave no
    trace, and nothing of the previous map survives. *)
Theorem LoadBattleMastersEntry_map (rows : list (Z * Z))
  (mBattleMastersMap : BattleMastersMap) (ctc : CreatureTemplateContainer)
  (entry bgTypeId : Z) :
  (LoadBattleMastersEntry rows mBattleMastersMap ctc).1.1 !! entry
  = Some bgTypeId
  <-> exists before after,
        rows = before ++ (entry, bgTypeId) :: after
        /\ is_Some (GetCreatureTemplate entry)
        /\ BattlemasterListStore_LookupEntry bgTypeId = true
        /\ forall bgTypeId',
             (entry, bgTypeId') ∈ after ->
             BattlemasterListStore_LookupEntry bgTypeId' = false.
Proof.
  assert (Hloaded :
    (LoadBattleMastersEntry rows mBattleMastersMap ctc).1.1
    = (load_battlemaster_rows rows ∅ 0).1).
  { unfold LoadBattleMastersEntry. destruct rows as [|row rest]; [done|].
    by destruct (load_battlemaster_rows (row :: rest) ∅ 0). }
  rewrite Hloaded, load_battlemaster_rows_lookup. split.
  - intros [Hrow|[Hempty _]]; [done|]. unfold BattleMastersMap in *.
    by rewrite lookup_empty in Hempty.
  - intros Hrow. by left.
Qed.

(** X20: what CheckBattleMasters does to the creature templates. Every
    creature stays, with its entry and with every flag other than the
    battlemaster flag as before; a creature that still carries the flag
    afterwards has an entry in the battlemaster map; and a creature with
    an entry in the map keeps its flags unchanged. *)
Theorem CheckBattleMasters_flags (mBattleMastersMap : BattleMastersMap)
  (ctc : CreatureTemplateContainer) (key : Z) :
  match ctc !! key with
  | None => CheckBattleMasters mBattleMastersMap ctc !! key = None
  | Some ct =>
      exists ct',
        CheckBattleMasters mBattleMastersMap ctc !! key = Some ct'
        /\ Entry ct' = Entry ct
        /\ Z.land (npcflag ct') (Z.lnot UNIT_NPC_FLAG_BATTLEMASTER)
           = Z.land (npcflag ct) (Z.lnot UNIT_NPC_FLAG_BATTLEMASTER)
        /\ (Z.land (npcflag ct') UNIT_NPC_FLAG_BATTLEMASTER <> 0 ->
            is_Some (mBattleMastersMap !! Entry ct'))
        /\ (is_Some (mBattleMastersMap !! Entry ct) -> ct' = ct)
  end.
Proof.
  unfold CheckBattleMasters, CreatureTemplateContainer, BattleMastersMap in *.
  rewrite lookup_fmap.
  destruct (ctc !! key) as [ct|]; simpl; [|done].
  eexists. split; [done|].
  destruct (bool_decide (Z.land (npcflag ct) UNIT_NPC_FLAG_BATTLEMASTER <> 0))
    eqn:Hflag; simpl.
  - destruct (bool_decide (mBattleMastersMap !! Entry ct = None)) eqn:Hentry;
      simpl.
    + apply bool_decide_eq_true in Hentry.
      split; [done|]. split; [by rewrite <- Z.land_assoc, Z.land_diag|].
      split.
      * rewrite <- Z.land_assoc, (Z.land_comm (Z.lnot _)), Z.land_lnot_diag,
          Z.land_0_r. done.
      * rewrite Hentry. by intros [? ?].
    + apply bool_decide_eq_false in Hentry.
      split; [done|]. split; [done|]. split; [|done].
      intros _. by destruct (mBattleMastersMap !! Entry ct).
  - apply bool_decide_eq_false in Hflag.
    split; [done|]. split; [done|]. split; [|done].
    intros Hstill. by destruct Hflag.
Qed.

(** X21: the empty table and the reported count. With no row the load
    stops before the check: the map is empty, the creature templates are
    untouched, flagged or not, and no count is reported. With rows, the
    templates are those CheckBattleMasters leaves for the loaded map, and
    the reported count is the number of rows read modulo 2^32, skipped
    rows included. *)
Theorem LoadBattleMastersEntry_report (rows : list (Z * Z))
  (mBattleMastersMap : BattleMastersMap) (ctc : CreatureTemplateContainer) :
  match rows with
  | [] => LoadBattleMastersEntry rows mBattleMastersMap ctc = (∅, ctc, None)
  | _ =>
      (LoadBattleMastersEntry rows mBattleMastersMap ctc).1.2
      = CheckBattleMasters
          (LoadBattleMastersEntry rows mBattleMastersMap ctc).1.1 ctc
      /\ (LoadBattleMastersEntry rows mBattleMastersMap ctc).2
         = Some (wrap32 (Z.of_nat (length rows)))
  end.
Proof.
  destruct rows as [|row rest]; [done|].
  unfold LoadBattleMastersEntry.
  pose proof (load_battlemaster_rows_count (row :: rest) ∅ 0) as Hcount.
  destruct (load_battlemaster_rows (row :: rest) ∅ 0) as [loaded count].
  simpl in *. split; [done|]. f_equal. apply Hcount. lia.
Qed.

End BattleMastersProperties.

(** A load on the sample world: the second row of creature 100 overrides
    the first, the rows of the missing creature 400 and of the unknown type
    9 are skipped but counted, and creature 200 loses its flag. *)
Example LoadBattleMastersEntry_sample :
  let '(loaded, ctc, count) :=
    LoadBattleMastersEntry (E := sample_battlemaster_env)
      [(100, 2); (400, 1); (300, 9); (100, 3)] ∅ sample_creatures in
  loaded !! 100 = Some 3 /\ loaded !! 300 = None /\ loaded !! 400 = None
  /\ npcflag <$> ctc !! 100 = Some 1048577
  /\ npcflag <$> ctc !! 200 = Some 0
  /\ npcflag <$> ctc !! 300 = Some 1
  /\ count = Some 4.
Proof. vm_compute. by repeat split. Qed.
